(** * downsampling.py: coverage downsampling of a CRAM/BAM file

    A shallow embedding of [downsampling.py], the script that drives
    sambamba and mosdepth to downsample an alignment file to a target
    coverage, and the properties of its specification checked against it.

    Conventions of the embedding.
    - A Python [str] is a [string]; its characters are code points
      below 256.
    - A Python [int] is a [Z].  A finite Python [float] is the rational it
      denotes, a [Q]; a division rounds its exact quotient to the nearest
      binary64 value ([round64]), and the two zeros are not told apart.
    - A function that can end in [sys.exit] or in an uncaught exception
      returns an [outcome]; the file system, the log and the commands
      handed to [os.system] are threaded through as a [world].
    - What an external command does is not part of the script: it is the
      parameter [os_system] of section [Script]. *)

From Stdlib Require Import ZArith QArith Qabs String Ascii List Lia Bool.
From Stdlib Require Import DecimalString.
From Stdlib Require DecimalPos DecimalZ.
From Stdlib Require Import Qpower Lqa.
From stdpp Require Import gmap strings.
Import ListNotations.

Local Open Scope string_scope.
Local Open Scope Z_scope.

(** ** Python string primitives *)

Module PyStr.

(** [s.endswith(suf)]. *)
Fixpoint endswith (s suf : string) : bool :=
  if String.eqb s suf then true
  else match s with
       | EmptyString => false
       | String _ s' => endswith s' suf
       end.

(** [s.endswith((suf1, suf2, ...))]: a tuple of suffixes. *)
Definition endswith_any (s : string) (sufs : list string) : bool :=
  existsb (endswith s) sufs.

(** [s.split(c)] for a one-character separator: never the empty list. *)
Fixpoint split (c : ascii) (s : string) : list string :=
  match s with
  | EmptyString => [EmptyString]
  | String a s' =>
      if Ascii.eqb a c then EmptyString :: split c s'
      else match split c s' with
           | [] => [String a EmptyString]
           | h :: t => String a h :: t
           end
  end.

(** [c.join(l)] for a one-character separator: the inverse of [split]. *)
Fixpoint join (c : ascii) (l : list string) : string :=
  match l with
  | [] => EmptyString
  | [x] => x
  | x :: l' => x ++ String c (join c l')
  end.

(** [l[-1]] and [l[0]] on the result of a split, which is not empty. *)
Definition last_item (l : list string) : string := List.last l EmptyString.
Definition first_item (l : list string) : string := List.hd EmptyString l.

(** [c in s]. *)
Fixpoint contains (c : ascii) (s : string) : bool :=
  match s with
  | EmptyString => false
  | String a s' => Ascii.eqb a c || contains c s'
  end.

(** [str.isspace] on one character (code points below 256). *)
Definition is_space (a : ascii) : bool :=
  let n := N_of_ascii a in
  ((9 <=? n) && (n <=? 13) || (28 <=? n) && (n <=? 32)
   || (n =? 133) || (n =? 160))%N.

Fixpoint lstrip (s : string) : string :=
  match s with
  | EmptyString => EmptyString
  | String a s' => if is_space a then lstrip s' else s
  end.

Fixpoint rstrip (s : string) : string :=
  match s with
  | EmptyString => EmptyString
  | String a s' =>
      match rstrip s' with
      | EmptyString => if is_space a then EmptyString else String a EmptyString
      | r => String a r
      end
  end.

(** [s.strip()]. *)
Definition strip (s : string) : string := rstrip (lstrip s).

Definition is_digit (a : ascii) : bool :=
  let n := N_of_ascii a in ((48 <=? n) && (n <=? 57))%N.

Definition digit_val (a : ascii) : Z := Z.of_N (N_of_ascii a) - 48.

(** The digits of an [int] literal: decimal digits, single underscores
    allowed between two digits. [seen] says that the previous character
    was a digit. *)
Fixpoint parse_digits (acc : Z) (seen : bool) (s : string) : option Z :=
  match s with
  | EmptyString => if seen then Some acc else None
  | String a s' =>
      if is_digit a then parse_digits (10 * acc + digit_val a) true s'
      else if Ascii.eqb a "_" then
             if seen then parse_digits acc false s' else None
           else None
  end.

(** The white space [int(s)] skips at both ends of a [str]: the ASCII
    white space of C ([isspace]: 9 to 13 and 32) and, of the code points
    from 128 to 255, the two Unicode white-space characters 133 and 160,
    which the conversion first turns into blanks. The separators 28 to 31
    are white space for [str.strip] but not here. *)
Definition is_int_space (a : ascii) : bool :=
  let n := N_of_ascii a in
  ((9 <=? n) && (n <=? 13) || (n =? 32) || (n =? 133) || (n =? 160))%N.

Fixpoint int_lstrip (s : string) : string :=
  match s with
  | EmptyString => EmptyString
  | String a s' => if is_int_space a then int_lstrip s' else s
  end.

Fixpoint int_rstrip (s : string) : string :=
  match s with
  | EmptyString => EmptyString
  | String a s' =>
      match int_rstrip s' with
      | EmptyString => if is_int_space a then EmptyString else String a EmptyString
      | r => String a r
      end
  end.

Fixpoint count_digits (s : string) : nat :=
  match s with
  | EmptyString => O
  | String a s' => if is_digit a then S (count_digits s') else count_digits s'
  end.

(** [sys.get_int_max_str_digits()] as CPython 3.11 and later set it: a
    numeral of more digits is refused by [int(s)]. *)
Definition max_str_digits : nat := 4300.

(** [int(s)] for a string: surrounding white space, an optional sign,
    then the digits, at most [max_str_digits] of them; [None] stands for
    [ValueError]. *)
Definition int (s : string) : option Z :=
  let t := int_rstrip (int_lstrip s) in
  if (max_str_digits <? count_digits t)%nat then None
  else
    match t with
    | String "+" r => parse_digits 0 false r
    | String "-" r => option_map Z.opp (parse_digits 0 false r)
    | _ => parse_digits 0 false t
    end.

(** ["%d" % z]. *)
Definition fmt_d (z : Z) : string := NilZero.string_of_int (Z.to_int z).

(** Round a non-negative rational to the nearest integer, ties to even. *)
Definition round_half_even (q : Q) : Z :=
  let n := Qnum q in
  let d := Zpos (Qden q) in
  let fl := n / d in
  let r := n mod d in
  match (2 * r) ?= d with
  | Lt => fl
  | Gt => fl + 1
  | Eq => if Z.even fl then fl else fl + 1
  end.

Fixpoint zeros (k : nat) : string :=
  match k with
  | O => EmptyString
  | S k' => String "0" (zeros k')
  end.

Definition zero_pad (width : nat) (s : string) : string :=
  zeros (width - String.length s) ++ s.

(** ["%f" % x]: six digits after the point. *)
Definition fmt_f (x : Q) : string :=
  let m := round_half_even (Qabs x * inject_Z 1000000) in
  (if Qnum x <? 0 then "-" else "")
    ++ fmt_d (m / 1000000) ++ "." ++ zero_pad 6 (fmt_d (m mod 1000000)).

(** [re.split(r'\t+', s)]: split at every maximal run of tabs. [in_sep]
    says that the previous character was a tab. *)
Fixpoint re_split_tabs_from (in_sep : bool) (s : string) : list string :=
  match s with
  | EmptyString => [EmptyString]
  | String a s' =>
      if Ascii.eqb a "009" then
        if in_sep then re_split_tabs_from true s'
        else EmptyString :: re_split_tabs_from true s'
      else match re_split_tabs_from false s' with
           | [] => [String a EmptyString]
           | h :: t => String a h :: t
           end
  end.

Definition re_split_tabs (s : string) : list string :=
  re_split_tabs_from false s.

(** The lines of a text file as [for line in f] yields them: each line
    keeps its terminator, and ["\r\n"] and a lone ["\r"] are read as
    ["\n"] (universal newlines). *)
Fixpoint lines_from (cur : string -> string) (s : string) : list string :=
  match s with
  | EmptyString =>
      match cur EmptyString with
      | EmptyString => []
      | l => [l]
      end
  | String a s' =>
      if Ascii.eqb a "010" then
        cur (String "010" EmptyString) :: lines_from (fun x => x) s'
      else if Ascii.eqb a "013" then
        match s' with
        | String b s'' =>
            if Ascii.eqb b "010"
            then lines_from cur s'
            else cur (String "010" EmptyString) :: lines_from (fun x => x) s'
        | EmptyString => [cur (String "010" EmptyString)]
        end
      else lines_from (fun x => cur (String a x)) s'
  end.

Definition readlines (content : string) : list string :=
  lines_from (fun x => x) content.

End PyStr.


(** ** The regular expressions of the script

    Both patterns start with [^] and are used with [re.search] without
    [re.MULTILINE], so they can only match at the first character. Nothing
    follows the bounded repetition, so taking digits greedily decides the
    match. *)

Module Re.

(** Consume at most [max] digits; the number consumed and the rest. *)
Fixpoint take_digits (max : nat) (s : string) : nat * string :=
  match max, s with
  | S m, String a r =>
      if PyStr.is_digit a
      then let '(k, rest) := take_digits m r in (S k, rest)
      else (O, s)
  | _, _ => (O, s)
  end.

(** [[0-9]{min,max}] at the head of [s]: the rest after the match. *)
Definition digits (min max : nat) (s : string) : option string :=
  let '(k, rest) := take_digits max s in
  if Nat.leb min k then Some rest else None.

(** A literal at the head of [s]: the rest after it. *)
Fixpoint literal (lit s : string) : option string :=
  match lit, s with
  | EmptyString, _ => Some s
  | String a lit', String b s' =>
      if Ascii.eqb a b then literal lit' s' else None
  | String _ _, EmptyString => None
  end.

(** [re.search(r"^[0-9]{1,2}", s)] is not [None]. *)
Definition search_digits (s : string) : bool :=
  match digits 1 2 s with Some _ => true | None => false end.

(** [re.search(r"^chr[0-9]{1,2}", s)] is not [None]. *)
Definition search_chr_digits (s : string) : bool :=
  match literal "chr" s with
  | Some rest => match digits 1 2 rest with Some _ => true | None => false end
  | None => false
  end.

(** [re.match("bam", s)] is not [None]: [s] starts with ["bam"]. *)
Definition match_bam (s : string) : bool :=
  match literal "bam" s with Some _ => true | None => false end.

End Re.

(** ** Outcomes and the world *)

Inductive exn : Type :=
| TypeError | ValueError | IndexError
| ZeroDivisionError | AttributeError | FileNotFoundError
| OverflowError | FileExistsError | NotADirectoryError.

(** How a call ends: it returns, it calls [sys.exit(code)], or an
    exception escapes. *)
Inductive outcome (A : Type) : Type :=
| Returned (a : A)
| SysExit (code : Z)
| Raised (e : exn).
Arguments Returned {A} a.
Arguments SysExit {A} code.
Arguments Raised {A} e.

(** The exit status of the process when the script ends this way: an
    uncaught exception makes the interpreter exit with status 1. *)
Definition exit_status {A : Type} (o : outcome A) : Z :=
  match o with
  | Returned _ => 0
  | SysExit c => c
  | Raised _ => 1
  end.

Inductive level : Type := ERROR | INFO.

(** The directories that exist and the content of the files. Paths are the
    strings the script builds; they are not normalised. *)
Record filesys : Type := {
  dirs : gset string;
  files : gmap string string
}.

(** The file system, the messages handed to [logging], and the commands
    handed to [os.system] with the status each returned, oldest first. *)
Record world : Type := {
  fs : filesys;
  log : list (level * string);
  cmds : list (string * Z)
}.

Definition M (A : Type) : Type := world -> outcome A * world.

Definition ret {A : Type} (a : A) : M A := fun w => (Returned a, w).

Definition bind {A B : Type} (m : M A) (k : A -> M B) : M B :=
  fun w =>
    match m w with
    | (Returned a, w') => k a w'
    | (SysExit c, w') => (SysExit c, w')
    | (Raised e, w') => (Raised e, w')
    end.

Notation "x <- m ; k" := (bind m (fun x => k))
  (at level 20, m at level 100, k at level 200, only parsing).

Definition raise {A : Type} (e : exn) : M A := fun w => (Raised e, w).

(** [sys.exit(code)]. *)
Definition sys_exit {A : Type} (code : Z) : M A := fun w => (SysExit code, w).

(** A computation without effects, run inside the script. *)
Definition lift {A : Type} (o : outcome A) : M A := fun w => (o, w).

Definition logging_emit (l : level) (msg : string) : M unit :=
  fun w => (Returned tt,
            {| fs := fs w; log := (log w ++ [(l, msg)])%list; cmds := cmds w |}).

Definition logging_error : string -> M unit := logging_emit ERROR.
Definition logging_info : string -> M unit := logging_emit INFO.

(** The non-empty proper prefixes of a path that end just before a ["/"]:
    the directories [mkdir(parents=True)] creates on the way. *)
Fixpoint parents_from (pre : string -> string) (p : string) : list string :=
  match p with
  | EmptyString => []
  | String a p' =>
      let here := if Ascii.eqb a "/"
                  then match pre EmptyString with
                       | EmptyString => []
                       | d => [d]
                       end
                  else [] in
      (here ++ parents_from (fun x => pre (String a x)) p')%list
  end.

Definition parents (p : string) : list string := parents_from (fun x => x) p.

Definition is_file (f : filesys) (p : string) : bool :=
  match files f !! p with
  | Some _ => true
  | None => false
  end.

(** [pathlib.Path(p).mkdir(parents=True, exist_ok=True)]: the directory
    and the missing ones above it are created; a regular file above [p]
    is [NotADirectoryError], one at [p] itself [FileExistsError]. *)
Definition mkdir_parents (p : string) : M unit :=
  fun w =>
    if existsb (is_file (fs w)) (parents p) then (Raised NotADirectoryError, w)
    else if is_file (fs w) p then (Raised FileExistsError, w)
    else (Returned tt,
          {| fs := {| dirs := {[ p ]} ∪ list_to_set (parents p) ∪ dirs (fs w);
                      files := files (fs w) |};
             log := log w; cmds := cmds w |}).

(** No regular file at [p] or above it: [mkdir_parents p] goes through. *)
Definition mkdir_ok (f : filesys) (p : string) : bool :=
  negb (existsb (is_file f) (parents p)) && negb (is_file f p).

(** [open(p, "r")] followed by reading the file. *)
Definition open_read (p : string) : M string :=
  fun w => match files (fs w) !! p with
           | Some content => (Returned content, w)
           | None => (Raised FileNotFoundError, w)
           end.

(** [l[i]]. *)
Definition index (l : list string) (i : nat) : outcome string :=
  match nth_error l i with
  | Some x => Returned x
  | None => Raised IndexError
  end.

(** [int(s)]. *)
Definition int_of (s : string) : outcome Z :=
  match PyStr.int s with
  | Some z => Returned z
  | None => Raised ValueError
  end.

(** *** Floats

    A [float] is a binary64 value: a finite one is the rational it
    denotes. [round64] is the rounding every arithmetic result goes
    through: to the nearest value with a significand of 53 bits and an
    exponent from -1074 up, ties to the even significand; [None] when the
    rounded magnitude reaches [2^1024]. *)

(** [2^e]. *)
Definition pow2 (e : Z) : Q := Qpower 2 e.

(** The exponent of the power of two at or just below a positive [x]. *)
Definition binade (x : Q) : Z :=
  let k := Z.log2 (Qnum x) - Z.log2 (Zpos (Qden x)) in
  if Qle_bool (pow2 k) x then k else k - 1.

(** The exponent of the last bit of the significand of a value near [x]:
    52 below the exponent of [x], and never below the subnormal -1074. *)
Definition ulp_exponent (x : Q) : Z := Z.max (binade x - 52) (-1074).

Definition round64 (x : Q) : option Q :=
  if Qeq_bool x 0 then Some 0%Q
  else
    let a := Qabs x in
    let e := ulp_exponent a in
    let m := PyStr.round_half_even (a / pow2 e) in
    let r := (inject_Z m * pow2 e)%Q in
    if Qle_bool (pow2 1024) r then None
    else Some (Qred (if Qnum x <? 0 then - r else r)%Q).

(** A binary64 value: [round64] leaves it as it is. *)
Definition representable (x : Q) : bool :=
  match round64 x with
  | Some q => Qeq_bool q x
  | None => false
  end.

Inductive pyfloat : Type :=
| Finite (x : Q)
| Infinity (negative : bool)
| NaN.

(** ["%f" % x]. *)
Definition fmt_float (x : pyfloat) : string :=
  match x with
  | Finite q => PyStr.fmt_f q
  | Infinity false => "inf"
  | Infinity true => "-inf"
  | NaN => "nan"
  end.

(** [a / b] on two [int]s: the exact quotient, rounded once;
    [OverflowError] when it is too large for a [float]. *)
Definition int_truediv (a b : Z) : outcome Q :=
  if b =? 0 then Raised ZeroDivisionError
  else match round64 (inject_Z a / inject_Z b) with
       | Some q => Returned q
       | None => Raised OverflowError
       end.

(** [a / b] on two [float]s, the first finite: a zero divisor raises, a
    quotient too large is an infinity. *)
Definition float_truediv (a : Q) (b : pyfloat) : outcome pyfloat :=
  match b with
  | NaN => Returned NaN
  | Infinity _ => Returned (Finite 0)
  | Finite b =>
      if Qeq_bool b 0 then Raised ZeroDivisionError
      else match round64 (a / b) with
           | Some q => Returned (Finite q)
           | None => Returned (Infinity (Qnum (a / b) <? 0))
           end
  end.

(** [a >= b] for a number [a] and a [float] [b]: the two are compared
    exactly. *)
Definition ge_float (a : Q) (b : pyfloat) : bool :=
  match b with
  | Finite b => Qle_bool b a
  | Infinity negative => negative
  | NaN => false
  end.

(** Values of the types the script passes around; a [PyFloat] is a
    finite float. *)
Inductive pyval : Type :=
| PyNone
| PyBool (b : bool)
| PyInt (z : Z)
| PyFloat (x : Q)
| PyStr (s : string).

(** The number a value denotes where Python takes it as one: in a
    comparison with a [float], under ["%f"] and in [float(v)] for a value
    that is no [str]. [None] stands for [TypeError]. *)
Definition as_number (v : pyval) : option Q :=
  match v with
  | PyBool b => Some (inject_Z (if b then 1 else 0))
  | PyInt z => Some (inject_Z z)
  | PyFloat x => Some x
  | PyNone | PyStr _ => None
  end.

(** [float(v)] for a number, also what ["%f" % v] formats: an [int] is
    rounded, and one too large is [OverflowError]. *)
Definition float_of (v : pyval) : outcome Q :=
  match v with
  | PyBool b => Returned (inject_Z (if b then 1 else 0))
  | PyInt z =>
      match round64 (inject_Z z) with
      | Some q => Returned q
      | None => Raised OverflowError
      end
  | PyFloat x => Returned x
  | PyNone | PyStr _ => Raised TypeError
  end.

(** What [argparse] returns for the options of the script: no option has
    a [type], so every value given on the command line is a [str]. *)
Record Namespace : Type := {
  input_file : string;
  output_dir : string;
  coverage : string;
  thread : string;
  sample_name : option string;
  skip_dupRm : bool;
  tmp : option string;
  loglevel : string
}.

Definition opt_str (o : option string) : pyval :=
  match o with Some s => PyStr s | None => PyNone end.

Definition attributes (a : Namespace) : list (string * pyval) :=
  [ ("input_file", PyStr (input_file a));
    ("output_dir", PyStr (output_dir a));
    ("coverage", PyStr (coverage a));
    ("thread", PyStr (thread a));
    ("sample_name", opt_str (sample_name a));
    ("skip_dupRm", PyBool (skip_dupRm a));
    ("tmp", opt_str (tmp a));
    ("loglevel", PyStr (loglevel a)) ].

Fixpoint assoc (name : string) (l : list (string * pyval)) : option pyval :=
  match l with
  | [] => None
  | (k, v) :: l' => if String.eqb k name then Some v else assoc name l'
  end.

(** [a.name]. *)
Definition getattr (a : Namespace) (name : string) : M pyval :=
  match assoc name (attributes a) with
  | Some v => ret v
  | None => raise AttributeError
  end.

(** [pathlib.Path(v)]: the argument has to be a [str]. *)
Definition as_path (v : pyval) : M string :=
  match v with
  | PyStr s => ret s
  | _ => raise TypeError
  end.

(** ** The filter expressions handed to [sambamba view -F]

    The script only builds the text of the expression. To say which reads
    an expression keeps, the fragment of sambamba's filter language the
    script uses is given a syntax tree, its concrete syntax ([render]: [not]
    binds tighter than [and], [and] tighter than [or]) and its meaning on
    the flags of a read ([keeps]). *)

Module Filter.

Inductive flag : Type := unmapped | mate_is_unmapped | paired | duplicate.

Inductive expr : Type :=
| Flag (f : flag)
| Not (e : expr)
| And (e1 e2 : expr)
| Or (e1 e2 : expr).

(** The flags of one read. *)
Record read : Type := {
  read_unmapped : bool;
  read_mate_unmapped : bool;
  read_paired : bool;
  read_duplicate : bool
}.

Definition has (r : read) (f : flag) : bool :=
  match f with
  | unmapped => read_unmapped r
  | mate_is_unmapped => read_mate_unmapped r
  | paired => read_paired r
  | duplicate => read_duplicate r
  end.

(** [keeps e r]: the read [r] passes the filter [e] and is written out. *)
Fixpoint keeps (e : expr) (r : read) : bool :=
  match e with
  | Flag f => has r f
  | Not e1 => negb (keeps e1 r)
  | And e1 e2 => keeps e1 r && keeps e2 r
  | Or e1 e2 => keeps e1 r || keeps e2 r
  end.

Definition flag_name (f : flag) : string :=
  match f with
  | unmapped => "unmapped"
  | mate_is_unmapped => "mate_is_unmapped"
  | paired => "paired"
  | duplicate => "duplicate"
  end.

Definition prec (e : expr) : nat :=
  match e with
  | Or _ _ => 0
  | And _ _ => 1
  | Not _ | Flag _ => 2
  end.

(** The text of [e] where an operand of precedence [p] is expected. *)
Fixpoint render_at (p : nat) (e : expr) : string :=
  let s := match e with
           | Flag f => flag_name f
           | Not e1 => "not " ++ render_at 2 e1
           | And e1 e2 => render_at 1 e1 ++ " and " ++ render_at 1 e2
           | Or e1 e2 => render_at 0 e1 ++ " or " ++ render_at 0 e2
           end in
  if Nat.ltb (prec e) p then "(" ++ s ++ ")" else s.

Definition render (e : expr) : string := render_at 0 e.

(** The clause both expressions of the script share. *)
Definition mapped_pair : expr :=
  And (Not (Or (Flag unmapped) (Flag mate_is_unmapped))) (Flag paired).

(** The expression [remove_dup] passes, as a tree. *)
Definition of_skip (skip_dupRm : bool) : expr :=
  if skip_dupRm then mapped_pair
  else And mapped_pair (Not (Flag duplicate)).

End Filter.

(** ** The functions of the script *)

(** [check_type], lines 61-69. *)
Definition check_type (input_file : string) : M string :=
  if PyStr.endswith_any input_file [".cram"; ".CRAM"] then ret "cram"
  else if PyStr.endswith_any input_file [".bam"; ".BAM"] then ret "bam"
  else
    _ <- logging_error "input_file is not bam or cram. Dying now!" ;
    sys_exit 1.

(** [get_ID], lines 71-78. *)
Definition get_ID (input_file : string) (sample_name : option string) : string :=
  match sample_name with
  | Some name => name
  | None =>
      let bam := PyStr.last_item (PyStr.split "/" input_file) in
      let sampleID := PyStr.first_item (PyStr.split "." bam) in
      sampleID
  end.

(** [temp_output_loc], lines 80-90. In its second branch the function
    reads the module-level variable [args], here the first parameter. *)
Definition temp_output_loc (args : Namespace)
    (out_dir : string) (tmp : option string) (sampleID cov : string) : M string :=
  match tmp with
  | Some tmp =>
      let tempLoc := tmp ++ "/" ++ sampleID ++ "/" ++ cov ++ "x" in
      _ <- logging_info ("Creating temp folder " ++ tempLoc) ;
      _ <- mkdir_parents tempLoc ;
      ret tempLoc
  | None =>
      let tempLoc := out_dir ++ "/" ++ sampleID ++ "/tmp" in
      _ <- logging_info ("Creating temp folder " ++ tempLoc) ;
      d <- getattr args "out_dir" ;
      p <- as_path d ;
      _ <- mkdir_parents p ;
      ret tempLoc
  end.

(** The filter expression of [remove_dup], lines 93 and 96-98. *)
Definition filterString (skip_dupRm : bool) : string :=
  if skip_dupRm
  then "not (unmapped or mate_is_unmapped) and paired"
  else "not (unmapped or mate_is_unmapped) and paired and not duplicate".

(** The flag of [remove_dup], lines 94 and 99-100. *)
Definition cram_flag (file_type : string) : string :=
  if Re.match_bam file_type then "" else "-C".

(** The path of the report [get_coverage] reads: line 123, with the
    prefix given to mosdepth on line 118. *)
Definition mosdepth_prefix (sub_tmp sampleID : string) : string :=
  sub_tmp ++ "/" ++ sampleID.

Definition summary_file (sub_tmp sampleID : string) : string :=
  sub_tmp ++ "/" ++ sampleID ++ ".mosdepth.summary.txt".

(** The test of line 129. *)
Definition counted (line : string) : bool :=
  Re.search_digits line || Re.search_chr_digits line.

(** The loop of [get_coverage], lines 127-132, from the running totals
    [length] and [bases]. *)
Fixpoint sum_rows (lines : list string) (length bases : Z) : outcome (Z * Z) :=
  match lines with
  | [] => Returned (length, bases)
  | line :: rest =>
      if counted line then
        let array_line := PyStr.re_split_tabs (PyStr.strip line) in
        match index array_line 1 with
        | Returned f1 =>
            match int_of f1 with
            | Returned n1 =>
                match index array_line 2 with
                | Returned f2 =>
                    match int_of f2 with
                    | Returned n2 => sum_rows rest (length + n1) (bases + n2)
                    | SysExit c => SysExit c
                    | Raised e => Raised e
                    end
                | SysExit c => SysExit c
                | Raised e => Raised e
                end
            | SysExit c => SysExit c
            | Raised e => Raised e
            end
        | SysExit c => SysExit c
        | Raised e => Raised e
        end
      else sum_rows rest length bases
  end.

(** Lines 125-134 on the lines of the report: the totals, then the
    division. *)
Definition coverage_of_lines (lines : list string) : outcome Q :=
  match sum_rows lines 0 0 with
  | Returned (length, bases) => int_truediv bases length
  | SysExit c => SysExit c
  | Raised e => Raised e
  end.

(** [get_fraction], lines 138-145. The comparison of line 139 is the
    first use of [neededCov] as a number: a [str] or [None] raises
    [TypeError] there. *)
Definition get_fraction (neededCov : pyval) (bamCov : pyfloat) : M pyfloat :=
  match as_number neededCov with
  | None => raise TypeError
  | Some needed =>
      if ge_float needed bamCov then
        shown <- lift (float_of neededCov) ;
        _ <- logging_error ("Needed coverage ( " ++ PyStr.fmt_f shown
                            ++ " ) is more than the CRAM's coverage ( "
                            ++ fmt_float bamCov ++ " ): unable to downsample.") ;
        sys_exit 1
      else
        numerator <- lift (float_of neededCov) ;
        fraction <- lift (float_truediv numerator bamCov) ;
        _ <- logging_info ("Downsampling CRAM with factor: "
                           ++ fmt_float fraction ++ " ") ;
        ret fraction
  end.

(** The seed of line 170. *)
Definition seed : Z := 10.

(** The command of [downsample_bam], lines 150 and 152. *)
Definition out_prefix (output_dir sampleID cov : string) : string :=
  output_dir ++ "/" ++ sampleID ++ "/" ++ cov ++ "x".

Definition downsample_cmd (dupRemovedBam output_dir sampleID : string)
    (fraction : pyfloat) (seed : Z) (cov : string) : string :=
  "sambamba view -s " ++ fmt_float fraction
    ++ " --subsampling-seed=" ++ PyStr.fmt_d seed
    ++ " -f bam -o " ++ out_prefix output_dir sampleID cov ++ "/" ++ sampleID
    ++ ".dupRm.subsam.bam " ++ dupRemovedBam.

Section Script.

(** What running a shell command does: the status [os.system] returns
    and the file system the command leaves. *)
Variable shell : string -> filesys -> Z * filesys.

(** [os.system(cmd)]. *)
Definition os_system (cmd : string) : M Z :=
  fun w =>
    let '(status, fs') := shell cmd (fs w) in
    (Returned status,
     {| fs := fs'; log := log w; cmds := (cmds w ++ [(cmd, status)])%list |}).

(** The command of [remove_dup], line 104, once [int(thread)] is known. *)
Definition remove_dup_cmd (input_file tempLoc file_type sampleID : string)
    (skip_dupRm : bool) (threads : Z) : string :=
  "sambamba view -F '" ++ filterString skip_dupRm ++ "' -q "
    ++ cram_flag file_type ++ " -f bam -t " ++ PyStr.fmt_d threads
    ++ " -o " ++ tempLoc ++ "/" ++ sampleID ++ ".dupRm.bam " ++ input_file.

(** [remove_dup], lines 92-111. *)
Definition remove_dup (input_file tempLoc file_type sampleID : string)
    (skip_dupRm : bool) (thread : string) : M string :=
  _ <- logging_info ("Sanitising input " ++ input_file ++ " ") ;
  _ <- (if skip_dupRm then logging_info "Not removing duplicates reads"
        else ret tt) ;
  threads <- lift (int_of thread) ;
  let cmd := remove_dup_cmd input_file tempLoc file_type sampleID
               skip_dupRm threads in
  status <- os_system cmd ;
  if negb (status =? 0) then
    _ <- logging_error "Sambamba sanitising bam/cram failed. Dying now." ;
    sys_exit 1
  else
    let bamLoc := tempLoc ++ "/" ++ sampleID ++ ".dupRm.bam" in
    _ <- logging_info ("Sanitised bam found at " ++ bamLoc ++ " ") ;
    ret bamLoc.

(** The command of [get_coverage], line 118. *)
Definition mosdepth_cmd (sub_tmp sampleID Bam : string) : string :=
  "mosdepth --no-per-base --threads 4 " ++ mosdepth_prefix sub_tmp sampleID
    ++ " " ++ Bam ++ " ".

(** [get_coverage], lines 113-136. *)
Definition get_coverage (Bam sampleID tempFolder subfolder : string) : M Q :=
  let sub_tmp := tempFolder ++ "/" ++ subfolder in
  _ <- mkdir_parents sub_tmp ;
  let cmd := mosdepth_cmd sub_tmp sampleID Bam in
  status <- os_system cmd ;
  _ <- (if negb (status =? 0) then
          _ <- logging_error ("Get coverage " ++ subfolder
                              ++ " failed. Dying now.") ;
          sys_exit 1
        else ret tt) ;
  mos_cov <- open_read (summary_file sub_tmp sampleID) ;
  cov <- lift (coverage_of_lines (PyStr.readlines mos_cov)) ;
  _ <- logging_info (Bam ++ " coverage is : " ++ PyStr.fmt_f cov) ;
  ret cov.

(** [downsample_bam], lines 147-160. *)
Definition downsample_bam (dupRemovedBam output_dir sampleID : string)
    (fraction : pyfloat) (seed : Z) (cov : string) : M string :=
  let out_prefix := out_prefix output_dir sampleID cov in
  _ <- mkdir_parents out_prefix ;
  let cmd := downsample_cmd dupRemovedBam output_dir sampleID
               fraction seed cov in
  _ <- logging_info ("Downsampling " ++ dupRemovedBam ++ " ") ;
  status <- os_system cmd ;
  if negb (status =? 0) then
    _ <- logging_error "Sambamba downsampling failed. Dying now." ;
    sys_exit 1
  else
    let bamLoc := out_prefix ++ "/" ++ sampleID ++ ".dupRm.subsam.bam" in
    _ <- logging_info ("Downsampled bam found at " ++ bamLoc ++ " ") ;
    ret bamLoc.

(** [cleanUp], lines 162-166. *)
Definition cleanUp (tempFolder : string) : M unit :=
  _ <- logging_info ("Cleaning up, deleting " ++ tempFolder) ;
  let cmd := "rm -rf " ++ tempFolder in
  _ <- os_system cmd ;
  logging_info "Done!".

(** Lines 188-192 of the driver, from the values the lines before them
    have bound. *)
Definition main_after_fraction (args : Namespace)
    (sampleID tempFolder dupRemovedBam : string) (fraction : pyfloat) : M unit :=
  downsampledBam <- downsample_bam dupRemovedBam (output_dir args) sampleID
                      fraction seed (coverage args) ;
  newCov <- get_coverage downsampledBam sampleID tempFolder "R2" ;
  cleanUp tempFolder.

(** The driver, lines 176-192, from the [Namespace] that [parse_args]
    returned. *)
Definition main (args : Namespace) : M unit :=
  file_type <- check_type (input_file args) ;
  let sampleID := get_ID (input_file args) (sample_name args) in
  tempFolder <- temp_output_loc args (output_dir args) (tmp args)
                  sampleID (coverage args) ;
  dupRemovedBam <- remove_dup (input_file args) tempFolder file_type
                     sampleID (skip_dupRm args) (thread args) ;
  cov <- get_coverage dupRemovedBam sampleID tempFolder "R1" ;
  fraction <- get_fraction (PyStr (coverage args)) (Finite cov) ;
  main_after_fraction args sampleID tempFolder dupRemovedBam fraction.

End Script.

(** ** The words of the specification

    The definitions below follow the specification, not the script: they
    are what the script is compared with. *)

Definition TAB : string := String "009" EmptyString.
Definition LF : string := String "010" EmptyString.

(** The contig name of a row of the report: the text before the first
    tab. *)
Definition contig_name (line : string) : string :=
  PyStr.first_item (PyStr.split "009" line).

(** The autosomes, named with or without the ["chr"] prefix: [1] to [22]
    and [chr1] to [chr22]. *)
Definition autosome_numbers : list string :=
  map (fun n => PyStr.fmt_d (Z.of_nat n)) (seq 1 22).

Definition autosome_names : list string :=
  (autosome_numbers ++ map (append "chr") autosome_numbers)%list.

Definition is_autosome (name : string) : bool :=
  existsb (String.eqb name) autosome_names.

(** The columns [length] and [bases] of a row, when the row has them. *)
Definition row_values (line : string) : option (Z * Z) :=
  let columns := PyStr.re_split_tabs (PyStr.strip line) in
  match nth_error columns 1, nth_error columns 2 with
  | Some c1, Some c2 =>
      match PyStr.int c1, PyStr.int c2 with
      | Some length, Some bases => Some (length, bases)
      | _, _ => None
      end
  | _, _ => None
  end.

(** Total length and total bases over the rows that [keep] selects. *)
Definition totals_where (keep : string -> bool) (lines : list string) : Z * Z :=
  fold_right
    (fun line acc =>
       if keep line then
         match row_values line with
         | Some (length, bases) => (length + fst acc, bases + snd acc)
         | None => acc
         end
       else acc)
    (0, 0) lines.

(** The mean coverage over the autosomes: sum of bases over sum of
    lengths. *)
Definition autosome_totals : list string -> Z * Z :=
  totals_where (fun line => is_autosome (contig_name line)).

Definition mean_of (totals : Z * Z) : Q :=
  (inject_Z (snd totals) / inject_Z (fst totals))%Q.

Definition autosome_mean (lines : list string) : Q :=
  mean_of (autosome_totals lines).

(** A suffix compared without regard to letter case. *)
Definition lower (a : ascii) : ascii :=
  let n := N_of_ascii a in
  if ((65 <=? n) && (n <=? 90))%N then ascii_of_N (n + 32) else a.

Fixpoint lower_string (s : string) : string :=
  match s with
  | EmptyString => EmptyString
  | String a s' => String (lower a) (lower_string s')
  end.

Definition has_suffix_nocase (path ext : string) : bool :=
  PyStr.endswith (lower_string path) ext.

(** A computation that removes no directory. *)
Definition keeps_dirs {A : Type} (m : M A) : Prop :=
  forall w, dirs (fs w) ⊆ dirs (fs (snd (m w))).

(** A shell whose commands, [rm -rf] apart, remove no directory. *)
Definition tools_keep_dirs (shell : string -> filesys -> Z * filesys) : Prop :=
  forall cmd f,
    String.prefix "rm -rf " cmd = false -> dirs f ⊆ dirs (snd (shell cmd f)).

(** ** Concrete runs *)

Module Example.

Definition empty_world : world :=
  {| fs := {| dirs := ∅; files := ∅ |}; log := []; cmds := [] |}.

(** A world in which the workspace of [args_tmp] exists. *)
Definition workspace_world : world :=
  {| fs := {| dirs := {[ "scratch/s1/15x" ]}; files := ∅ |};
     log := []; cmds := [] |}.

Definition row (name length bases : string) : string :=
  name ++ TAB ++ length ++ TAB ++ bases ++ LF.

(** The three rows of the specification's example. *)
Definition report_rows : list string :=
  [ row "chr1" "1000" "500"; row "chrX" "800" "800"; row "2" "2000" "1000" ].

(** A report with a header, one autosome and one unplaced contig of
    that autosome. *)
Definition report_with_contig : list string :=
  [ row "chrom" "length" "bases";
    row "chr1" "1000" "500";
    row "chr1_KI270706v1_random" "1000" "0" ].

(** A report without any numbered contig. *)
Definition report_unnumbered : list string :=
  [ row "chrom" "length" "bases"; row "chrX" "800" "800";
    row "chrM" "16" "16" ].

(** A report that measures a coverage of 30. *)
Definition report_30x : list string :=
  [ row "chrom" "length" "bases"; row "chr1" "1000" "30000";
    row "chrX" "800" "800" ].

(** One autosome row whose bases column is 1 followed by 400 zeros. *)
Definition report_beyond_float : list string :=
  [ row "chr1" "1" ("1" ++ PyStr.zeros 400) ].

(** One autosome row that stops after its length. *)
Definition report_short_row : list string :=
  [ "chr1" ++ TAB ++ "1000" ++ LF ].

Definition text (lines : list string) : string :=
  fold_right append EmptyString lines.

(** Every command succeeds and changes nothing, except that mosdepth
    writes [report] where the script will look for it. *)
Definition tools (report_path : string) (report : list string)
    (cmd : string) (f : filesys) : Z * filesys :=
  if String.prefix "mosdepth" cmd
  then (0, {| dirs := dirs f;
              files := <[ report_path := text report ]> (files f) |})
  else (0, f).

(** As [tools], but the removal of the workspace fails and leaves it. *)
Definition tools_rm_fails (report_path : string) (report : list string)
    (cmd : string) (f : filesys) : Z * filesys :=
  if String.prefix "rm -rf" cmd then (1, f)
  else tools report_path report cmd f.

(** Every command fails. *)
Definition tools_fail (cmd : string) (f : filesys) : Z * filesys := (1, f).

(** [--input_file data/s1.bqsr.bam --tmp scratch], the rest by default. *)
Definition args_tmp : Namespace :=
  {| input_file := "data/s1.bqsr.bam"; output_dir := "./";
     coverage := "15"; thread := "4"; sample_name := None;
     skip_dupRm := false; tmp := Some "scratch"; loglevel := "DEBUG" |}.

(** [--input_file data/s1.bqsr.bam], the rest by default. *)
Definition args_default : Namespace :=
  {| input_file := "data/s1.bqsr.bam"; output_dir := "./";
     coverage := "15"; thread := "4"; sample_name := None;
     skip_dupRm := false; tmp := None; loglevel := "DEBUG" |}.

End Example.

(** ** Start-up: [parse_args] and [set_logging]

    [argparse] itself is not modelled: [parse_args] starts from the
    [Namespace] that [parser.parse_args()] returned, line 32. *)

(** [os.path.exists(p)]: there is a directory or a file of that name. *)
Definition path_exists (f : filesys) (p : string) : bool :=
  bool_decide (p ∈ dirs f)
  || match files f !! p with Some _ => true | None => false end.

(** [isinstance(v, int)]: a [bool] is an [int]. *)
Definition is_int (v : pyval) : bool :=
  match v with
  | PyInt _ | PyBool _ => true
  | PyNone | PyFloat _ | PyStr _ => false
  end.

Section Startup.

Variable shell : string -> filesys -> Z * filesys.

(** [subprocess.call(argv, stdout=subprocess.DEVNULL)]: the return code
    of the program, or [None] when the call raises because the program
    cannot be run. *)
Variable subprocess_call : list string -> option Z.

(** [getattr(logging, loglevel.upper(), None)], as a function of
    [loglevel]: the content of the [logging] module is not part of the
    script. *)
Variable logging_attribute : string -> pyval.

(** One of the two probes of [parse_args], lines 41-45 and 47-51: the
    return code is dropped, only an exception is handled. *)
Definition probe_tool (tool : string) : M unit :=
  match subprocess_call ["which"; tool] with
  | Some _ => ret tt
  | None =>
      _ <- logging_error (tool ++ " not found") ;
      sys_exit 1
  end.

(** The checks of [parse_args], lines 34-53. *)
Definition parse_args (args : Namespace) : M Namespace :=
  found <- (fun w => ret (path_exists (fs w) (input_file args)) w) ;
  _ <- (if negb found then
          _ <- logging_error ("Input file not found: " ++ input_file args) ;
          sys_exit 1
        else ret tt) ;
  _ <- mkdir_parents (output_dir args) ;
  _ <- probe_tool "mosdepth" ;
  _ <- probe_tool "sambamba" ;
  ret args.

(** [set_logging], lines 55-59. The threshold that [logging.basicConfig]
    sets is not kept: [log] holds every message handed to [logging]. *)
Definition set_logging (loglevel : string) : M unit :=
  let numeric_level := logging_attribute loglevel in
  if negb (is_int numeric_level) then raise ValueError
  else ret tt.

(** The whole [__main__] block, lines 168-192, from the [Namespace] that
    [argparse] produced. *)
Definition script (parsed : Namespace) : M unit :=
  args <- parse_args parsed ;
  _ <- set_logging (loglevel args) ;
  main shell args.

End Startup.

(** ** Notions used to state the properties *)

(** A computation that, when it ends in [sys.exit], does so with
    status 1. *)
Definition exits_one {A : Type} (m : M A) : Prop :=
  forall w c, fst (m w) = SysExit c -> c = 1.

(** A computation that runs no command. *)
Definition runs_nothing {A : Type} (m : M A) : Prop :=
  forall w, cmds (snd (m w)) = cmds w.

(** A row of a report as the depth tool writes it: the contig, its
    length and its bases in decimal, then the end of the line or further
    columns. *)
Definition report_row (name : string) (length bases : Z) (tail : string) : string :=
  name ++ TAB ++ PyStr.fmt_d length ++ TAB ++ PyStr.fmt_d bases ++ tail.

(** The number a decimal numeral denotes, read digit by digit from the
    value [acc] of the digits before it. *)
Fixpoint uint_value (acc : Z) (u : Decimal.uint) : Z :=
  match u with
  | Decimal.Nil => acc
  | Decimal.D0 u' => uint_value (10 * acc + 0) u'
  | Decimal.D1 u' => uint_value (10 * acc + 1) u'
  | Decimal.D2 u' => uint_value (10 * acc + 2) u'
  | Decimal.D3 u' => uint_value (10 * acc + 3) u'
  | Decimal.D4 u' => uint_value (10 * acc + 4) u'
  | Decimal.D5 u' => uint_value (10 * acc + 5) u'
  | Decimal.D6 u' => uint_value (10 * acc + 6) u'
  | Decimal.D7 u' => uint_value (10 * acc + 7) u'
  | Decimal.D8 u' => uint_value (10 * acc + 8) u'
  | Decimal.D9 u' => uint_value (10 * acc + 9) u'
  end.

(** No character of the string is a tab or white space. *)
Fixpoint solid (s : string) : bool :=
  match s with
  | EmptyString => true
  | String a s' => negb (PyStr.is_space a) && solid s'
  end.

(** A row of the report by its parts. *)
Record depth_row : Type := {
  row_name : string;
  row_length : Z;
  row_bases : Z;
  row_tail : string
}.

Definition render_row (r : depth_row) : string :=
  report_row (row_name r) (row_length r) (row_bases r) (row_tail r).

(** The name is not empty and has no tab or white space; after the
    column of the bases the line ends or a tab starts further columns;
    the two numbers have no more digits than [int] accepts. *)
Definition well_formed_row (r : depth_row) : Prop :=
  row_name r <> ""
  /\ solid (row_name r) = true
  /\ (row_tail r = LF \/ exists more, row_tail r = TAB ++ more)
  /\ (PyStr.count_digits (PyStr.fmt_d (row_length r)) <= PyStr.max_str_digits)%nat
  /\ (PyStr.count_digits (PyStr.fmt_d (row_bases r)) <= PyStr.max_str_digits)%nat.

(** Total length and total bases of the rows whose name is counted. *)
Definition counted_sum (rows : list depth_row) : Z * Z :=
  fold_right
    (fun r acc =>
       if counted (row_name r)
       then (row_length r + fst acc, row_bases r + snd acc)
       else acc)
    (0, 0) rows.

(** A line of a text file: it ends with its newline and has no other
    line break. *)
Definition one_line (s : string) : Prop :=
  exists body,
    s = body ++ LF
    /\ PyStr.contains "010" body = false
    /\ PyStr.contains "013" body = false.

(** The same, as a test. *)
Fixpoint is_one_line (s : string) : bool :=
  match s with
  | EmptyString => false
  | String a s' =>
      match s' with
      | EmptyString => Ascii.eqb a "010"
      | String _ _ =>
          negb (Ascii.eqb a "010") && negb (Ascii.eqb a "013") && is_one_line s'
      end
  end.

(** The text of a report with the given rows. *)
Definition report_text (rows : list depth_row) : string :=
  fold_right (fun r text => render_row r ++ text) EmptyString rows.

(** The report of a genome with an autosome, a sex chromosome and an
    unplaced contig, as mosdepth writes it with its six columns. *)
Definition six_columns : list depth_row :=
  [ {| row_name := "chrom"; row_length := 0; row_bases := 0;
       row_tail := TAB ++ "mean" ++ TAB ++ "min" ++ TAB ++ "max" ++ LF |};
    {| row_name := "chr1"; row_length := 1000; row_bases := 30000;
       row_tail := TAB ++ "30.00" ++ TAB ++ "0" ++ TAB ++ "61" ++ LF |};
    {| row_name := "chrX"; row_length := 800; row_bases := 800;
       row_tail := TAB ++ "1.00" ++ TAB ++ "0" ++ TAB ++ "4" ++ LF |};
    {| row_name := "22"; row_length := 500; row_bases := 15000;
       row_tail := LF |} ].

(** ** Concrete start-ups *)

(** [which] runs and reports that the tool is not on the search path. *)
Definition which_reports_missing (argv : list string) : option Z := Some 1.

(** [which] itself cannot be run. *)
Definition which_cannot_run (argv : list string) : option Z := None.

(** A world in which the input file of [Example.args_tmp] exists. *)
Definition input_world : world :=
  {| fs := {| dirs := ∅; files := {[ "data/s1.bqsr.bam" := "" ]} |};
     log := []; cmds := [] |}.

(** The run [--input_file data/s1.bqsr.bam --output_dir data/s1.bqsr.bam]:
    the output directory is the input file. *)
Definition args_output_is_file : Namespace :=
  {| input_file := "data/s1.bqsr.bam"; output_dir := "data/s1.bqsr.bam";
     coverage := "15"; thread := "4"; sample_name := None; skip_dupRm := false;
     tmp := None; loglevel := "DEBUG" |}.

(** The run [--input_file data/s1.bqsr.bam --tmp data --sample_name
    s1.bqsr.bam]: the workspace would lie below the input file. *)
Definition args_blocked : Namespace :=
  {| input_file := "data/s1.bqsr.bam"; output_dir := "./"; coverage := "15";
     thread := "4"; sample_name := Some "s1.bqsr.bam"; skip_dupRm := false;
     tmp := Some "data"; loglevel := "DEBUG" |}.

(** A [logging] module that knows the level [DEBUG] and has a text
    attribute [BASIC_FORMAT]. *)
Definition some_levels (loglevel : string) : pyval :=
  if String.eqb loglevel "DEBUG" then PyInt 10
  else if String.eqb loglevel "BASIC_FORMAT" then PyStr "%(message)s"
  else PyNone.

(** [--input_file data/s1.bqsr.bam --tmp scratch --loglevel verbose]. *)
Definition args_verbose : Namespace :=
  {| input_file := "data/s1.bqsr.bam"; output_dir := "./";
     coverage := "15"; thread := "4"; sample_name := None;
     skip_dupRm := false; tmp := Some "scratch"; loglevel := "verbose" |}.

(** * Properties *)

(** ** Strings *)

(** Let [simpl] compute the concatenation of strings again. *)
#[local] Arguments String.append !s1 s2 : simpl nomatch.

(** *** Creating directories *)

Lemma mkdir_parents_ok (p : string) (w : world) :
  mkdir_ok (fs w) p = true ->
  mkdir_parents p w
  = (Returned tt,
     {| fs := {| dirs := {[ p ]} ∪ list_to_set (parents p) ∪ dirs (fs w);
                 files := files (fs w) |};
        log := log w; cmds := cmds w |}).
Proof.
  unfold mkdir_ok, mkdir_parents. intros H.
  apply andb_true_iff in H as [Ha Hb].
  apply negb_true_iff in Ha, Hb. now rewrite Ha, Hb.
Qed.

Lemma mkdir_parents_fail (p : string) (w : world) :
  mkdir_ok (fs w) p = false ->
  exists e, mkdir_parents p w = (Raised e, w).
Proof.
  unfold mkdir_ok, mkdir_parents. intros H.
  destruct (existsb (is_file (fs w)) (parents p)); [now eexists|].
  destruct (is_file (fs w) p); [now eexists|discriminate].
Qed.

Lemma mkdir_parents_frame (p : string) (w : world) :
  log (snd (mkdir_parents p w)) = log w /\ cmds (snd (mkdir_parents p w)) = cmds w.
Proof.
  unfold mkdir_parents.
  destruct (existsb _ _); [now split|]. destruct (is_file _ _); now split.
Qed.

Lemma mkdir_parents_returned (p : string) (w : world) :
  fst (mkdir_parents p w) = Returned tt -> mkdir_ok (fs w) p = true.
Proof.
  intros H. destruct (mkdir_ok (fs w) p) eqn:E; [reflexivity|].
  destruct (mkdir_parents_fail p w E) as [e He]. now rewrite He in H.
Qed.

Lemma str_app_nil_r (s : string) : s ++ "" = s.
Proof. induction s as [|a s IH]; simpl; [reflexivity | now rewrite IH]. Qed.

Lemma str_app_assoc (s t u : string) : (s ++ t) ++ u = s ++ (t ++ u).
Proof. induction s as [|a s IH]; simpl; [reflexivity | now rewrite IH]. Qed.

Lemma chars_app (s t : string) :
  list_ascii_of_string (s ++ t)
  = (list_ascii_of_string s ++ list_ascii_of_string t)%list.
Proof. induction s as [|a s IH]; simpl; [reflexivity | now rewrite IH]. Qed.

(** Two strings that are equal have the same characters, read backwards. *)
Lemma rev_chars_app (s t s' t' : string) :
  s ++ t = s' ++ t' ->
  (rev (list_ascii_of_string t) ++ rev (list_ascii_of_string s))%list
  = (rev (list_ascii_of_string t') ++ rev (list_ascii_of_string s'))%list.
Proof.
  intros H. apply (f_equal list_ascii_of_string) in H.
  rewrite !chars_app in H. apply (f_equal (@rev ascii)) in H.
  now rewrite !rev_app_distr in H.
Qed.

Lemma endswith_unfold (s suf : string) :
  PyStr.endswith s suf
  = if String.eqb s suf then true
    else match s with
         | EmptyString => false
         | String _ s' => PyStr.endswith s' suf
         end.
Proof. destruct s; reflexivity. Qed.

(** [endswith] is the suffix relation. *)
Lemma endswith_spec (s suf : string) :
  PyStr.endswith s suf = true <-> exists stem, s = stem ++ suf.
Proof.
  split.
  - induction s as [|a s IH]; rewrite endswith_unfold.
    + destruct (String.eqb_spec "" suf) as [E|E]; [|discriminate].
      intros _. exists "". now rewrite <- E.
    + destruct (String.eqb_spec (String a s) suf) as [E|E].
      * intros _. exists "". now rewrite <- E.
      * intros H. destruct (IH H) as [stem ->]. now exists (String a stem).
  - intros [stem ->]. induction stem as [|a stem IH].
    + change ("" ++ suf) with suf.
      rewrite endswith_unfold. now rewrite String.eqb_refl.
    + change (String a stem ++ suf) with (String a (stem ++ suf)).
      rewrite endswith_unfold.
      destruct (String.eqb (String a (stem ++ suf)) suf); [reflexivity | exact IH].
Qed.

Lemma endswith_false (s suf : string) :
  PyStr.endswith s suf = false <-> forall stem, s <> stem ++ suf.
Proof.
  split.
  - intros H stem E.
    assert (PyStr.endswith s suf = true) by (apply endswith_spec; eauto).
    congruence.
  - intros H. destruct (PyStr.endswith s suf) eqn:E; [|reflexivity].
    apply endswith_spec in E. destruct E as [stem E]. now destruct (H stem).
Qed.

Lemma split_not_nil (c : ascii) (s : string) : PyStr.split c s <> [].
Proof.
  destruct s as [|a s]; simpl; [discriminate|].
  destruct (Ascii.eqb a c); [discriminate|].
  destruct (PyStr.split c s); discriminate.
Qed.

Lemma join_split (c : ascii) (s : string) : PyStr.join c (PyStr.split c s) = s.
Proof.
  induction s as [|a s IH]; [reflexivity|]. simpl.
  destruct (Ascii.eqb_spec a c) as [->|Hne].
  - pose proof (split_not_nil c s) as Hnil.
    destruct (PyStr.split c s) as [|h t] eqn:E; [congruence|].
    change (PyStr.join c ("" :: h :: t)) with (String c (PyStr.join c (h :: t))).
    now rewrite IH.
  - pose proof (split_not_nil c s) as Hnil.
    destruct (PyStr.split c s) as [|h t] eqn:E; [congruence|].
    destruct t as [|h' t]; simpl in *; now rewrite <- IH.
Qed.

Lemma split_pieces (c : ascii) (s : string) :
  Forall (fun piece => PyStr.contains c piece = false) (PyStr.split c s).
Proof.
  induction s as [|a s IH]; simpl; [repeat constructor|].
  destruct (Ascii.eqb a c) eqn:Eac.
  - constructor; [reflexivity | exact IH].
  - destruct (PyStr.split c s) as [|h t]; [repeat constructor; simpl; now rewrite Eac|].
    inversion IH as [|? ? Hh Ht]; subst. constructor; [|exact Ht].
    simpl. now rewrite Eac, Hh.
Qed.

Lemma contains_app (c : ascii) (s t : string) :
  PyStr.contains c (s ++ t) = PyStr.contains c s || PyStr.contains c t.
Proof.
  induction s as [|a s IH]; simpl; [reflexivity|].
  now rewrite IH, orb_assoc.
Qed.

(** A joined list is its first item, then nothing or a separator. *)
Lemma join_first (c : ascii) (l : list string) :
  l <> [] ->
  exists rest, PyStr.join c l = PyStr.first_item l ++ rest
               /\ (rest = "" \/ exists r, rest = String c r).
Proof.
  destruct l as [|h t]; [congruence|]. intros _.
  destruct t as [|h' t].
  - exists "". split; [symmetry; apply str_app_nil_r | auto].
  - exists (String c (PyStr.join c (h' :: t))). split; [reflexivity|]. right. eauto.
Qed.

(** A joined list is nothing or something that ends with a separator,
    then its last item. *)
Lemma join_last (c : ascii) (l : list string) :
  l <> [] ->
  exists dir, PyStr.join c l = dir ++ PyStr.last_item l
              /\ (dir = "" \/ PyStr.endswith dir (String c "") = true).
Proof.
  induction l as [|h t IH]; [congruence|]. intros _.
  destruct t as [|h' t].
  - exists "". split; [reflexivity | auto].
  - destruct IH as [dir [E Hdir]]; [discriminate|].
    exists (h ++ String c dir). split.
    + change (PyStr.join c (h :: h' :: t)) with (h ++ String c (PyStr.join c (h' :: t))).
      rewrite E. unfold PyStr.last_item.
      change (List.last (h :: h' :: t) "") with (List.last (h' :: t) "").
      now rewrite str_app_assoc.
    + right. apply endswith_spec.
      destruct Hdir as [->|Hd].
      * now exists h.
      * apply endswith_spec in Hd. destruct Hd as [stem ->].
        exists (h ++ String c stem). now rewrite str_app_assoc.
Qed.

Lemma last_item_in (l : list string) : l <> [] -> In (PyStr.last_item l) l.
Proof.
  induction l as [|h t IH]; [congruence|]. intros _.
  destruct t as [|h' t]; [now left|].
  right. apply IH. discriminate.
Qed.

(** ** The Input Classifier *)

(** C3, as the code has it: [check_type] returns cram for a path that
    ends in [.cram] or [.CRAM], bam for a path that ends in [.bam] or
    [.BAM], and for a path with none of these four endings (a mixed-case
    ending such as [.Bam] included) it logs an error and exits with
    status 1. *)
Theorem check_type_spec (w : world) :
  (forall stem, fst (check_type (stem ++ ".cram") w) = Returned "cram")
  /\ (forall stem, fst (check_type (stem ++ ".CRAM") w) = Returned "cram")
  /\ (forall stem, fst (check_type (stem ++ ".bam") w) = Returned "bam")
  /\ (forall stem, fst (check_type (stem ++ ".BAM") w) = Returned "bam")
  /\ (forall path,
        (forall stem ext,
           In ext [".cram"; ".CRAM"; ".bam"; ".BAM"] -> path <> stem ++ ext) ->
        fst (check_type path w) = SysExit 1
        /\ exit_status (fst (check_type path w)) = 1
        /\ log (snd (check_type path w))
           = (log w ++ [(ERROR, "input_file is not bam or cram. Dying now!")])%list).
Proof.
  assert (Hyes : forall stem ext, PyStr.endswith (stem ++ ext) ext = true)
    by (intros; apply endswith_spec; eauto).
  assert (Hno : forall stem, PyStr.endswith (stem ++ ".bam") ".cram" = false
                             /\ PyStr.endswith (stem ++ ".bam") ".CRAM" = false
                             /\ PyStr.endswith (stem ++ ".BAM") ".cram" = false
                             /\ PyStr.endswith (stem ++ ".BAM") ".CRAM" = false).
  { intros stem. repeat split; apply endswith_false; intros stem' E;
      apply rev_chars_app in E; simpl in E; congruence. }
  repeat split.
  - intros stem. unfold check_type, PyStr.endswith_any. simpl.
    now rewrite Hyes.
  - intros stem. unfold check_type, PyStr.endswith_any. simpl.
    rewrite Hyes. now rewrite orb_true_r.
  - intros stem. unfold check_type, PyStr.endswith_any. simpl.
    destruct (Hno stem) as (-> & -> & _). simpl. now rewrite Hyes.
  - intros stem. unfold check_type, PyStr.endswith_any. simpl.
    destruct (Hno stem) as (_ & _ & -> & ->). simpl.
    rewrite Hyes. now rewrite orb_true_r.
  - unfold check_type, PyStr.endswith_any. simpl.
    rewrite !(proj2 (endswith_false path _)); [reflexivity | intros stem ..];
      apply H; simpl; auto.
  - unfold check_type, PyStr.endswith_any. simpl.
    rewrite !(proj2 (endswith_false path _)); [reflexivity | intros stem ..];
      apply H; simpl; auto.
  - unfold check_type, PyStr.endswith_any. simpl.
    rewrite !(proj2 (endswith_false path _)); [reflexivity | intros stem ..];
      apply H; simpl; auto.
Qed.

Lemma check_type_spec_witness :
  fst (check_type "sample.Bam" Example.empty_world) = SysExit 1
  /\ exit_status (fst (check_type "sample.Bam" Example.empty_world)) = 1
  /\ log (snd (check_type "sample.Bam" Example.empty_world))
     = [(ERROR, "input_file is not bam or cram. Dying now!")].
Proof.
  apply (proj2 (proj2 (proj2 (proj2 (check_type_spec Example.empty_world))))).
  intros stem ext Hin E.
  assert (Hends : PyStr.endswith "sample.Bam" ext = true)
    by (apply endswith_spec; eauto).
  simpl in Hin.
  destruct Hin as [<-|[<-|[<-|[<-|[]]]]]; vm_compute in Hends; discriminate.
Defined.

(** C3, as the claim has it, fails: [sample.Bam] ends in [.bam] when the
    letter case is ignored, and [check_type] does not return bam for it
    but exits with status 1. *)
Lemma check_type_mixed_case_rejected :
  has_suffix_nocase "sample.Bam" ".bam" = true
  /\ fst (check_type "sample.Bam" Example.empty_world) <> Returned "bam"
  /\ fst (check_type "sample.Bam" Example.empty_world) = SysExit 1.
Proof. repeat split; [vm_compute; discriminate]. Qed.

(** ** The Sample Identifier *)

Lemma first_item_in (l : list string) : l <> [] -> In (PyStr.first_item l) l.
Proof. destruct l; [congruence | now left]. Qed.

(** C6: [get_ID] returns the override when there is one, whatever the
    path; without one it returns the first dot-delimited token of the last
    segment of the path: the path is a directory part that is empty or
    ends with a slash, then the token, then nothing or a dot and more,
    where neither token nor remainder has a slash and the token has no
    dot. For [sample1.bqsr.sorted.bam] this is [sample1]. *)
Theorem get_ID_spec :
  (forall path name, get_ID path (Some name) = name)
  /\ (forall path,
        exists dir rest,
          path = dir ++ get_ID path None ++ rest
          /\ (dir = "" \/ PyStr.endswith dir "/" = true)
          /\ PyStr.contains "/" (get_ID path None ++ rest) = false
          /\ PyStr.contains "." (get_ID path None) = false
          /\ (rest = "" \/ exists r, rest = String "." r))
  /\ get_ID "sample1.bqsr.sorted.bam" None = "sample1"
  /\ get_ID "/data/run1/sample1.bqsr.sorted.bam" None = "sample1".
Proof.
  split; [reflexivity|]. split; [|split; reflexivity].
  intros path. unfold get_ID.
  set (seg := PyStr.last_item (PyStr.split "/" path)).
  set (id := PyStr.first_item (PyStr.split "." seg)).
  destruct (join_last "/" (PyStr.split "/" path) (split_not_nil _ _))
    as [dir [Hpath Hdir]].
  rewrite join_split in Hpath. fold seg in Hpath.
  destruct (join_first "." (PyStr.split "." seg) (split_not_nil _ _))
    as [rest [Hseg Hrest]].
  rewrite join_split in Hseg. fold id in Hseg.
  assert (Hslash : PyStr.contains "/" seg = false).
  { pose proof (split_pieces "/" path) as Hall.
    rewrite List.Forall_forall in Hall. apply Hall.
    apply last_item_in, split_not_nil. }
  assert (Hdot : PyStr.contains "." id = false).
  { pose proof (split_pieces "." seg) as Hall.
    rewrite List.Forall_forall in Hall. apply Hall.
    apply first_item_in, split_not_nil. }
  exists dir, rest. rewrite <- Hseg. auto.
Qed.

(** ** The Workspace Manager *)

(** With a tmp root, [temp_output_loc] returns [{tmp}/{sampleID}/{cov}x]
    and leaves that directory and its parents in place, next to every
    directory there was. *)
Lemma temp_output_loc_tmp (args : Namespace)
    (out_dir root sampleID cov : string) (w : world) :
  let path := root ++ "/" ++ sampleID ++ "/" ++ cov ++ "x" in
  let r := temp_output_loc args out_dir (Some root) sampleID cov w in
  mkdir_ok (fs w) path = true ->
  fst r = Returned path
  /\ path ∈ dirs (fs (snd r))
  /\ (forall d, In d (parents path) -> d ∈ dirs (fs (snd r)))
  /\ dirs (fs w) ⊆ dirs (fs (snd r))
  /\ files (fs (snd r)) = files (fs w).
Proof.
  cbv zeta. intros Hok. unfold temp_output_loc, bind, logging_info, logging_emit, ret.
  rewrite mkdir_parents_ok by exact Hok. cbn [fst snd fs dirs files].
  repeat split; try set_solver.
  intros d Hd. apply elem_of_union_l, elem_of_union_r.
  apply elem_of_list_to_set. now apply list_elem_of_In.
Qed.

Example temp_output_loc_tmp_run :
  let r := temp_output_loc Example.args_tmp "./" (Some "scratch") "s1" "15"
             Example.empty_world in
  fst r = Returned "scratch/s1/15x"
  /\ elements (dirs (fs (snd r))) = ["scratch/s1/15x"; "scratch/s1"; "scratch"].
Proof. split; reflexivity. Qed.

(** C4 on the code: without a tmp root, [temp_output_loc] reads
    [args.out_dir], an attribute the [Namespace] does not have (the option
    is [output_dir]); the call ends in [AttributeError], returns no path
    and creates no directory. The claim's [{outputDir}/{sampleID}/tmp] is
    computed and logged, and then neither created nor returned. *)
Theorem temp_output_loc_default_raises (args : Namespace)
    (out_dir sampleID cov : string) (w : world) :
  let r := temp_output_loc args out_dir None sampleID cov w in
  fst r = Raised AttributeError
  /\ fs (snd r) = fs w
  /\ log (snd r)
     = List.app (log w)
         [(INFO, "Creating temp folder " ++ (out_dir ++ "/" ++ sampleID ++ "/tmp"))].
Proof. cbv zeta. repeat split. Qed.

Example temp_output_loc_default_run :
  let r := temp_output_loc Example.args_default "./" None "s1" "15"
             Example.empty_world in
  fst r = Raised AttributeError
  /\ elements (dirs (fs (snd r))) = []
  /\ log (snd r) = [(INFO, "Creating temp folder .//s1/tmp")].
Proof. repeat split. Qed.

(** ** The Fraction Calculator *)

(** *** Rounding *)

Lemma round_half_even_le (q : Q) (N : Z) :
  (q <= inject_Z N)%Q -> PyStr.round_half_even q <= N.
Proof.
  destruct q as [n d]. unfold Qle, PyStr.round_half_even. cbn [Qnum Qden inject_Z].
  intros H.
  pose proof (Z.div_mod n (Zpos d) ltac:(lia)) as Hdm.
  pose proof (Z.mod_pos_bound n (Zpos d) ltac:(lia)) as Hb.
  assert (Hfl : n / Zpos d <= N) by (apply Z.div_le_upper_bound; lia).
  assert (Hcase : n / Zpos d < N \/ n mod Zpos d = 0) by nia.
  destruct (2 * (n mod Zpos d) ?= Zpos d) eqn:E.
  - apply Z.compare_eq in E. destruct (Z.even (n / Zpos d)); lia.
  - lia.
  - apply Z.compare_gt_iff in E. lia.
Qed.

Lemma round_half_even_ge (q : Q) (N : Z) :
  (inject_Z N <= q)%Q -> N <= PyStr.round_half_even q.
Proof.
  destruct q as [n d]. unfold Qle, PyStr.round_half_even. cbn [Qnum Qden inject_Z].
  intros H.
  assert (Hfl : N <= n / Zpos d) by (apply Z.div_le_lower_bound; lia).
  destruct (2 * (n mod Zpos d) ?= Zpos d); [destruct (Z.even (n / Zpos d))| |]; lia.
Qed.

Lemma pow2_pos (e : Z) : (0 < pow2 e)%Q.
Proof. apply Qpower_0_lt. reflexivity. Qed.

Lemma pow2_nat (e : Z) : 0 <= e -> (pow2 e == inject_Z (2 ^ e))%Q.
Proof. intros H. unfold pow2. now rewrite Zpower_Qpower. Qed.

Lemma pow2_plus (a b : Z) : (pow2 (a + b) == pow2 a * pow2 b)%Q.
Proof. apply Qpower_plus. discriminate. Qed.

Lemma pow2_opp (a : Z) : (pow2 (- a) == / pow2 a)%Q.
Proof. apply Qpower_opp. Qed.

Lemma pow2_le (a b : Z) : a <= b -> (pow2 a <= pow2 b)%Q.
Proof. intros H. apply Qpower_le_compat_l; [exact H|discriminate]. Qed.

Lemma pow2_le_inv (a b : Z) : (pow2 a <= pow2 b)%Q -> a <= b.
Proof. intros H. eapply Qpower_le_compat_l_inv; [exact H|reflexivity]. Qed.

Lemma pow2_lt_inv (a b : Z) : (pow2 a < pow2 b)%Q -> a < b.
Proof. intros H. eapply Qpower_lt_compat_l_inv; [exact H|reflexivity]. Qed.

(** A positive rational between two powers of two, from the sizes of its
    numerator and denominator. *)
Lemma log2_bounds (x : Q) :
  (0 < x)%Q ->
  let k := Z.log2 (Qnum x) - Z.log2 (Zpos (Qden x)) in
  (pow2 (k - 1) <= x)%Q /\ (x < pow2 (k + 1))%Q.
Proof.
  destruct x as [n d]. intros Hpos. unfold Qlt in Hpos. cbn [Qnum Qden] in *.
  assert (Hn : 0 < n) by lia.
  pose proof (Z.log2_spec n Hn) as [Hn1 Hn2].
  pose proof (Z.log2_spec (Zpos d) ltac:(lia)) as [Hd1 Hd2].
  pose proof (Z.log2_nonneg n) as Ha. pose proof (Z.log2_nonneg (Zpos d)) as Hb.
  set (a := Z.log2 n) in *. set (b := Z.log2 (Zpos d)) in *.
  cbv zeta.
  assert (E1 : (pow2 (a - b - 1) * inject_Z (2 ^ (b + 1)) == inject_Z (2 ^ a))%Q).
  { rewrite <- !pow2_nat by lia. rewrite <- pow2_plus. now replace (a - b - 1 + (b + 1)) with a by lia. }
  assert (E2 : (pow2 (a - b + 1) * inject_Z (2 ^ b) == inject_Z (2 ^ (a + 1)))%Q).
  { rewrite <- !pow2_nat by lia. rewrite <- pow2_plus. now replace (a - b + 1 + b) with (a + 1) by lia. }
  pose proof (pow2_pos (a - b - 1)) as P1. pose proof (pow2_pos (a - b + 1)) as P2.
  assert (X : (n # d == inject_Z n / inject_Z (Zpos d))%Q) by apply Qmake_Qdiv.
  assert (Dpos : (0 < inject_Z (Zpos d))%Q) by (unfold Qlt; cbn; lia).
  assert (N1 : (inject_Z (2 ^ a) <= inject_Z n)%Q) by (rewrite <- Zle_Qle; lia).
  assert (N2 : (inject_Z n < inject_Z (2 ^ (a + 1)))%Q) by (rewrite <- Zlt_Qlt; lia).
  assert (D1 : (inject_Z (2 ^ b) <= inject_Z (Zpos d))%Q) by (rewrite <- Zle_Qle; lia).
  assert (D2 : (inject_Z (Zpos d) < inject_Z (2 ^ (b + 1)))%Q) by (rewrite <- Zlt_Qlt; lia).
  rewrite X. split.
  - apply Qle_shift_div_l; [exact Dpos|].
    generalize dependent (pow2 (a - b - 1)). generalize dependent (inject_Z (2 ^ (b + 1))).
    generalize dependent (inject_Z (2 ^ a)). generalize dependent (inject_Z n).
    generalize dependent (inject_Z (Zpos d)). intros. nra.
  - apply Qlt_shift_div_r; [exact Dpos|].
    generalize dependent (pow2 (a - b + 1)). generalize dependent (inject_Z (2 ^ (a + 1))).
    generalize dependent (inject_Z (2 ^ b)). generalize dependent (inject_Z n).
    generalize dependent (inject_Z (Zpos d)). intros. nra.
Qed.

Lemma binade_spec (x : Q) :
  (0 < x)%Q -> (pow2 (binade x) <= x)%Q /\ (x < pow2 (binade x + 1))%Q.
Proof.
  intros Hpos. destruct (log2_bounds x Hpos) as [Hlo Hhi]. cbv zeta in Hlo, Hhi.
  unfold binade.
  destruct (Qle_bool (pow2 (Z.log2 (Qnum x) - Z.log2 (Zpos (Qden x)))) x) eqn:E.
  - apply Qle_bool_iff in E. now split.
  - split; [exact Hlo|].
    apply Qnot_le_lt. intros H. apply Qle_bool_iff in H.
    replace (Z.log2 (Qnum x) - Z.log2 (Zpos (Qden x)) - 1 + 1)
      with (Z.log2 (Qnum x) - Z.log2 (Zpos (Qden x))) in H by lia.
    congruence.
Qed.

(** [round64] on a positive number. *)
Lemma round64_pos (x : Q) :
  (0 < x)%Q ->
  let r := (inject_Z (PyStr.round_half_even (x / pow2 (ulp_exponent x)))
            * pow2 (ulp_exponent x))%Q in
  round64 x = if Qle_bool (pow2 1024) r then None else Some (Qred r).
Proof.
  intros Hpos. cbv zeta. unfold round64, ulp_exponent.
  assert (Hn : 0 < Qnum x) by (destruct x; unfold Qlt in Hpos; cbn in *; lia).
  assert (Ez : Qeq_bool x 0 = false).
  { destruct (Qeq_bool x 0) eqn:E; [|reflexivity].
    apply Qeq_bool_iff in E. rewrite E in Hpos. discriminate. }
  assert (Ea : Qabs x = x).
  { destruct x as [n d]. cbn in *. now rewrite Z.abs_eq by lia. }
  rewrite Ez, Ea.
  replace (Qnum x <? 0) with false by (symmetry; apply Z.ltb_ge; lia).
  reflexivity.
Qed.

(** A number in (0, 1] rounds, without overflow, into [0, 1]. *)
Lemma round64_unit (x : Q) :
  (0 < x)%Q -> (x <= 1)%Q ->
  exists q, round64 x = Some q /\ (0 <= q)%Q /\ (q <= 1)%Q.
Proof.
  intros Hpos Hle. rewrite (round64_pos x Hpos). cbv zeta.
  set (e := ulp_exponent x).
  set (m := PyStr.round_half_even (x / pow2 e)).
  destruct (binade_spec x Hpos) as [Hlo _].
  assert (Hb : binade x <= 0).
  { apply pow2_le_inv. change (pow2 0) with 1%Q. now apply Qle_trans with x. }
  assert (He : e <= 0) by (unfold e, ulp_exponent; lia).
  pose proof (pow2_pos e) as Pe.
  assert (Hinv : (pow2 (- e) * pow2 e == 1)%Q).
  { rewrite <- pow2_plus. now replace (- e + e) with 0 by lia. }
  assert (Hm1 : m <= 2 ^ (- e)).
  { apply round_half_even_le. rewrite <- pow2_nat by lia.
    apply Qle_shift_div_r; [exact Pe|]. rewrite Hinv. exact Hle. }
  assert (Hm0 : 0 <= m).
  { apply round_half_even_ge. apply Qle_shift_div_l; [exact Pe|].
    rewrite Qmult_0_l. now apply Qlt_le_weak. }
  assert (Hr1 : (inject_Z m * pow2 e <= 1)%Q).
  { rewrite <- Hinv. apply Qmult_le_compat_r; [|now apply Qlt_le_weak].
    rewrite pow2_nat by lia. now rewrite <- Zle_Qle. }
  assert (Hr0 : (0 <= inject_Z m * pow2 e)%Q).
  { apply Qmult_le_0_compat; [|now apply Qlt_le_weak].
    change 0%Q with (inject_Z 0). now rewrite <- Zle_Qle. }
  destruct (Qle_bool (pow2 1024) (inject_Z m * pow2 e)) eqn:E.
  - apply Qle_bool_iff in E. exfalso.
    assert (H1 : (pow2 1024 <= 1)%Q) by (eapply Qle_trans; eauto).
    change 1%Q with (pow2 0) in H1. apply pow2_le_inv in H1. lia.
  - eexists. split; [reflexivity|]. rewrite Qred_correct. now split.
Qed.

Lemma round_half_even_mono (p q : Q) :
  (p <= q)%Q -> PyStr.round_half_even p <= PyStr.round_half_even q.
Proof.
  destruct p as [n1 d1], q as [n2 d2].
  unfold Qle, PyStr.round_half_even. cbn [Qnum Qden]. intros H.
  pose proof (Z.div_mod n1 (Zpos d1) ltac:(lia)) as E1.
  pose proof (Z.div_mod n2 (Zpos d2) ltac:(lia)) as E2.
  pose proof (Z.mod_pos_bound n1 (Zpos d1) ltac:(lia)) as B1.
  pose proof (Z.mod_pos_bound n2 (Zpos d2) ltac:(lia)) as B2.
  revert E1 B1 E2 B2.
  generalize dependent (n1 / Zpos d1). generalize dependent (n2 / Zpos d2).
  generalize dependent (n1 mod Zpos d1). generalize dependent (n2 mod Zpos d2).
  intros r2 r1 f2 f1 E1 B1 E2 B2.
  assert (Hf : f1 <= f2).
  { destruct (Z.le_gt_cases f1 f2) as [|Hgt]; [assumption|exfalso].
    assert (Zpos d1 * Zpos d2 <= Zpos d1 * Zpos d2 * (f1 - f2)) by nia.
    assert (r2 * Zpos d1 < Zpos d2 * Zpos d1) by nia.
    nia. }
  assert (Hc : f1 < f2 \/ (f1 = f2 /\ r1 * Zpos d2 <= r2 * Zpos d1)).
  { destruct (Z.eq_dec f1 f2) as [->|]; [right; split; [reflexivity|nia]|left; lia]. }
  destruct (Z.compare_spec (2 * r1) (Zpos d1)) as [C1|C1|C1];
    destruct (Z.compare_spec (2 * r2) (Zpos d2)) as [C2|C2|C2];
    (destruct Hc as [Hc|[Hc Hr]];
     [destruct (Z.even f1), (Z.even f2); lia
     |subst f2; destruct (Z.even f1); nia]).
Qed.

Lemma binade_mono (x y : Q) :
  (0 < x)%Q -> (x <= y)%Q -> binade x <= binade y.
Proof.
  intros Hx Hxy.
  assert (Hy : (0 < y)%Q) by (eapply Qlt_le_trans; eauto).
  destruct (binade_spec x Hx) as [Lx _]. destruct (binade_spec y Hy) as [_ Uy].
  assert (H : (pow2 (binade x) < pow2 (binade y + 1))%Q).
  { eapply Qle_lt_trans; [exact Lx|]. eapply Qle_lt_trans; eauto. }
  apply pow2_lt_inv in H. lia.
Qed.

Lemma scaled_le (x : Q) (k e : Z) :
  (x <= pow2 (k + e))%Q -> 0 <= k -> (x / pow2 e <= inject_Z (2 ^ k))%Q.
Proof.
  intros H Hk. apply Qle_shift_div_r; [apply pow2_pos|].
  rewrite <- pow2_nat by exact Hk. now rewrite <- pow2_plus.
Qed.

Lemma scaled_ge (x : Q) (k e : Z) :
  (pow2 (k + e) <= x)%Q -> 0 <= k -> (inject_Z (2 ^ k) <= x / pow2 e)%Q.
Proof.
  intros H Hk. apply Qle_shift_div_l; [apply pow2_pos|].
  rewrite <- pow2_nat by exact Hk. now rewrite <- pow2_plus.
Qed.

(** The rounded magnitude is monotone. *)
Lemma rounded_mono (x y : Q) :
  (0 < x)%Q -> (x <= y)%Q ->
  (inject_Z (PyStr.round_half_even (x / pow2 (ulp_exponent x))) * pow2 (ulp_exponent x)
   <= inject_Z (PyStr.round_half_even (y / pow2 (ulp_exponent y)))
      * pow2 (ulp_exponent y))%Q.
Proof.
  intros Hx Hxy.
  assert (Hy : (0 < y)%Q) by (eapply Qlt_le_trans; eauto).
  pose proof (binade_mono x y Hx Hxy) as Hb.
  destruct (binade_spec x Hx) as [_ Ux]. destruct (binade_spec y Hy) as [Ly _].
  unfold ulp_exponent.
  set (ex := Z.max (binade x - 52) (-1074)).
  set (ey := Z.max (binade y - 52) (-1074)).
  assert (He : ex <= ey) by (unfold ex, ey; lia).
  pose proof (pow2_pos ex) as Px. pose proof (pow2_pos ey) as Py.
  destruct (Z.eq_dec ex ey) as [E|E].
  - rewrite <- E. apply Qmult_le_compat_r; [|now apply Qlt_le_weak].
    rewrite <- Zle_Qle. apply round_half_even_mono.
    apply Qmult_le_compat_r; [exact Hxy|].
    apply Qlt_le_weak, Qinv_lt_0_compat, Px.
  - assert (Hmx : PyStr.round_half_even (x / pow2 ex) <= 2 ^ 53).
    { apply round_half_even_le, scaled_le; [|lia].
      apply Qlt_le_weak. eapply Qlt_le_trans; [exact Ux|].
      apply pow2_le. unfold ex. lia. }
    assert (Hmy : 2 ^ 52 <= PyStr.round_half_even (y / pow2 ey)).
    { apply round_half_even_ge, scaled_ge; [|lia].
      eapply Qle_trans; [|exact Ly]. apply pow2_le. unfold ey, ex in *. lia. }
    apply Qle_trans with (pow2 (53 + ex)).
    + rewrite pow2_plus. apply Qmult_le_compat_r; [|now apply Qlt_le_weak].
      rewrite (pow2_nat 53) by lia. now rewrite <- Zle_Qle.
    + apply Qle_trans with (pow2 (52 + ey)); [apply pow2_le; lia|].
      rewrite pow2_plus. apply Qmult_le_compat_r; [|now apply Qlt_le_weak].
      rewrite (pow2_nat 52) by lia. now rewrite <- Zle_Qle.
Qed.

Lemma rounded_nonneg (x : Q) :
  (0 < x)%Q ->
  (0 <= inject_Z (PyStr.round_half_even (x / pow2 (ulp_exponent x)))
        * pow2 (ulp_exponent x))%Q.
Proof.
  intros Hx. pose proof (pow2_pos (ulp_exponent x)) as Pe.
  apply Qmult_le_0_compat; [|now apply Qlt_le_weak].
  change 0%Q with (inject_Z 0). rewrite <- Zle_Qle.
  apply round_half_even_ge. apply Qle_shift_div_l; [exact Pe|].
  rewrite Qmult_0_l. now apply Qlt_le_weak.
Qed.

(** [round64] is monotone on the positive numbers, overflow included. *)
Lemma round64_mono (x y qy : Q) :
  (0 < x)%Q -> (x <= y)%Q -> round64 y = Some qy ->
  exists qx, round64 x = Some qx /\ (0 <= qx)%Q /\ (qx <= qy)%Q.
Proof.
  intros Hx Hxy Hqy.
  assert (Hy : (0 < y)%Q) by (eapply Qlt_le_trans; eauto).
  pose proof (rounded_mono x y Hx Hxy) as Hm.
  pose proof (rounded_nonneg x Hx) as H0.
  rewrite (round64_pos y Hy) in Hqy. rewrite (round64_pos x Hx). cbv zeta in *.
  set (rx := (inject_Z (PyStr.round_half_even (x / pow2 (ulp_exponent x)))
              * pow2 (ulp_exponent x))%Q) in *.
  set (ry := (inject_Z (PyStr.round_half_even (y / pow2 (ulp_exponent y)))
              * pow2 (ulp_exponent y))%Q) in *.
  destruct (Qle_bool (pow2 1024) ry) eqn:Ey; [discriminate|].
  injection Hqy as <-.
  destruct (Qle_bool (pow2 1024) rx) eqn:Ex.
  - apply Qle_bool_iff in Ex.
    assert (H : Qle_bool (pow2 1024) ry = true)
      by (apply Qle_bool_iff; eapply Qle_trans; eauto).
    congruence.
  - eexists. split; [reflexivity|]. rewrite !Qred_correct. now split.
Qed.

(** A [str] is no number: the comparison of line 139 raises. This is
    what the driver passes, see [main]. *)
Lemma get_fraction_str (s : string) (bamCov : pyfloat) (w : world) :
  get_fraction (PyStr s) bamCov w = (Raised TypeError, w).
Proof. reflexivity. Qed.

(** [float(v)] of a positive number below a float [o] is positive and at
    most [o]. *)
Lemma float_of_below (v : pyval) (d f o : Q) :
  as_number v = Some d -> float_of v = Returned f ->
  (0 < d)%Q -> (d < o)%Q -> representable o = true ->
  (0 < f)%Q /\ (f <= o)%Q.
Proof.
  intros Hv Hf Hpos Hlt Ho. destruct v as [|b|z|x|s]; try discriminate.
  - injection Hv as <-. injection Hf as <-. split; [exact Hpos|now apply Qlt_le_weak].
  - cbn in Hv, Hf. injection Hv as <-.
    unfold representable in Ho.
    destruct (round64 o) as [qo|] eqn:Eo; [|discriminate].
    apply Qeq_bool_iff in Ho.
    destruct (round64_mono (inject_Z z) o qo Hpos (Qlt_le_weak _ _ Hlt) Eo)
      as (qz & Ez & _ & Hle).
    rewrite Ez in Hf. injection Hf as <-.
    split; [|now rewrite <- Ho].
    assert (H1 : (1 <= inject_Z z)%Q).
    { change 1%Q with (inject_Z 1). rewrite <- Zle_Qle.
      change 0%Q with (inject_Z 0) in Hpos. rewrite <- Zlt_Qlt in Hpos. lia. }
    destruct (round64_mono 1 (inject_Z z) qz eq_refl H1 Ez) as (q1 & E1 & _ & Hq).
    vm_compute in E1. injection E1 as <-.
    eapply Qlt_le_trans; [|exact Hq]. reflexivity.
  - injection Hv as <-. injection Hf as <-. split; [exact Hpos|now apply Qlt_le_weak].
Qed.

(** C2, as the code has it: for a desired coverage [d] that is a number,
    with [f] what [float] makes of it, and a finite observed coverage [o],
    [get_fraction] logs an error and exits with status 1 exactly when
    [o <= d]; otherwise, and when [o] is not zero, it returns the quotient
    [f / o] rounded to binary64 (an infinity if it is too large), which
    lies between 0 and 1, both included, as soon as [d] is positive. *)
Theorem get_fraction_spec (v : pyval) (d f o : Q) (w : world) :
  as_number v = Some d ->
  float_of v = Returned f ->
  (fst (get_fraction v (Finite o) w) = SysExit 1 <-> (o <= d)%Q)
  /\ ((o <= d)%Q ->
      exists msg,
        log (snd (get_fraction v (Finite o) w)) = (log w ++ [(ERROR, msg)])%list)
  /\ ((d < o)%Q -> ~ (o == 0)%Q ->
      fst (get_fraction v (Finite o) w)
      = Returned match round64 (f / o) with
                 | Some q => Finite q
                 | None => Infinity (Qnum (f / o) <? 0)
                 end)
  /\ ((0 < d)%Q -> (d < o)%Q -> representable o = true ->
      exists q, fst (get_fraction v (Finite o) w) = Returned (Finite q)
                /\ round64 (f / o) = Some q
                /\ (0 <= q)%Q /\ (q <= 1)%Q).
Proof.
  intros Hv Hf. unfold get_fraction. rewrite Hv. cbn [ge_float].
  assert (Hdiv : (d < o)%Q -> ~ (o == 0)%Q ->
                 Qle_bool o d = false /\ Qeq_bool o 0 = false).
  { intros Hlt Hnz. split.
    - destruct (Qle_bool o d) eqn:Hle; [|reflexivity].
      apply Qle_bool_iff in Hle. exfalso. now apply (Qlt_not_le d o).
    - destruct (Qeq_bool o 0) eqn:Hz; [|reflexivity].
      apply Qeq_bool_iff in Hz. contradiction. }
  split; [|split; [|split]].
  - destruct (Qle_bool o d) eqn:Hle.
    + split; [intros _; now apply Qle_bool_iff|].
      intros _. unfold bind, lift. now rewrite Hf.
    + split.
      * unfold bind, lift, float_truediv. rewrite Hf.
        destruct (Qeq_bool o 0); [discriminate|].
        destruct (round64 (f / o)); discriminate.
      * intros H. apply Qle_bool_iff in H. congruence.
  - intros H. apply Qle_bool_iff in H. rewrite H.
    unfold bind, lift. rewrite Hf. eexists. reflexivity.
  - intros Hlt Hnz. destruct (Hdiv Hlt Hnz) as [E1 E2]. rewrite E1.
    unfold bind, lift, float_truediv. rewrite Hf, E2.
    destruct (round64 (f / o)); reflexivity.
  - intros Hpos Hlt Ho.
    assert (Hopos : (0 < o)%Q) by (eapply Qlt_trans; eauto).
    assert (Hnz : ~ (o == 0)%Q).
    { intros E. rewrite E in Hopos. now apply (Qlt_irrefl 0). }
    destruct (Hdiv Hlt Hnz) as [E1 E2]. rewrite E1.
    destruct (float_of_below v d f o Hv Hf Hpos Hlt Ho) as [Hf0 Hfo].
    destruct (round64_unit (f / o)) as (q & Eq & Hq0 & Hq1).
    { apply Qlt_shift_div_l; [exact Hopos|]. now rewrite Qmult_0_l. }
    { apply Qle_shift_div_r; [exact Hopos|]. now rewrite Qmult_1_l. }
    exists q. unfold bind, lift, float_truediv. rewrite Hf, E2, Eq.
    repeat split; assumption.
Qed.

Lemma get_fraction_spec_witness :
  exists q,
    fst (get_fraction (PyInt 15) (Finite (30 # 1)) Example.empty_world)
    = Returned (Finite q)
    /\ round64 ((15 # 1) / (30 # 1))%Q = Some q
    /\ (0 <= q)%Q /\ (q <= 1)%Q.
Proof.
  apply (proj2 (proj2 (proj2
           (get_fraction_spec (PyInt 15) (inject_Z 15) (15 # 1) (30 # 1)
              Example.empty_world eq_refl eq_refl)))).
  - reflexivity.
  - reflexivity.
  - reflexivity.
Defined.

(** The example of the specification: desired 15 over observed 30. *)
Example get_fraction_half :
  fst (get_fraction (PyInt 15) (Finite (30 # 1)) Example.empty_world)
  = Returned (Finite (1 # 2)).
Proof. reflexivity. Qed.

(** Binary64 at work: 1 over 49 is the float 0.02040816326530612; 7 over
    2000000 is just below 3.5e-06 and is logged as 0.000003. *)
Example get_fraction_rounds :
  fst (get_fraction (PyInt 1) (Finite (49 # 1)) Example.empty_world)
  = Returned (Finite (5882252574524729 # 288230376151711744))
  /\ List.last (log (snd (get_fraction (PyInt 7) (Finite (2000000 # 1))
                           Example.empty_world))) (INFO, "")
     = (INFO, "Downsampling CRAM with factor: 0.000003 ").
Proof. split; vm_compute; reflexivity. Qed.

(** C2, as the claim has it, fails: the fraction returned is not always
    strictly between 0 and 1. A desired coverage of 0 is below an observed
    coverage of 30 and gives the fraction 0; the smallest positive float
    over 1e10 underflows to 0; and the integer 9007199254740995, below the
    observed 9007199254740996.0, is first rounded to it by [float] and
    gives exactly 1. *)
Lemma get_fraction_not_strict :
  (exists q, fst (get_fraction (PyInt 0) (Finite (30 # 1)) Example.empty_world)
             = Returned (Finite q) /\ ~ (0 < q)%Q)
  /\ (0 < 1 # (2 ^ 1074))%Q
  /\ fst (get_fraction (PyFloat (1 # (2 ^ 1074))) (Finite (10000000000 # 1))
            Example.empty_world) = Returned (Finite 0)
  /\ (inject_Z 9007199254740995 < 9007199254740996 # 1)%Q
  /\ fst (get_fraction (PyInt 9007199254740995) (Finite (9007199254740996 # 1))
            Example.empty_world) = Returned (Finite 1).
Proof.
  split; [|split; [|split; [|split]]].
  - eexists. split; [vm_compute; reflexivity|]. vm_compute. discriminate.
  - reflexivity.
  - vm_compute. reflexivity.
  - reflexivity.
  - vm_compute. reflexivity.
Qed.

(** ** The Duplicate/Quality Filter *)

Lemma filterString_render (skip_dupRm : bool) :
  filterString skip_dupRm = Filter.render (Filter.of_skip skip_dupRm).
Proof. destruct skip_dupRm; reflexivity. Qed.

Lemma keeps_default (r : Filter.read) :
  Filter.keeps (Filter.of_skip false) r = true
  <-> Filter.read_unmapped r = false /\ Filter.read_mate_unmapped r = false
      /\ Filter.read_paired r = true /\ Filter.read_duplicate r = false.
Proof.
  destruct r as [[] [] [] []]; cbn; intuition congruence.
Qed.

Lemma keeps_skip (r : Filter.read) :
  Filter.keeps (Filter.of_skip true) r = true
  <-> Filter.read_unmapped r = false /\ Filter.read_mate_unmapped r = false
      /\ Filter.read_paired r = true.
Proof.
  destruct r as [[] [] [] []]; cbn; intuition congruence.
Qed.

(** How a call of [remove_dup] goes, by what sambamba returns and leaves
    behind, once [thread] has been read as an integer. *)
Lemma remove_dup_run (shell : string -> filesys -> Z * filesys)
    (input_file tempLoc file_type sampleID : string) (skip_dupRm : bool)
    (thread : string) (threads : Z) (w : world) :
  PyStr.int thread = Some threads ->
  let cmd := remove_dup_cmd input_file tempLoc file_type sampleID skip_dupRm
               threads in
  let after := shell cmd (fs w) in
  let r := remove_dup shell input_file tempLoc file_type sampleID skip_dupRm
             thread w in
  fst r = (if fst after =? 0
           then Returned (tempLoc ++ "/" ++ sampleID ++ ".dupRm.bam")
           else SysExit 1)
  /\ fs (snd r) = snd after
  /\ cmds (snd r) = List.app (cmds w) [(cmd, fst after)].
Proof.
  intros Hthread. cbv zeta.
  unfold remove_dup, bind, logging_info, logging_error, logging_emit, lift,
    int_of, os_system, ret, sys_exit.
  rewrite Hthread.
  destruct skip_dupRm; cbn [fs log cmds];
    destruct (shell _ (fs w)) as [status fs']; cbn [fst snd];
    destruct (status =? 0); repeat split.
Qed.

(** A [--thread] that is no integer ends the call before any command is
    run. *)
Lemma remove_dup_bad_thread (shell : string -> filesys -> Z * filesys)
    (input_file tempLoc file_type sampleID : string) (skip_dupRm : bool)
    (thread : string) (w : world) :
  PyStr.int thread = None ->
  let r := remove_dup shell input_file tempLoc file_type sampleID skip_dupRm
             thread w in
  fst r = Raised ValueError /\ cmds (snd r) = cmds w /\ fs (snd r) = fs w.
Proof.
  intros Hthread. cbv zeta.
  unfold remove_dup, bind, logging_info, logging_emit, lift, int_of, ret.
  rewrite Hthread. destruct skip_dupRm; repeat split.
Qed.

(** C5: [remove_dup] passes sambamba the filter [not (unmapped or
    mate_is_unmapped) and paired and not duplicate], which keeps exactly
    the reads that are mapped, whose mate is mapped, that are paired and
    that are no duplicates; with [skip_dupRm] it passes the same filter
    without its last clause, which keeps exactly the mapped, mate-mapped,
    paired reads, duplicates or not. The command has the flag [-C] for the
    kind cram and no flag for the kind bam. When [thread] is an integer
    the command is run; if it returns 0 the call returns
    [{workspace}/{sampleID}.dupRm.bam], and otherwise it exits with
    status 1. *)
Theorem remove_dup_spec (shell : string -> filesys -> Z * filesys)
    (input_file tempLoc kind sampleID : string) (skip_dupRm : bool)
    (thread : string) (threads : Z) (w : world) :
  kind = "cram" \/ kind = "bam" ->
  PyStr.int thread = Some threads ->
  let cmd := remove_dup_cmd input_file tempLoc kind sampleID skip_dupRm threads in
  let r := remove_dup shell input_file tempLoc kind sampleID skip_dupRm thread w in
  filterString skip_dupRm = Filter.render (Filter.of_skip skip_dupRm)
  /\ (forall rd, Filter.keeps (Filter.of_skip false) rd = true
                 <-> Filter.read_unmapped rd = false
                     /\ Filter.read_mate_unmapped rd = false
                     /\ Filter.read_paired rd = true
                     /\ Filter.read_duplicate rd = false)
  /\ (forall rd, Filter.keeps (Filter.of_skip true) rd = true
                 <-> Filter.read_unmapped rd = false
                     /\ Filter.read_mate_unmapped rd = false
                     /\ Filter.read_paired rd = true)
  /\ cmd = "sambamba view -F '" ++ Filter.render (Filter.of_skip skip_dupRm)
             ++ "' -q " ++ (if String.eqb kind "cram" then "-C" else "")
             ++ " -f bam -t " ++ PyStr.fmt_d threads
             ++ " -o " ++ tempLoc ++ "/" ++ sampleID ++ ".dupRm.bam "
             ++ input_file
  /\ cmds (snd r) = List.app (cmds w) [(cmd, fst (shell cmd (fs w)))]
  /\ (fst (shell cmd (fs w)) = 0 ->
      fst r = Returned (tempLoc ++ "/" ++ sampleID ++ ".dupRm.bam"))
  /\ (fst (shell cmd (fs w)) <> 0 -> fst r = SysExit 1).
Proof.
  intros Hkind Hthread cmd r.
  split; [apply filterString_render|].
  split; [apply keeps_default|].
  split; [apply keeps_skip|].
  split.
  { subst cmd. unfold remove_dup_cmd. rewrite <- filterString_render.
    destruct Hkind as [-> | ->]; reflexivity. }
  destruct (remove_dup_run shell input_file tempLoc kind sampleID skip_dupRm
              thread threads w Hthread) as (Hfst & _ & Hcmds).
  fold cmd r in Hfst, Hcmds.
  split; [exact Hcmds|]. rewrite Hfst. split.
  - intros ->. reflexivity.
  - intros Hne. apply Z.eqb_neq in Hne. now rewrite Hne.
Qed.

Lemma remove_dup_spec_witness :
  fst (remove_dup (Example.tools "" []) "data/s1.bqsr.bam" "scratch/s1/15x"
         "cram" "s1" false "4" Example.empty_world)
  = Returned "scratch/s1/15x/s1.dupRm.bam".
Proof.
  refine (proj1 (proj2 (proj2 (proj2 (proj2 (proj2
            (remove_dup_spec (Example.tools "" []) "data/s1.bqsr.bam"
               "scratch/s1/15x" "cram" "s1" false "4" 4 Example.empty_world
               _ _)))))) _).
  - left. reflexivity.
  - reflexivity.
  - reflexivity.
Defined.

Example remove_dup_commands :
  remove_dup_cmd "in.cram" "ws" "cram" "s1" false 4
  = "sambamba view -F 'not (unmapped or mate_is_unmapped) and paired and not duplicate' -q -C -f bam -t 4 -o ws/s1.dupRm.bam in.cram"
  /\ remove_dup_cmd "in.bam" "ws" "bam" "s1" true 4
     = "sambamba view -F 'not (unmapped or mate_is_unmapped) and paired' -q  -f bam -t 4 -o ws/s1.dupRm.bam in.bam".
Proof. split; reflexivity. Qed.

(** ** The Coverage Estimator *)

Lemma summary_file_prefix (sub_tmp sampleID : string) :
  summary_file sub_tmp sampleID
  = mosdepth_prefix sub_tmp sampleID ++ ".mosdepth.summary.txt".
Proof.
  unfold summary_file, mosdepth_prefix. now rewrite !str_app_assoc.
Qed.

(** How a call of [get_coverage] goes, by what mosdepth returns and
    leaves behind. *)
Lemma get_coverage_run (shell : string -> filesys -> Z * filesys)
    (Bam sampleID tempFolder subfolder : string) (w : world) :
  let sub_tmp := tempFolder ++ "/" ++ subfolder in
  let after := shell (mosdepth_cmd sub_tmp sampleID Bam)
                 (fs (snd (mkdir_parents sub_tmp w))) in
  let r := get_coverage shell Bam sampleID tempFolder subfolder w in
  mkdir_ok (fs w) sub_tmp = true ->
  (fst after <> 0 -> fst r = SysExit 1)
  /\ (fst after = 0 ->
      files (snd after) !! summary_file sub_tmp sampleID = None ->
      fst r = Raised FileNotFoundError)
  /\ (fst after = 0 ->
      forall content,
        files (snd after) !! summary_file sub_tmp sampleID = Some content ->
        fst r = coverage_of_lines (PyStr.readlines content)
        /\ (forall e, coverage_of_lines (PyStr.readlines content) = Raised e ->
                      log (snd r) = log w)).
Proof.
  cbv zeta. intros Hok. unfold get_coverage, bind, os_system.
  rewrite !(mkdir_parents_ok _ w Hok).
  cbn [fst snd fs log cmds].
  destruct (shell _ _) as [status fs'] eqn:Hsh. cbn [fst snd].
  repeat split.
  - intros Hne. apply Z.eqb_neq in Hne. rewrite Hne. reflexivity.
  - intros -> Hnone.
    cbn [negb Z.eqb ret fst snd]. unfold open_read. cbn [fs files].
    now rewrite Hnone.
  - subst status.
    cbn [negb Z.eqb ret fst snd]. unfold open_read. cbn [fs files].
    rewrite H0.
    unfold lift. destruct (coverage_of_lines _); reflexivity.
  - intros e He. subst status.
    cbn [negb Z.eqb ret fst snd]. unfold open_read. cbn [fs files].
    rewrite H0.
    unfold lift. rewrite He. reflexivity.
Qed.


(** The columns the loop reads are the columns of the row. *)
Lemma sum_rows_step (line : string) (rest : list string) (length bases : Z) :
  sum_rows (line :: rest) length bases
  = if counted line then
      match nth_error (PyStr.re_split_tabs (PyStr.strip line)) 1 with
      | None => Raised IndexError
      | Some c1 =>
          match PyStr.int c1 with
          | None => Raised ValueError
          | Some n1 =>
              match nth_error (PyStr.re_split_tabs (PyStr.strip line)) 2 with
              | None => Raised IndexError
              | Some c2 =>
                  match PyStr.int c2 with
                  | None => Raised ValueError
                  | Some n2 => sum_rows rest (length + n1) (bases + n2)
                  end
              end
          end
      end
    else sum_rows rest length bases.
Proof.
  cbn [sum_rows]. unfold index, int_of.
  destruct (counted line); [|reflexivity].
  destruct (nth_error _ 1) as [c1|]; [|reflexivity].
  destruct (PyStr.int c1); [|reflexivity].
  destruct (nth_error _ 2) as [c2|]; [|reflexivity].
  destruct (PyStr.int c2); reflexivity.
Qed.

Lemma sum_rows_none (lines : list string) (length bases : Z) :
  (forall line, In line lines -> counted line = false) ->
  sum_rows lines length bases = Returned (length, bases).
Proof.
  induction lines as [|line rest IH]; intros Hnone; [reflexivity|].
  rewrite sum_rows_step, (Hnone line (or_introl eq_refl)).
  apply IH. intros l Hl. apply Hnone. now right.
Qed.

(** On a report whose counted rows have their two columns, the loop ends
    with the totals over the counted rows. *)
Lemma sum_rows_totals (lines : list string) (length bases : Z) :
  (forall line, In line lines -> counted line = true -> row_values line <> None) ->
  sum_rows lines length bases
  = Returned (length + fst (totals_where counted lines),
              bases + snd (totals_where counted lines)).
Proof.
  revert length bases.
  induction lines as [|line rest IH]; intros length bases Hrows.
  - cbn. now rewrite !Z.add_0_r.
  - rewrite sum_rows_step. cbn [totals_where fold_right].
    fold (totals_where counted rest).
    pose proof (Hrows line (or_introl eq_refl)) as Hline.
    assert (Hrest : forall l, In l rest -> counted l = true -> row_values l <> None)
      by (intros l Hl; apply Hrows; now right).
    destruct (counted line); [|now apply IH].
    specialize (Hline eq_refl). unfold row_values in *.
    destruct (nth_error _ 1) as [c1|]; [|congruence].
    destruct (nth_error _ 2) as [c2|]; [|congruence].
    destruct (PyStr.int c1) as [n1|]; [|congruence].
    destruct (PyStr.int c2) as [n2|]; [|congruence].
    rewrite (IH _ _ Hrest). cbn [fst snd]. f_equal. f_equal; lia.
Qed.

Lemma totals_where_ext (keep keep' : string -> bool) (lines : list string) :
  (forall line, In line lines -> keep line = keep' line) ->
  totals_where keep lines = totals_where keep' lines.
Proof.
  induction lines as [|line rest IH]; intros Hext; [reflexivity|].
  cbn [totals_where fold_right]. fold (totals_where keep rest).
  fold (totals_where keep' rest).
  rewrite (Hext line (or_introl eq_refl)), IH; [reflexivity|].
  intros l Hl. apply Hext. now right.
Qed.

Lemma digits_fst (min max : nat) (s : string) :
  Re.digits min max s
  = if Nat.leb min (fst (Re.take_digits max s))
    then Some (snd (Re.take_digits max s)) else None.
Proof. unfold Re.digits. now destruct (Re.take_digits max s). Qed.

Lemma take_digits_head (m : nat) (a : ascii) (s : string) :
  fst (Re.take_digits (S m) (String a s))
  = if PyStr.is_digit a then S (fst (Re.take_digits m s)) else O.
Proof.
  change (Re.take_digits (S m) (String a s))
    with (if PyStr.is_digit a
          then let '(k, rest) := Re.take_digits m s in (S k, rest)
          else (O, String a s)).
  destruct (PyStr.is_digit a); [|reflexivity].
  now destruct (Re.take_digits m s).
Qed.

(** [^[0-9]{1,2}] matches exactly the strings that start with a digit. *)
Lemma search_digits_head (s : string) :
  Re.search_digits s
  = match s with String a _ => PyStr.is_digit a | EmptyString => false end.
Proof.
  unfold Re.search_digits. rewrite digits_fst.
  destruct s as [|a s]; [reflexivity|].
  rewrite take_digits_head. now destruct (PyStr.is_digit a).
Qed.

Lemma literal_spec (lit s rest : string) :
  Re.literal lit s = Some rest <-> s = lit ++ rest.
Proof.
  revert s. induction lit as [|a lit IH]; intros s.
  - cbn. split; congruence.
  - destruct s as [|b s]; cbn; [split; discriminate|].
    destruct (Ascii.eqb_spec a b) as [->|Hne].
    + rewrite IH. split; congruence.
    + split; [discriminate | congruence].
Qed.

(** A row is counted when it starts with a digit. *)
Lemma counted_digit (a : ascii) (s : string) :
  PyStr.is_digit a = true -> counted (String a s) = true.
Proof.
  intros Ha. unfold counted. now rewrite search_digits_head, Ha.
Qed.

(** A row is counted when it starts with [chr] and a digit. *)
Lemma counted_chr_digit (a : ascii) (s : string) :
  PyStr.is_digit a = true -> counted ("chr" ++ String a s) = true.
Proof.
  intros Ha. unfold counted, Re.search_chr_digits.
  rewrite (proj2 (literal_spec "chr" _ (String a s)) eq_refl).
  rewrite digits_fst, take_digits_head, Ha. apply orb_true_r.
Qed.

(** A row is not counted when it starts neither with a digit nor with
    [chr] and a digit. *)
Lemma counted_false (line : string) :
  (forall a s, line = String a s -> PyStr.is_digit a = false) ->
  (forall a s, line = "chr" ++ String a s -> PyStr.is_digit a = false) ->
  counted line = false.
Proof.
  intros Hd Hc. unfold counted, Re.search_chr_digits.
  rewrite search_digits_head. apply orb_false_iff. split.
  - destruct line as [|a s]; [reflexivity|]. exact (Hd a s eq_refl).
  - destruct (Re.literal "chr" line) as [rest|] eqn:Hlit; [|reflexivity].
    apply literal_spec in Hlit. rewrite digits_fst.
    destruct rest as [|a s]; [reflexivity|].
    now rewrite take_digits_head, (Hc a s Hlit).
Qed.

(** Every row named after an autosome is counted. *)
Lemma is_autosome_counted (line : string) :
  is_autosome (contig_name line) = true -> counted line = true.
Proof.
  intros Hauto. unfold contig_name in Hauto.
  destruct (join_first "009" (PyStr.split "009" line) (split_not_nil _ _))
    as [rest [Hline _]].
  rewrite join_split in Hline. rewrite Hline.
  unfold is_autosome in Hauto. apply existsb_exists in Hauto.
  destruct Hauto as [name [Hin Heq]]. apply String.eqb_eq in Heq.
  rewrite Heq. clear Heq Hline.
  vm_compute in Hin.
  repeat (destruct Hin as [<-|Hin];
          [first [ now apply counted_digit
                 | now apply (counted_chr_digit _ _) ]|]).
  destruct Hin.
Qed.

Lemma coverage_of_lines_counted (lines : list string) :
  (forall line, In line lines -> counted line = true -> row_values line <> None) ->
  fst (totals_where counted lines) <> 0 ->
  coverage_of_lines lines
  = match round64 (mean_of (totals_where counted lines)) with
    | Some q => Returned q
    | None => Raised OverflowError
    end.
Proof.
  intros Hrows Hlen. unfold coverage_of_lines, int_truediv, mean_of.
  rewrite (sum_rows_totals lines 0 0 Hrows), !Z.add_0_l.
  apply Z.eqb_neq in Hlen. now rewrite Hlen.
Qed.

Lemma coverage_of_lines_none (lines : list string) :
  (forall line, In line lines -> counted line = false) ->
  coverage_of_lines lines = Raised ZeroDivisionError.
Proof.
  intros Hnone. unfold coverage_of_lines.
  now rewrite (sum_rows_none lines 0 0 Hnone).
Qed.

(** C1, as the code has it: [get_coverage] reads the report at
    [{prefix}.mosdepth.summary.txt], where [{prefix}] is the prefix it gave
    mosdepth. Every row named after an autosome, [1] to [22] or [chr1] to
    [chr22], is counted, and the rows of the sex chromosomes are not. On a
    report in which every counted row is an autosome and every autosome
    row has its length and its bases, it returns the sum of the bases over
    the sum of the lengths of the autosome rows, rounded to a float, and
    ends in [OverflowError] when that quotient is too large for one. *)
Theorem get_coverage_autosomes (shell : string -> filesys -> Z * filesys)
    (Bam sampleID tempFolder subfolder : string) (w : world) (content : string) :
  let sub_tmp := tempFolder ++ "/" ++ subfolder in
  let after := shell (mosdepth_cmd sub_tmp sampleID Bam)
                 (fs (snd (mkdir_parents sub_tmp w))) in
  let lines := PyStr.readlines content in
  mkdir_ok (fs w) sub_tmp = true ->
  fst after = 0 ->
  files (snd after) !! (mosdepth_prefix sub_tmp sampleID ++ ".mosdepth.summary.txt")
    = Some content ->
  (forall line, In line lines -> counted line = true ->
                is_autosome (contig_name line) = true) ->
  (forall line, In line lines -> is_autosome (contig_name line) = true ->
                row_values line <> None) ->
  fst (autosome_totals lines) <> 0 ->
  fst (get_coverage shell Bam sampleID tempFolder subfolder w)
  = match round64 (autosome_mean lines) with
    | Some q => Returned q
    | None => Raised OverflowError
    end
  /\ (forall line, is_autosome (contig_name line) = true -> counted line = true)
  /\ (forall name rest, In name ["X"; "Y"; "chrX"; "chrY"] ->
                        counted (name ++ rest) = false).
Proof.
  intros sub_tmp after lines Hdir Hok Hfile Hauto Hrows Hlen.
  rewrite <- summary_file_prefix in Hfile.
  assert (Hsame : totals_where counted lines = autosome_totals lines).
  { apply totals_where_ext. intros line Hin.
    destruct (counted line) eqn:Hc.
    - symmetry. now apply Hauto.
    - destruct (is_autosome (contig_name line)) eqn:Ha; [|reflexivity].
      apply is_autosome_counted in Ha. congruence. }
  split; [|split].
  - destruct (get_coverage_run shell Bam sampleID tempFolder subfolder w Hdir)
      as (_ & _ & Hrun).
    destruct (Hrun Hok content Hfile) as [-> _].
    fold lines. unfold autosome_mean. rewrite <- Hsame.
    apply coverage_of_lines_counted.
    + intros line Hin Hc. apply Hrows; [exact Hin | now apply Hauto].
    + now rewrite Hsame.
  - exact is_autosome_counted.
  - intros name rest Hin. cbn [In] in Hin.
    destruct Hin as [<-|[<-|[<-|[<-|[]]]]]; reflexivity.
Qed.

Lemma get_coverage_autosomes_witness :
  fst (get_coverage
         (Example.tools "scratch/s1/15x/R1/s1.mosdepth.summary.txt"
            Example.report_rows)
         "scratch/s1/15x/s1.dupRm.bam" "s1" "scratch/s1/15x" "R1"
         Example.empty_world)
  = match round64 (autosome_mean
                     (PyStr.readlines (Example.text Example.report_rows))) with
    | Some q => Returned q
    | None => Raised OverflowError
    end
  /\ round64 (autosome_mean (PyStr.readlines (Example.text Example.report_rows)))
     = Some (1 # 2)%Q.
Proof.
  split; [|reflexivity].
  refine (proj1 (get_coverage_autosomes
                   (Example.tools "scratch/s1/15x/R1/s1.mosdepth.summary.txt"
                      Example.report_rows)
                   "scratch/s1/15x/s1.dupRm.bam" "s1" "scratch/s1/15x" "R1"
                   Example.empty_world (Example.text Example.report_rows)
                   _ _ _ _ _ _)).
  - reflexivity.
  - reflexivity.
  - reflexivity.
  - intros line Hin Hc. vm_compute in Hin.
    destruct Hin as [<-|[<-|[<-|[]]]]; vm_compute in Hc |- *; congruence.
  - intros line Hin _. vm_compute in Hin.
    destruct Hin as [<-|[<-|[<-|[]]]]; vm_compute; discriminate.
  - vm_compute. discriminate.
Defined.

(** C1, as the claim has it, fails twice. A report written at
    [{prefix}.summary.txt] is not found: the script opens
    [{prefix}.mosdepth.summary.txt]. And a row that is no autosome, the
    unplaced contig [chr1_KI270706v1_random], is counted: on the report
    with [chr1] (1000, 500) and that contig (1000, 0) the script returns
    500/2000, not the mean 500/1000 over the autosomes. *)
Lemma get_coverage_counts_contig :
  fst (get_coverage
         (Example.tools (mosdepth_prefix "ws/R1" "s1" ++ ".summary.txt")
            Example.report_with_contig)
         "ws/s1.dupRm.bam" "s1" "ws" "R1" Example.empty_world)
  = Raised FileNotFoundError
  /\ is_autosome "chr1_KI270706v1_random" = false
  /\ counted (Example.row "chr1_KI270706v1_random" "1000" "0") = true
  /\ exists q,
       fst (get_coverage
              (Example.tools (summary_file "ws/R1" "s1")
                 Example.report_with_contig)
              "ws/s1.dupRm.bam" "s1" "ws" "R1" Example.empty_world)
       = Returned q
       /\ (q == 1 # 4)%Q
       /\ (autosome_mean Example.report_with_contig == 1 # 2)%Q
       /\ ~ (q == autosome_mean Example.report_with_contig)%Q.
Proof.
  split; [reflexivity|]. split; [reflexivity|]. split; [reflexivity|].
  eexists. split; [vm_compute; reflexivity|].
  split; [reflexivity|]. split; [reflexivity|].
  vm_compute. discriminate.
Qed.

(** C9, as the code has it: once mosdepth has succeeded and its report is
    there, [get_coverage] on a report without any counted row ends in
    [ZeroDivisionError], with nothing logged: it neither exits through
    [sys.exit] nor returns a number. On a report with a counted row, whose
    counted rows all have their two integer columns and a positive total
    length, the division gives the total of the bases over the total
    length rounded to a float, and [OverflowError] when that quotient is
    too large for one. *)
Theorem get_coverage_division (shell : string -> filesys -> Z * filesys)
    (Bam sampleID tempFolder subfolder : string) (w : world) (content : string) :
  let sub_tmp := tempFolder ++ "/" ++ subfolder in
  let after := shell (mosdepth_cmd sub_tmp sampleID Bam)
                 (fs (snd (mkdir_parents sub_tmp w))) in
  let lines := PyStr.readlines content in
  let r := get_coverage shell Bam sampleID tempFolder subfolder w in
  mkdir_ok (fs w) sub_tmp = true ->
  fst after = 0 ->
  files (snd after) !! summary_file sub_tmp sampleID = Some content ->
  ((forall line, In line lines -> counted line = false) ->
   fst r = Raised ZeroDivisionError /\ log (snd r) = log w)
  /\ ((forall line, In line lines -> counted line = true ->
                    row_values line <> None) ->
      (exists line, In line lines /\ counted line = true) ->
      0 < fst (totals_where counted lines) ->
      fst r = match round64 (mean_of (totals_where counted lines)) with
              | Some q => Returned q
              | None => Raised OverflowError
              end).
Proof.
  intros sub_tmp after lines r Hdir Hok Hfile.
  destruct (get_coverage_run shell Bam sampleID tempFolder subfolder w Hdir)
    as (_ & _ & Hrun).
  destruct (Hrun Hok content Hfile) as [Hfst Hlog]. fold lines r in Hfst, Hlog.
  split.
  - intros Hnone. pose proof (coverage_of_lines_none lines Hnone) as Hzero.
    split; [congruence | exact (Hlog _ Hzero)].
  - intros Hrows _ Hpos. rewrite Hfst.
    apply coverage_of_lines_counted; [exact Hrows | lia].
Qed.

Lemma get_coverage_division_witness :
  (fst (get_coverage
          (Example.tools (summary_file "ws/R1" "s1") Example.report_unnumbered)
          "ws/s1.dupRm.bam" "s1" "ws" "R1" Example.empty_world)
   = Raised ZeroDivisionError
   /\ log (snd (get_coverage
                  (Example.tools (summary_file "ws/R1" "s1")
                     Example.report_unnumbered)
                  "ws/s1.dupRm.bam" "s1" "ws" "R1" Example.empty_world))
      = [])
  /\ fst (get_coverage
            (Example.tools (summary_file "ws/R1" "s1") Example.report_rows)
            "ws/s1.dupRm.bam" "s1" "ws" "R1" Example.empty_world)
     = match round64 (mean_of (totals_where counted
                         (PyStr.readlines (Example.text Example.report_rows)))) with
       | Some q => Returned q
       | None => Raised OverflowError
       end.
Proof.
  split.
  - refine (proj1 (get_coverage_division
                     (Example.tools (summary_file "ws/R1" "s1")
                        Example.report_unnumbered)
                     "ws/s1.dupRm.bam" "s1" "ws" "R1" Example.empty_world
                     (Example.text Example.report_unnumbered) _ _ _) _).
    + reflexivity.
    + reflexivity.
    + reflexivity.
    + intros line Hin. vm_compute in Hin.
      destruct Hin as [<-|[<-|[<-|[]]]]; reflexivity.
  - refine (proj2 (get_coverage_division
                     (Example.tools (summary_file "ws/R1" "s1")
                        Example.report_rows)
                     "ws/s1.dupRm.bam" "s1" "ws" "R1" Example.empty_world
                     (Example.text Example.report_rows) _ _ _) _ _ _).
    + reflexivity.
    + reflexivity.
    + reflexivity.
    + intros line Hin _. vm_compute in Hin.
      destruct Hin as [<-|[<-|[<-|[]]]]; vm_compute; discriminate.
    + exists (Example.row "chr1" "1000" "500"). split; [|reflexivity].
      vm_compute. auto.
    + vm_compute. reflexivity.
Defined.

(** The example of the specification comes out as 0.5. *)
Example get_coverage_half :
  fst (get_coverage
         (Example.tools (summary_file "ws/R1" "s1") Example.report_rows)
         "ws/s1.dupRm.bam" "s1" "ws" "R1" Example.empty_world)
  = Returned (1 # 2)%Q.
Proof. vm_compute. reflexivity. Qed.

(** C9, as the claim has it, fails: a matching row of positive total
    length does not make the division return a coverage. With the single
    row [chr1], length 1, bases 1 followed by 400 zeros, the quotient is
    too large for a float and [get_coverage] ends in [OverflowError]; and
    a matching row that stops after its length, [chr1] with 1000 and no
    bases column, ends the loop in [IndexError] before any division. *)
Lemma get_coverage_no_value :
  counted (Example.row "chr1" "1" ("1" ++ PyStr.zeros 400)) = true
  /\ row_values (Example.row "chr1" "1" ("1" ++ PyStr.zeros 400))
     = Some (1, 10 ^ 400)
  /\ fst (get_coverage
            (Example.tools (summary_file "ws/R1" "s1") Example.report_beyond_float)
            "ws/s1.dupRm.bam" "s1" "ws" "R1" Example.empty_world)
     = Raised OverflowError
  /\ counted ("chr1" ++ TAB ++ "1000" ++ LF) = true
  /\ fst (get_coverage
            (Example.tools (summary_file "ws/R1" "s1") Example.report_short_row)
            "ws/s1.dupRm.bam" "s1" "ws" "R1" Example.empty_world)
     = Raised IndexError.
Proof. repeat split; vm_compute; reflexivity. Qed.

(** ** The Subsampler *)

(** How a call of [downsample_bam] goes, by what sambamba returns and
    leaves behind. *)
Lemma downsample_bam_run (shell : string -> filesys -> Z * filesys)
    (dupRemovedBam output_dir sampleID : string) (fraction : pyfloat) (sd : Z)
    (cov : string) (w : world) :
  let dir := out_prefix output_dir sampleID cov in
  let cmd := downsample_cmd dupRemovedBam output_dir sampleID fraction sd cov in
  let after := shell cmd (fs (snd (mkdir_parents dir w))) in
  let r := downsample_bam shell dupRemovedBam output_dir sampleID fraction sd cov w in
  mkdir_ok (fs w) dir = true ->
  fst r = (if fst after =? 0
           then Returned (dir ++ "/" ++ sampleID ++ ".dupRm.subsam.bam")
           else SysExit 1)
  /\ fs (snd r) = snd after
  /\ cmds (snd r) = List.app (cmds w) [(cmd, fst after)].
Proof.
  cbv zeta. intros Hok.
  unfold downsample_bam, bind, os_system, logging_info, logging_error,
    logging_emit.
  rewrite !(mkdir_parents_ok _ w Hok). cbn [fst snd fs log cmds].
  destruct (shell _ _) as [status fs']. cbn [fst snd].
  destruct (status =? 0); repeat split.
Qed.

(** With a regular file in the way of its output directory,
    [downsample_bam] raises before it runs anything. *)
Lemma downsample_bam_blocked (shell : string -> filesys -> Z * filesys)
    (dupRemovedBam output_dir sampleID : string) (fraction : pyfloat) (sd : Z)
    (cov : string) (w : world) :
  mkdir_ok (fs w) (out_prefix output_dir sampleID cov) = false ->
  exists e,
    downsample_bam shell dupRemovedBam output_dir sampleID fraction sd cov w
    = (Raised e, w).
Proof.
  intros Hno. destruct (mkdir_parents_fail _ w Hno) as [e He].
  exists e. unfold downsample_bam, bind. now rewrite He.
Qed.

Lemma bind_run {A B : Type} (m : M A) (k : A -> M B) (w : world) :
  bind m k w
  = match fst (m w) with
    | Returned a => k a (snd (m w))
    | SysExit c => (SysExit c, snd (m w))
    | Raised e => (Raised e, snd (m w))
    end.
Proof. unfold bind. now destruct (m w) as [[a|c|e] w']. Qed.

Lemma bind_returned {A B : Type} (m : M A) (k : A -> M B) (w : world) (b : B) :
  fst (bind m k w) = Returned b ->
  exists a, fst (m w) = Returned a /\ fst (k a (snd (m w))) = Returned b.
Proof.
  rewrite bind_run. destruct (fst (m w)) as [a|c|e]; cbn; [eauto | discriminate..].
Qed.

(** The command [get_coverage] runs, whatever comes of it. *)
Lemma get_coverage_cmds (shell : string -> filesys -> Z * filesys)
    (Bam sampleID tempFolder subfolder : string) (w : world) :
  let sub_tmp := tempFolder ++ "/" ++ subfolder in
  let cmd := mosdepth_cmd sub_tmp sampleID Bam in
  cmds (snd (get_coverage shell Bam sampleID tempFolder subfolder w))
  = List.app (cmds w)
      (if mkdir_ok (fs w) sub_tmp
       then [(cmd, fst (shell cmd (fs (snd (mkdir_parents sub_tmp w)))))]
       else []).
Proof.
  cbv zeta. destruct (mkdir_ok (fs w) (tempFolder ++ "/" ++ subfolder)) eqn:Hok.
  2:{ destruct (mkdir_parents_fail _ w Hok) as [e He].
      unfold get_coverage, bind. rewrite He. cbn [snd]. now rewrite app_nil_r. }
  unfold get_coverage, bind, os_system.
  rewrite !(mkdir_parents_ok _ w Hok). cbn [fst snd fs log cmds].
  destruct (shell _ _) as [status fs']. cbn [fst snd].
  destruct (status =? 0); cbn [negb]; [|reflexivity].
  cbn [ret]. unfold open_read. cbn [fs files].
  destruct (files fs' !! _); [|reflexivity].
  unfold lift. destruct (coverage_of_lines _); reflexivity.
Qed.

(** ** Cleanup *)

(** How a call of [cleanUp] goes: it returns, whatever [rm] returns. *)
Lemma cleanUp_run (shell : string -> filesys -> Z * filesys)
    (tempFolder : string) (w : world) :
  let cmd := "rm -rf " ++ tempFolder in
  let r := cleanUp shell tempFolder w in
  fst r = Returned tt
  /\ fs (snd r) = snd (shell cmd (fs w))
  /\ cmds (snd r) = List.app (cmds w) [(cmd, fst (shell cmd (fs w)))]
  /\ log (snd r)
     = List.app (log w)
         [(INFO, "Cleaning up, deleting " ++ tempFolder); (INFO, "Done!")].
Proof.
  cbv zeta. unfold cleanUp, bind, os_system, logging_info, logging_emit.
  cbn [fst snd fs log cmds].
  destruct (shell _ _) as [status fs']. cbn [fst snd fs log cmds].
  rewrite <- app_assoc. repeat split.
Qed.

(** ** The exit status of the external commands *)

Lemma remove_dup_fails (shell : string -> filesys -> Z * filesys)
    (input_file tempLoc file_type sampleID : string) (skip_dupRm : bool)
    (thread : string) (threads : Z) (w : world) :
  PyStr.int thread = Some threads ->
  fst (shell (remove_dup_cmd input_file tempLoc file_type sampleID skip_dupRm
                threads) (fs w)) <> 0 ->
  fst (remove_dup shell input_file tempLoc file_type sampleID skip_dupRm thread w)
  = SysExit 1.
Proof.
  intros Hthread Hne.
  destruct (remove_dup_run shell input_file tempLoc file_type sampleID
              skip_dupRm thread threads w Hthread) as (Hfst & _).
  rewrite Hfst. apply Z.eqb_neq in Hne. now rewrite Hne.
Qed.

(** ** The driver *)

(** No run of the driver ends normally: [--coverage] reaches
    [get_fraction] as the [str] that [argparse] produced, and comparing
    it with the measured coverage raises [TypeError]. *)
Lemma main_never_completes (shell : string -> filesys -> Z * filesys)
    (args : Namespace) (w : world) (u : unit) :
  fst (main shell args w) <> Returned u.
Proof.
  intros Hret. unfold main in Hret.
  apply bind_returned in Hret. destruct Hret as [file_type [_ Hret]].
  apply bind_returned in Hret. destruct Hret as [tempFolder [_ Hret]].
  apply bind_returned in Hret. destruct Hret as [dupRemovedBam [_ Hret]].
  apply bind_returned in Hret. destruct Hret as [cov [_ Hret]].
  apply bind_returned in Hret. destruct Hret as [fraction [Hfrac _]].
  rewrite get_fraction_str in Hfrac. discriminate.
Qed.

(** Without [--tmp] the run ends earlier still, in [temp_output_loc]. *)
Lemma main_default_raises (shell : string -> filesys -> Z * filesys)
    (args : Namespace) (w : world) (file_type : string) :
  tmp args = None ->
  fst (check_type (input_file args) w) = Returned file_type ->
  fst (main shell args w) = Raised AttributeError
  /\ cmds (snd (main shell args w)) = cmds (snd (check_type (input_file args) w)).
Proof.
  intros Htmp Hkind. unfold main. rewrite bind_run, Hkind, Htmp, bind_run.
  split; reflexivity.
Qed.

Lemma keeps_dirs_bind {A B : Type} (m : M A) (k : A -> M B) :
  keeps_dirs m -> (forall a, keeps_dirs (k a)) -> keeps_dirs (bind m k).
Proof.
  intros Hm Hk w. rewrite bind_run. specialize (Hm w).
  destruct (fst (m w)) as [a|c|e]; cbn [snd]; [|exact Hm..].
  specialize (Hk a (snd (m w))). set_solver.
Qed.

Lemma keeps_dirs_pure {A : Type} (o : outcome A) : keeps_dirs (lift o).
Proof. intros w. reflexivity. Qed.

Lemma keeps_dirs_logging (l : level) (msg : string) :
  keeps_dirs (logging_emit l msg).
Proof. intros w. reflexivity. Qed.

Lemma keeps_dirs_mkdir (p : string) : keeps_dirs (mkdir_parents p).
Proof.
  intros w. destruct (mkdir_ok (fs w) p) eqn:Hok.
  - rewrite (mkdir_parents_ok _ w Hok). cbn [snd fs dirs]. set_solver.
  - destruct (mkdir_parents_fail _ w Hok) as [e He]. now rewrite He.
Qed.

Lemma keeps_dirs_open (p : string) : keeps_dirs (open_read p).
Proof. intros w. unfold open_read. now destruct (files (fs w) !! p). Qed.

Lemma keeps_dirs_os_system (shell : string -> filesys -> Z * filesys)
    (cmd : string) :
  tools_keep_dirs shell -> String.prefix "rm -rf " cmd = false ->
  keeps_dirs (os_system shell cmd).
Proof.
  intros Hkeep Hcmd w. unfold os_system. specialize (Hkeep cmd (fs w) Hcmd).
  now destruct (shell cmd (fs w)) as [status fs'].
Qed.

Lemma keeps_dirs_remove_dup (shell : string -> filesys -> Z * filesys)
    (input_file tempLoc file_type sampleID : string) (skip_dupRm : bool)
    (thread : string) :
  tools_keep_dirs shell ->
  keeps_dirs (remove_dup shell input_file tempLoc file_type sampleID
                skip_dupRm thread).
Proof.
  intros Hkeep. unfold remove_dup.
  apply keeps_dirs_bind; [apply keeps_dirs_logging | intros _].
  apply keeps_dirs_bind.
  { destruct skip_dupRm; [apply keeps_dirs_logging | apply (keeps_dirs_pure (Returned tt))]. }
  intros _. apply keeps_dirs_bind; [apply keeps_dirs_pure | intros threads].
  apply keeps_dirs_bind; [now apply keeps_dirs_os_system | intros status].
  destruct (negb (status =? 0)).
  - apply keeps_dirs_bind; [apply keeps_dirs_logging | intros _].
    apply (keeps_dirs_pure (SysExit 1)).
  - apply keeps_dirs_bind; [apply keeps_dirs_logging | intros _].
    apply (keeps_dirs_pure (Returned _)).
Qed.

Lemma keeps_dirs_get_coverage (shell : string -> filesys -> Z * filesys)
    (Bam sampleID tempFolder subfolder : string) :
  tools_keep_dirs shell ->
  keeps_dirs (get_coverage shell Bam sampleID tempFolder subfolder).
Proof.
  intros Hkeep. unfold get_coverage.
  apply keeps_dirs_bind; [apply keeps_dirs_mkdir | intros _].
  apply keeps_dirs_bind; [now apply keeps_dirs_os_system | intros status].
  apply keeps_dirs_bind.
  { destruct (negb (status =? 0)); [|apply (keeps_dirs_pure (Returned tt))].
    apply keeps_dirs_bind; [apply keeps_dirs_logging | intros _].
    apply (keeps_dirs_pure (SysExit 1)). }
  intros _. apply keeps_dirs_bind; [apply keeps_dirs_open | intros content].
  apply keeps_dirs_bind; [apply keeps_dirs_pure | intros cov].
  apply keeps_dirs_bind; [apply keeps_dirs_logging | intros _].
  apply (keeps_dirs_pure (Returned _)).
Qed.

(** The second half of C7. When the tools remove no directory, every run
    of the driver that has created its workspace under a tmp root leaves
    it behind: the run does not end normally, and the workspace is still
    there at its end. The workspace is created when no regular file is in
    its way. *)
Lemma main_leaves_workspace (shell : string -> filesys -> Z * filesys)
    (args : Namespace) (root file_type : string) (w : world) :
  tools_keep_dirs shell ->
  tmp args = Some root ->
  fst (check_type (input_file args) w) = Returned file_type ->
  let workspace := root ++ "/" ++ get_ID (input_file args) (sample_name args)
                     ++ "/" ++ coverage args ++ "x" in
  let r := main shell args w in
  mkdir_ok (fs w) workspace = true ->
  (forall u, fst r <> Returned u)
  /\ workspace ∈ dirs (fs (snd r)).
Proof.
  intros Hkeep Htmp Hkind workspace r Hdir.
  split; [intros u; apply main_never_completes|].
  subst r. unfold main. rewrite bind_run, Hkind, Htmp.
  set (w1 := snd (check_type (input_file args) w)).
  assert (Hw1 : w1 = w).
  { subst w1. unfold check_type in *.
    destruct (PyStr.endswith_any _ _); [reflexivity|].
    destruct (PyStr.endswith_any _ _); [reflexivity|discriminate]. }
  rewrite bind_run.
  destruct (temp_output_loc_tmp args (output_dir args) root
              (get_ID (input_file args) (sample_name args)) (coverage args) w1)
    as (Hloc & Hin & _); [now rewrite Hw1|].
  fold workspace in Hloc, Hin. rewrite Hloc.
  set (w2 := snd (temp_output_loc args _ _ _ _ w1)) in *.
  assert (Hrest : forall (k : string -> pyfloat -> M unit),
             keeps_dirs
               (dupRemovedBam <- remove_dup shell (input_file args) workspace
                                   file_type
                                   (get_ID (input_file args) (sample_name args))
                                   (skip_dupRm args) (thread args) ;
                cov <- get_coverage shell dupRemovedBam
                         (get_ID (input_file args) (sample_name args))
                         workspace "R1" ;
                fraction <- get_fraction (PyStr (coverage args)) (Finite cov) ;
                k dupRemovedBam fraction)).
  { intros k.
    apply keeps_dirs_bind; [now apply keeps_dirs_remove_dup | intros bam].
    apply keeps_dirs_bind; [now apply keeps_dirs_get_coverage | intros cov].
    intros w3. rewrite bind_run, get_fraction_str. reflexivity. }
  apply (Hrest (fun bam fraction =>
                  main_after_fraction shell args
                    (get_ID (input_file args) (sample_name args))
                    workspace bam fraction) w2).
  exact Hin.
Qed.

Lemma tools_keep_dirs_example (path : string) (report : list string) :
  tools_keep_dirs (Example.tools path report).
Proof.
  intros cmd f _. unfold Example.tools.
  destruct (String.prefix "mosdepth" cmd); reflexivity.
Qed.

Example main_leaves_workspace_run :
  "scratch/s1/15x"
    ∈ dirs (fs (snd (main (Example.tools
                             "scratch/s1/15x/R1/s1.mosdepth.summary.txt"
                             Example.report_30x)
                       Example.args_tmp Example.empty_world))).
Proof.
  apply (main_leaves_workspace
           (Example.tools "scratch/s1/15x/R1/s1.mosdepth.summary.txt"
              Example.report_30x)
           Example.args_tmp "scratch" "bam" Example.empty_world
           (tools_keep_dirs_example _ _) eq_refl eq_refl eq_refl).
Qed.

(** C7 on the code. The run [--input_file data/s1.bqsr.bam --tmp scratch],
    with every tool succeeding and a measured coverage of 30 for a target
    of 15, is the run the specification expects to succeed. It ends in
    [TypeError] on line 186, with exit status 1: the two commands run are
    the filter and the first coverage pass, the subsampler and [rm -rf]
    are never run, there is no file at
    [{output_dir}/{sampleID}/{coverage}x/{sampleID}.dupRm.subsam.bam], and
    the workspace [scratch/s1/15x] is still there. *)
Theorem main_stops_before_subsampling :
  let shell := Example.tools "scratch/s1/15x/R1/s1.mosdepth.summary.txt"
                 Example.report_30x in
  let r := main shell Example.args_tmp Example.empty_world in
  fst r = Raised TypeError
  /\ exit_status (fst r) = 1
  /\ cmds (snd r)
     = [ (remove_dup_cmd "data/s1.bqsr.bam" "scratch/s1/15x" "bam" "s1" false 4, 0);
         (mosdepth_cmd "scratch/s1/15x/R1" "s1" "scratch/s1/15x/s1.dupRm.bam", 0) ]
  /\ List.last (log (snd r)) (INFO, "")
     = (INFO, "scratch/s1/15x/s1.dupRm.bam coverage is : 30.000000")
  /\ files (fs (snd r))
       !! (out_prefix "./" "s1" "15" ++ "/s1.dupRm.subsam.bam") = None
  /\ elements (dirs (fs (snd r)))
     = ["scratch/s1/15x/R1"; "scratch/s1/15x"; "scratch/s1"; "scratch"].
Proof. cbv zeta. repeat split. Qed.

(** * Further properties of the script *)

(** ** Splitting and joining *)

Lemma split_none (c : ascii) (s : string) :
  PyStr.contains c s = false -> PyStr.split c s = [s].
Proof.
  induction s as [|a s IH]; [reflexivity|]. cbn [PyStr.contains PyStr.split].
  intros H. apply orb_false_iff in H. destruct H as [Hac Hs].
  now rewrite Hac, (IH Hs).
Qed.

(** Splitting after a separator splits both sides. *)
Lemma split_app (c : ascii) (s t : string) :
  PyStr.split c (s ++ String c t) = (PyStr.split c s ++ PyStr.split c t)%list.
Proof.
  induction s as [|a s IH].
  - cbn. now rewrite Ascii.eqb_refl.
  - change (String a s ++ String c t) with (String a (s ++ String c t)).
    cbn [PyStr.split]. rewrite IH.
    destruct (Ascii.eqb a c); [reflexivity|].
    pose proof (split_not_nil c s) as Hnil.
    destruct (PyStr.split c s) as [|h tl]; [congruence | reflexivity].
Qed.

Lemma last_item_app (l1 l2 : list string) :
  l2 <> [] -> PyStr.last_item (l1 ++ l2) = PyStr.last_item l2.
Proof.
  intros Hl2. unfold PyStr.last_item.
  induction l1 as [|x l1 IH]; [reflexivity|].
  cbn [List.app]. destruct (l1 ++ l2)%list as [|y l] eqn:E.
  - apply app_eq_nil in E. now destruct E.
  - exact IH.
Qed.

(** ** The Sample Identifier, the other way round *)

(** X1: a path built from a directory part, a slash, a token without dot
    or slash and a remainder that is empty or starts with a dot and has no
    slash is read back by [get_ID] as that token; so is the bare file
    name. The token may be empty: a path that ends with a slash, or whose
    file name starts with a dot, has the empty sample ID. *)
Theorem get_ID_of_parts (dir id rest : string) :
  PyStr.contains "/" id = false ->
  PyStr.contains "." id = false ->
  PyStr.contains "/" rest = false ->
  rest = "" \/ (exists r, rest = String "." r) ->
  get_ID (dir ++ String "/" (id ++ rest)) None = id
  /\ get_ID (id ++ rest) None = id.
Proof.
  intros Hid_slash Hid_dot Hrest_slash Hrest.
  assert (Hseg : PyStr.contains "/" (id ++ rest) = false)
    by (rewrite contains_app, Hid_slash, Hrest_slash; reflexivity).
  assert (Hfirst : PyStr.first_item (PyStr.split "." (id ++ rest)) = id).
  { destruct Hrest as [->|[r ->]].
    - rewrite str_app_nil_r, (split_none _ _ Hid_dot). reflexivity.
    - rewrite split_app, (split_none _ _ Hid_dot). reflexivity. }
  unfold get_ID. split.
  - rewrite split_app, last_item_app by apply split_not_nil.
    rewrite (split_none _ _ Hseg). exact Hfirst.
  - rewrite (split_none _ _ Hseg). exact Hfirst.
Qed.

Lemma get_ID_of_parts_witness :
  (get_ID ("/data/run1" ++ String "/" ("sample1" ++ ".bqsr.sorted.bam")) None
   = "sample1"
   /\ get_ID ("sample1" ++ ".bqsr.sorted.bam") None = "sample1")
  /\ get_ID ("/data/run1" ++ String "/" ("" ++ "")) None = "".
Proof.
  split.
  - apply (get_ID_of_parts "/data/run1" "sample1" ".bqsr.sorted.bam");
      [reflexivity | reflexivity | reflexivity | right; eexists; reflexivity].
  - apply (get_ID_of_parts "/data/run1" "" "");
      [reflexivity | reflexivity | reflexivity | left; reflexivity].
Defined.

(** ** The filter of the Coverage Estimator *)

Lemma counted_iff (l : string) :
  counted l = true
  <-> (exists a s, l = String a s /\ PyStr.is_digit a = true)
      \/ (exists a s, l = "chr" ++ String a s /\ PyStr.is_digit a = true).
Proof.
  split.
  - intros E.
    unfold counted, Re.search_chr_digits in E. rewrite search_digits_head in E.
    apply orb_true_iff in E. destruct E as [E|E].
    + destruct l as [|a s]; [discriminate|]. left. eauto.
    + destruct (Re.literal "chr" l) as [tl|] eqn:Hlit; [|discriminate].
      apply literal_spec in Hlit. rewrite digits_fst in E.
      destruct tl as [|a s]; [discriminate|].
      rewrite take_digits_head in E.
      destruct (PyStr.is_digit a) eqn:Ha; [|discriminate].
      right. eauto.
  - intros [(a & s & -> & Ha)|(a & s & -> & Ha)].
    + now apply counted_digit.
    + now apply counted_chr_digit.
Qed.

Lemma counted_app (line more : string) :
  counted line = true -> counted (line ++ more) = true.
Proof.
  intros Hc. apply counted_iff in Hc. apply counted_iff.
  destruct Hc as [(a & s & -> & Ha)|(a & s & -> & Ha)].
  - left. exists a, (s ++ more). auto.
  - right. exists a, (s ++ more). auto.
Qed.

(** X2: a line is counted exactly when it starts with a digit or with
    [chr] and a digit. What follows is not looked at: a counted line stays
    counted whatever is appended to it, so the bound [{1,2}] of the
    patterns excludes nothing. *)
Theorem counted_spec (line : string) :
  (counted line = true
   <-> (exists a s, line = String a s /\ PyStr.is_digit a = true)
       \/ (exists a s, line = "chr" ++ String a s /\ PyStr.is_digit a = true))
  /\ (forall more, counted line = true -> counted (line ++ more) = true).
Proof.
  split; [apply counted_iff | intros more; apply counted_app].
Qed.

Lemma counted_spec_witness :
  counted ("chr1" ++ "_KI270706v1_random") = true
  /\ counted ("22" ++ "5_alt") = true.
Proof.
  split.
  - apply (proj2 (counted_spec "chr1")). reflexivity.
  - apply (proj2 (counted_spec "22")). reflexivity.
Defined.

(** ** The Workspace Manager, with a tmp root *)



Lemma mkdir_parents_raises (p : string) (w : world) :
  mkdir_ok (fs w) p = false ->
  mkdir_parents p w = (Raised NotADirectoryError, w)
  \/ mkdir_parents p w = (Raised FileExistsError, w).
Proof.
  unfold mkdir_ok, mkdir_parents. intros H.
  destruct (existsb (is_file (fs w)) (parents p)); [now left|].
  destruct (is_file (fs w) p); [now right|discriminate].
Qed.


(** [temp_output_loc] with a tmp root: the message, then the directory. *)
Lemma temp_output_loc_tmp_steps (args : Namespace)
    (out_dir root sampleID cov : string) (w : world) :
  let path := root ++ "/" ++ sampleID ++ "/" ++ cov ++ "x" in
  let w1 := snd (logging_info ("Creating temp folder " ++ path) w) in
  temp_output_loc args out_dir (Some root) sampleID cov w
  = match fst (mkdir_parents path w1) with
    | Returned _ => (Returned path, snd (mkdir_parents path w1))
    | SysExit c => (SysExit c, snd (mkdir_parents path w1))
    | Raised e => (Raised e, snd (mkdir_parents path w1))
    end.
Proof.
  cbv zeta. unfold temp_output_loc. rewrite bind_run.
  cbn [logging_info logging_emit fst snd]. rewrite bind_run.
  now destruct (fst (mkdir_parents _ _)).
Qed.

(** With a regular file in the way, [temp_output_loc] raises after its
    message. *)
Lemma temp_output_loc_blocked (args : Namespace)
    (out_dir root sampleID cov : string) (w : world) :
  let path := root ++ "/" ++ sampleID ++ "/" ++ cov ++ "x" in
  mkdir_ok (fs w) path = false ->
  exists e,
    (e = NotADirectoryError \/ e = FileExistsError)
    /\ temp_output_loc args out_dir (Some root) sampleID cov w
       = (Raised e, snd (logging_info ("Creating temp folder " ++ path) w)).
Proof.
  cbv zeta. intros Hok. rewrite temp_output_loc_tmp_steps. cbv zeta.
  set (w1 := snd (logging_info _ w)).
  destruct (mkdir_parents_raises _ w1 Hok) as [E|E]; rewrite E; cbn [fst snd]; eauto.
Qed.



(** ** The Duplicate/Quality Filter, with a bad thread count *)

(** X4: a [--thread] value that [int] does not accept ends [remove_dup]
    in [ValueError] after the first log lines: no command is run and the
    file system is untouched. Such values are [four], [4.0] and [4] behind
    the separator of code 31, which is no white space for [int]. *)
Theorem remove_dup_thread_not_int (shell : string -> filesys -> Z * filesys)
    (input_file tempLoc file_type sampleID : string) (skip_dupRm : bool)
    (thread : string) (w : world) :
  PyStr.int thread = None ->
  let r := remove_dup shell input_file tempLoc file_type sampleID skip_dupRm
             thread w in
  fst r = Raised ValueError
  /\ exit_status (fst r) = 1
  /\ cmds (snd r) = cmds w
  /\ fs (snd r) = fs w
  /\ Forall (fun entry => fst entry = INFO) (skipn (length (log w)) (log (snd r))).
Proof.
  intros Hthread r.
  destruct (remove_dup_bad_thread shell input_file tempLoc file_type sampleID
              skip_dupRm thread w Hthread) as (Hfst & Hcmds & Hfs).
  fold r in Hfst, Hcmds, Hfs. rewrite Hfst.
  repeat split; try assumption.
  subst r. unfold remove_dup, bind, logging_info, logging_emit, lift, int_of, ret.
  rewrite Hthread.
  destruct skip_dupRm; cbn [snd log]; rewrite <- ?app_assoc;
    rewrite skipn_app, skipn_all, Nat.sub_diag; cbn; repeat constructor.
Qed.

Lemma remove_dup_thread_not_int_witness :
  fst (remove_dup Example.tools_fail "data/s1.bqsr.bam" "scratch/s1/15x" "bam"
         "s1" false "four" Example.empty_world) = Raised ValueError
  /\ fst (remove_dup Example.tools_fail "data/s1.bqsr.bam" "scratch/s1/15x"
            "bam" "s1" true "4.0" Example.empty_world) = Raised ValueError
  /\ fst (remove_dup Example.tools_fail "data/s1.bqsr.bam" "scratch/s1/15x"
            "bam" "s1" false (String "031" "4") Example.empty_world)
     = Raised ValueError.
Proof.
  split; [|split].
  - apply (remove_dup_thread_not_int Example.tools_fail "data/s1.bqsr.bam"
             "scratch/s1/15x" "bam" "s1" false "four" Example.empty_world).
    reflexivity.
  - apply (remove_dup_thread_not_int Example.tools_fail "data/s1.bqsr.bam"
             "scratch/s1/15x" "bam" "s1" true "4.0" Example.empty_world).
    reflexivity.
  - apply (remove_dup_thread_not_int Example.tools_fail "data/s1.bqsr.bam"
             "scratch/s1/15x" "bam" "s1" false (String "031" "4")
             Example.empty_world).
    reflexivity.
Defined.

(** ** The loop of the Coverage Estimator *)

(** The loop goes on from the totals it has reached. *)
Lemma sum_rows_app (before rest : list string) (length bases length' bases' : Z) :
  sum_rows before length bases = Returned (length', bases') ->
  sum_rows (before ++ rest) length bases = sum_rows rest length' bases'.
Proof.
  revert length bases.
  induction before as [|line before IH]; intros length bases Hsum.
  - cbn in Hsum. now inversion Hsum.
  - change ((line :: before) ++ rest)%list with (line :: (before ++ rest))%list.
    rewrite sum_rows_step in Hsum |- *.
    destruct (counted line); [|now apply IH].
    destruct (nth_error _ 1) as [c1|]; [|discriminate].
    destruct (PyStr.int c1) as [n1|]; [|discriminate].
    destruct (nth_error _ 2) as [c2|]; [|discriminate].
    destruct (PyStr.int c2) as [n2|]; [|discriminate].
    now apply IH.
Qed.

(** Lines that are not counted have no influence, wherever they stand. *)
Lemma sum_rows_filter (lines : list string) (length bases : Z) :
  sum_rows lines length bases = sum_rows (List.filter counted lines) length bases.
Proof.
  revert length bases.
  induction lines as [|line lines IH]; intros length bases; [reflexivity|].
  cbn [List.filter]. destruct (counted line) eqn:Hc.
  - rewrite !sum_rows_step, Hc.
    destruct (nth_error _ 1) as [c1|]; [|reflexivity].
    destruct (PyStr.int c1) as [n1|]; [|reflexivity].
    destruct (nth_error _ 2) as [c2|]; [|reflexivity].
    destruct (PyStr.int c2) as [n2|]; [|reflexivity].
    apply IH.
  - rewrite sum_rows_step, Hc. apply IH.
Qed.

Lemma totals_where_perm (keep : string -> bool) (lines lines' : list string) :
  Permutation lines lines' ->
  totals_where keep lines = totals_where keep lines'.
Proof.
  induction 1 as [|x l l' _ IH|x y l|l l' l'' _ IH1 _ IH2].
  - reflexivity.
  - cbn [totals_where fold_right]. fold (totals_where keep l).
    fold (totals_where keep l'). now rewrite IH.
  - cbn [totals_where fold_right]. fold (totals_where keep l).
    destruct (totals_where keep l) as [tl tb].
    destruct (keep x), (keep y); try reflexivity.
    destruct (row_values x) as [[lx bx]|], (row_values y) as [[ly by_]|];
      try reflexivity.
    cbn [fst snd]. f_equal; lia.
  - now rewrite IH1.
Qed.

(** X5: a counted row that is ill-formed ends [get_coverage] in an
    uncaught exception once the rows before it have been read:
    [IndexError] when the row has no second or no third column,
    [ValueError] when one of the two is no integer for [int]: [2e3] is
    none, and neither is [10] followed by the separator of code 31, which
    [int] does not take for white space. *)
Theorem get_coverage_malformed_row (shell : string -> filesys -> Z * filesys)
    (Bam sampleID tempFolder subfolder : string) (w : world) (content : string)
    (before after : list string) (line : string) (length bases : Z) :
  let sub_tmp := tempFolder ++ "/" ++ subfolder in
  let ran := shell (mosdepth_cmd sub_tmp sampleID Bam)
               (fs (snd (mkdir_parents sub_tmp w))) in
  let r := get_coverage shell Bam sampleID tempFolder subfolder w in
  let columns := PyStr.re_split_tabs (PyStr.strip line) in
  mkdir_ok (fs w) sub_tmp = true ->
  fst ran = 0 ->
  files (snd ran) !! summary_file sub_tmp sampleID = Some content ->
  PyStr.readlines content = (before ++ line :: after)%list ->
  sum_rows before 0 0 = Returned (length, bases) ->
  counted line = true ->
  (nth_error columns 1 = None -> fst r = Raised IndexError)
  /\ (forall c1, nth_error columns 1 = Some c1 -> PyStr.int c1 = None ->
                 fst r = Raised ValueError)
  /\ (forall c1 n1, nth_error columns 1 = Some c1 -> PyStr.int c1 = Some n1 ->
                    nth_error columns 2 = None -> fst r = Raised IndexError)
  /\ (forall c1 n1 c2, nth_error columns 1 = Some c1 -> PyStr.int c1 = Some n1 ->
                       nth_error columns 2 = Some c2 -> PyStr.int c2 = None ->
                       fst r = Raised ValueError).
Proof.
  intros sub_tmp ran r columns Hdir Hok Hfile Hlines Hbefore Hcounted.
  destruct (get_coverage_run shell Bam sampleID tempFolder subfolder w Hdir)
    as (_ & _ & Hrun).
  destruct (Hrun Hok content Hfile) as [Hfst _]. fold r in Hfst.
  rewrite Hfst, Hlines. unfold coverage_of_lines.
  rewrite (sum_rows_app before (line :: after) 0 0 length bases Hbefore).
  rewrite sum_rows_step, Hcounted. fold columns.
  repeat split.
  - intros ->. reflexivity.
  - intros c1 -> ->. reflexivity.
  - intros c1 n1 -> -> ->. reflexivity.
  - intros c1 n1 c2 -> -> -> ->. reflexivity.
Qed.

Lemma get_coverage_malformed_row_witness :
  fst (get_coverage
         (Example.tools (summary_file "ws/R1" "s1")
            [Example.row "chr1" "1000" "500"; "1abc" ++ LF])
         "ws/s1.dupRm.bam" "s1" "ws" "R1" Example.empty_world)
  = Raised IndexError
  /\ fst (get_coverage
            (Example.tools (summary_file "ws/R1" "s1")
               [Example.row "chr1" "1000" "500"; Example.row "2" "2e3" "9"])
            "ws/s1.dupRm.bam" "s1" "ws" "R1" Example.empty_world)
     = Raised ValueError
  /\ fst (get_coverage
            (Example.tools (summary_file "ws/R1" "s1")
               [Example.row "chr1" "1000" "500";
                Example.row "2" (String "1" (String "0" (String "031" ""))) "9"])
            "ws/s1.dupRm.bam" "s1" "ws" "R1" Example.empty_world)
     = Raised ValueError.
Proof.
  split; [|split].
  - refine (proj1 (get_coverage_malformed_row
                     (Example.tools (summary_file "ws/R1" "s1")
                        [Example.row "chr1" "1000" "500"; "1abc" ++ LF])
                     "ws/s1.dupRm.bam" "s1" "ws" "R1" Example.empty_world
                     (Example.text [Example.row "chr1" "1000" "500"; "1abc" ++ LF])
                     [Example.row "chr1" "1000" "500"] [] ("1abc" ++ LF)
                     1000 500 _ _ _ _ _ _) _); reflexivity.
  - refine (proj1 (proj2 (get_coverage_malformed_row
                     (Example.tools (summary_file "ws/R1" "s1")
                        [Example.row "chr1" "1000" "500";
                         Example.row "2" "2e3" "9"])
                     "ws/s1.dupRm.bam" "s1" "ws" "R1" Example.empty_world
                     (Example.text [Example.row "chr1" "1000" "500";
                                    Example.row "2" "2e3" "9"])
                     [Example.row "chr1" "1000" "500"] []
                     (Example.row "2" "2e3" "9")
                     1000 500 _ _ _ _ _ _)) "2e3" _ _); reflexivity.
  - refine (proj1 (proj2 (get_coverage_malformed_row
                     (Example.tools (summary_file "ws/R1" "s1")
                        [Example.row "chr1" "1000" "500";
                         Example.row "2" (String "1" (String "0" (String "031" ""))) "9"])
                     "ws/s1.dupRm.bam" "s1" "ws" "R1" Example.empty_world
                     (Example.text
                        [Example.row "chr1" "1000" "500";
                         Example.row "2" (String "1" (String "0" (String "031" ""))) "9"])
                     [Example.row "chr1" "1000" "500"] []
                     (Example.row "2" (String "1" (String "0" (String "031" ""))) "9")
                     1000 500 _ _ _ _ _ _))
              (String "1" (String "0" (String "031" ""))) _ _); reflexivity.
Defined.

(** X6: the result of the loop and of the division does not depend on
    the lines that are not counted, and, when every counted row has its
    two integer columns, it does not depend on the order of the rows. *)
Theorem coverage_of_lines_order (lines lines' : list string) :
  coverage_of_lines lines = coverage_of_lines (List.filter counted lines)
  /\ (Permutation lines lines' ->
      (forall line, In line lines -> counted line = true ->
                    row_values line <> None) ->
      coverage_of_lines lines = coverage_of_lines lines').
Proof.
  split.
  - unfold coverage_of_lines. now rewrite sum_rows_filter.
  - intros Hperm Hrows.
    assert (Hrows' : forall line, In line lines' -> counted line = true ->
                                  row_values line <> None).
    { intros line Hin. apply Hrows.
      apply (Permutation_in line (Permutation_sym Hperm) Hin). }
    unfold coverage_of_lines.
    rewrite (sum_rows_totals lines 0 0 Hrows), (sum_rows_totals lines' 0 0 Hrows').
    now rewrite (totals_where_perm counted lines lines' Hperm).
Qed.

Lemma coverage_of_lines_order_witness :
  coverage_of_lines Example.report_rows
  = coverage_of_lines (rev Example.report_rows).
Proof.
  apply (proj2 (coverage_of_lines_order Example.report_rows
                  (rev Example.report_rows))).
  - apply Permutation_rev.
  - intros line Hin _. cbn in Hin.
    destruct Hin as [<-|[<-|[<-|[]]]]; vm_compute; discriminate.
Defined.

(** X7: when mosdepth has been run (its directory was created), returns 0
    and there is no report at [{sub_tmp}/{sampleID}.mosdepth.summary.txt],
    [get_coverage] ends in an uncaught [FileNotFoundError]: nothing is
    logged, and the process does not leave through [sys.exit]. *)
Theorem get_coverage_report_missing (shell : string -> filesys -> Z * filesys)
    (Bam sampleID tempFolder subfolder : string) (w : world) :
  let sub_tmp := tempFolder ++ "/" ++ subfolder in
  let ran := shell (mosdepth_cmd sub_tmp sampleID Bam)
               (fs (snd (mkdir_parents sub_tmp w))) in
  let r := get_coverage shell Bam sampleID tempFolder subfolder w in
  mkdir_ok (fs w) sub_tmp = true ->
  fst ran = 0 ->
  files (snd ran) !! summary_file sub_tmp sampleID = None ->
  fst r = Raised FileNotFoundError
  /\ log (snd r) = log w
  /\ cmds (snd r)
     = List.app (cmds w) [(mosdepth_cmd sub_tmp sampleID Bam, 0)].
Proof.
  intros sub_tmp ran r Hdir Hok Hnone.
  pose proof (get_coverage_cmds shell Bam sampleID tempFolder subfolder w) as Hcmds.
  cbv zeta in Hcmds. fold sub_tmp ran r in Hcmds. rewrite Hok, Hdir in Hcmds.
  destruct (get_coverage_run shell Bam sampleID tempFolder subfolder w Hdir)
    as (_ & Hmiss & _).
  split; [exact (Hmiss Hok Hnone)|]. split; [|exact Hcmds].
  subst r. unfold get_coverage, bind, os_system. fold sub_tmp.
  subst ran. rewrite (mkdir_parents_ok _ w Hdir) in Hok, Hnone |- *.
  cbn [fst snd fs log cmds] in Hok, Hnone |- *.
  destruct (shell _ _) as [status fs']. cbn [fst snd] in Hok, Hnone. subst status.
  cbn [negb Z.eqb ret fst snd]. unfold open_read. cbn [fs files].
  now rewrite Hnone.
Qed.

Lemma get_coverage_report_missing_witness :
  fst (get_coverage (Example.tools "elsewhere/s1.mosdepth.summary.txt"
                       Example.report_rows)
         "ws/s1.dupRm.bam" "s1" "ws" "R1" Example.empty_world)
  = Raised FileNotFoundError.
Proof.
  apply (get_coverage_report_missing
           (Example.tools "elsewhere/s1.mosdepth.summary.txt" Example.report_rows)
           "ws/s1.dupRm.bam" "s1" "ws" "R1" Example.empty_world);
    reflexivity.
Defined.

(** ** Reading back what was written in decimal *)

Lemma uint_value_pos (u : Decimal.uint) (p : positive) :
  uint_value (Zpos p) u = Zpos (Pos.of_uint_acc u p).
Proof.
  revert p. induction u; intros p; cbn [uint_value Pos.of_uint_acc];
    [reflexivity | rewrite <- IHu; f_equal; lia ..].
Qed.

Lemma uint_value_zero (u : Decimal.uint) :
  uint_value 0 u = Z.of_N (Pos.of_uint u).
Proof.
  induction u; cbn [uint_value Pos.of_uint];
    [reflexivity | exact IHu | apply (uint_value_pos u) ..].
Qed.

Lemma parse_digits_uint (u : Decimal.uint) (acc : Z) (seen : bool) :
  u <> Decimal.Nil \/ seen = true ->
  PyStr.parse_digits acc seen (NilEmpty.string_of_uint u) = Some (uint_value acc u).
Proof.
  revert acc seen. induction u; intros acc seen Hu;
    [destruct Hu as [Hu| ->]; [congruence | reflexivity]
    | cbn [NilEmpty.string_of_uint PyStr.parse_digits uint_value];
      apply IHu; now right ..].
Qed.

Lemma solid_uint (u : Decimal.uint) : solid (NilEmpty.string_of_uint u) = true.
Proof. induction u; cbn; auto. Qed.

Lemma lstrip_solid (s : string) : solid s = true -> PyStr.lstrip s = s.
Proof.
  destruct s as [|a s]; [reflexivity|]. cbn. intros H.
  apply andb_true_iff in H. destruct H as [Ha _].
  now destruct (PyStr.is_space a).
Qed.

Lemma rstrip_solid (s : string) : solid s = true -> PyStr.rstrip s = s.
Proof.
  induction s as [|a s IH]; [reflexivity|]. cbn [solid PyStr.rstrip]. intros H.
  apply andb_true_iff in H. destruct H as [Ha Hs]. rewrite (IH Hs).
  destruct s; [|reflexivity]. now destruct (PyStr.is_space a).
Qed.

Lemma strip_solid (s : string) : solid s = true -> PyStr.strip s = s.
Proof.
  intros H. unfold PyStr.strip. now rewrite (lstrip_solid s H), (rstrip_solid s H).
Qed.

Lemma is_int_space_space (a : ascii) :
  PyStr.is_int_space a = true -> PyStr.is_space a = true.
Proof. destruct a as [[] [] [] [] [] [] [] []]; vm_compute; auto. Qed.

Lemma int_lstrip_solid (s : string) : solid s = true -> PyStr.int_lstrip s = s.
Proof.
  destruct s as [|a s]; [reflexivity|]. cbn. intros H.
  apply andb_true_iff in H. destruct H as [Ha _]. apply negb_true_iff in Ha.
  destruct (PyStr.is_int_space a) eqn:E; [|reflexivity].
  apply is_int_space_space in E. congruence.
Qed.

Lemma int_rstrip_solid (s : string) : solid s = true -> PyStr.int_rstrip s = s.
Proof.
  induction s as [|a s IH]; [reflexivity|]. cbn [solid PyStr.int_rstrip]. intros H.
  apply andb_true_iff in H. destruct H as [Ha Hs]. rewrite (IH Hs).
  destruct s; [|reflexivity]. apply negb_true_iff in Ha.
  destruct (PyStr.is_int_space a) eqn:E; [|reflexivity].
  apply is_int_space_space in E. congruence.
Qed.

(** [int] reads back what ["%d"] wrote, up to the digit limit. *)
Lemma int_fmt_d (z : Z) :
  (PyStr.count_digits (PyStr.fmt_d z) <= PyStr.max_str_digits)%nat ->
  PyStr.int (PyStr.fmt_d z) = Some z.
Proof.
  intros Hdigits.
  assert (Hsolid : solid (PyStr.fmt_d z) = true).
  { unfold PyStr.fmt_d. destruct z as [|p|p]; [reflexivity| |];
      cbn [Z.to_int NilZero.string_of_int];
      pose proof (solid_uint (Pos.to_uint p)) as Hs;
      pose proof (DecimalPos.Unsigned.to_uint_nonnil p) as Hnil;
      destruct (Pos.to_uint p); try congruence; cbn in *; exact Hs. }
  unfold PyStr.int. cbv zeta.
  rewrite (int_lstrip_solid _ Hsolid), (int_rstrip_solid _ Hsolid).
  apply Nat.ltb_ge in Hdigits. rewrite Hdigits. clear Hdigits Hsolid.
  unfold PyStr.fmt_d.
  pose proof (DecimalZ.of_to z) as Hz.
  destruct z as [|p|p]; [reflexivity| |].
  - cbn [Z.to_int NilZero.string_of_int] in *.
    pose proof (DecimalPos.Unsigned.to_uint_nonnil p) as Hnil.
    unfold Z.of_int, Z.of_uint in Hz. rewrite <- uint_value_zero in Hz.
    assert (E : NilZero.string_of_uint (Pos.to_uint p)
                = NilEmpty.string_of_uint (Pos.to_uint p))
      by (now destruct (Pos.to_uint p)).
    rewrite E.
    transitivity (PyStr.parse_digits 0 false
                    (NilEmpty.string_of_uint (Pos.to_uint p))).
    + destruct (Pos.to_uint p); reflexivity.
    + rewrite (parse_digits_uint _ 0 false (or_introl Hnil)). now rewrite Hz.
  - cbn [Z.to_int NilZero.string_of_int] in *.
    pose proof (DecimalPos.Unsigned.to_uint_nonnil p) as Hnil.
    unfold Z.of_int, Z.of_uint in Hz. rewrite <- uint_value_zero in Hz.
    assert (E : NilZero.string_of_uint (Pos.to_uint p)
                = NilEmpty.string_of_uint (Pos.to_uint p))
      by (now destruct (Pos.to_uint p)).
    rewrite E.
    rewrite (parse_digits_uint _ 0 false (or_introl Hnil)).
    cbn [option_map]. now rewrite Hz.
Qed.

Lemma solid_fmt_d (z : Z) : solid (PyStr.fmt_d z) = true /\ PyStr.fmt_d z <> "".
Proof.
  unfold PyStr.fmt_d.
  destruct z as [|p|p]; [split; [reflexivity | discriminate]| |];
    cbn [Z.to_int NilZero.string_of_int];
    pose proof (DecimalPos.Unsigned.to_uint_nonnil p) as Hnil;
    pose proof (solid_uint (Pos.to_uint p)) as Hsolid;
    destruct (Pos.to_uint p); try congruence; split; try discriminate;
      cbn in *; exact Hsolid.
Qed.

Lemma not_space_not_tab (a : ascii) :
  PyStr.is_space a = false -> Ascii.eqb a "009" = false.
Proof.
  intros H. destruct (Ascii.eqb_spec a "009") as [->|]; [discriminate | reflexivity].
Qed.

Lemma rstrip_app (s t : string) :
  PyStr.rstrip (s ++ t)
  = match PyStr.rstrip t with
    | EmptyString => PyStr.rstrip s
    | String _ _ as r => s ++ r
    end.
Proof.
  induction s as [|a s IH].
  - change ("" ++ t) with t. now destruct (PyStr.rstrip t).
  - change (String a s ++ t) with (String a (s ++ t)).
    cbn [PyStr.rstrip]. rewrite IH.
    destruct (PyStr.rstrip t) as [|b r]; [reflexivity|].
    now destruct s.
Qed.

Lemma re_split_not_nil (b : bool) (s : string) : PyStr.re_split_tabs_from b s <> [].
Proof.
  revert b. induction s as [|a s IH]; intros b; cbn; [discriminate|].
  destruct (Ascii.eqb a "009").
  - destruct b; [apply IH | discriminate].
  - destruct (PyStr.re_split_tabs_from false s); discriminate.
Qed.

(** A column without tab or white space is split off whole. *)
Lemma re_split_solid (c rest : string) :
  solid c = true ->
  PyStr.re_split_tabs_from false (c ++ rest)
  = match PyStr.re_split_tabs_from false rest with
    | h :: t => (c ++ h) :: t
    | [] => [c]
    end.
Proof.
  induction c as [|a c IH]; intros Hc.
  - change ("" ++ rest) with rest.
    pose proof (re_split_not_nil false rest) as Hnil.
    now destruct (PyStr.re_split_tabs_from false rest).
  - cbn [solid] in Hc. apply andb_true_iff in Hc. destruct Hc as [Ha Hc].
    apply negb_true_iff in Ha.
    change (String a c ++ rest) with (String a (c ++ rest)).
    cbn [PyStr.re_split_tabs_from]. rewrite (not_space_not_tab a Ha), (IH Hc).
    pose proof (re_split_not_nil false rest) as Hnil.
    now destruct (PyStr.re_split_tabs_from false rest).
Qed.

Lemma re_split_after_tab (c rest : string) :
  solid c = true -> c <> "" ->
  PyStr.re_split_tabs_from true (c ++ rest)
  = PyStr.re_split_tabs_from false (c ++ rest).
Proof.
  intros Hc Hne. destruct c as [|a c]; [congruence|].
  cbn [solid] in Hc. apply andb_true_iff in Hc. destruct Hc as [Ha _].
  apply negb_true_iff in Ha.
  change (String a c ++ rest) with (String a (c ++ rest)).
  cbn [PyStr.re_split_tabs_from]. now rewrite (not_space_not_tab a Ha).
Qed.

(** The columns of a line made of three clean columns and an end that is
    empty or starts with a tab. *)
Lemma re_split_three (c0 c1 c2 e : string) :
  solid c0 = true -> solid c1 = true -> c1 <> "" -> solid c2 = true -> c2 <> "" ->
  e = "" \/ (exists r, e = TAB ++ r) ->
  let columns := PyStr.re_split_tabs (c0 ++ TAB ++ c1 ++ TAB ++ c2 ++ e) in
  nth_error columns 1 = Some c1 /\ nth_error columns 2 = Some c2.
Proof.
  intros H0 H1 N1 H2 N2 He. cbv zeta. unfold PyStr.re_split_tabs.
  rewrite (re_split_solid c0 _ H0).
  change (TAB ++ c1 ++ TAB ++ c2 ++ e) with (String "009" (c1 ++ TAB ++ c2 ++ e)).
  cbn [PyStr.re_split_tabs_from Ascii.eqb Bool.eqb].
  rewrite (re_split_after_tab c1 _ H1 N1), (re_split_solid c1 _ H1).
  change (TAB ++ c2 ++ e) with (String "009" (c2 ++ e)).
  cbn [PyStr.re_split_tabs_from Ascii.eqb Bool.eqb].
  rewrite (re_split_after_tab c2 _ H2 N2), (re_split_solid c2 _ H2).
  assert (Hend : exists t, PyStr.re_split_tabs_from false e = "" :: t).
  { destruct He as [->|[r ->]]; [now exists []|].
    exists (PyStr.re_split_tabs_from true r). reflexivity. }
  destruct Hend as [t ->]. cbn [nth_error]. now rewrite !str_app_nil_r.
Qed.

Lemma solid_app (s t : string) : solid (s ++ t) = solid s && solid t.
Proof.
  induction s as [|a s IH]; [reflexivity|].
  change (String a s ++ t) with (String a (s ++ t)). cbn [solid].
  now rewrite IH, andb_assoc.
Qed.

(** What [strip] leaves of a well-formed row. *)
Lemma strip_row (name : string) (length bases : Z) (tail : string) :
  name <> "" -> solid name = true ->
  tail = LF \/ (exists more, tail = TAB ++ more) ->
  exists e,
    PyStr.strip (report_row name length bases tail)
    = name ++ TAB ++ PyStr.fmt_d length ++ TAB ++ PyStr.fmt_d bases ++ e
    /\ (e = "" \/ exists r, e = TAB ++ r).
Proof.
  intros Hne Hname Htail. unfold PyStr.strip, report_row.
  destruct (solid_fmt_d bases) as [Hb Nb].
  assert (Hl : PyStr.lstrip (name ++ TAB ++ PyStr.fmt_d length ++ TAB
                             ++ PyStr.fmt_d bases ++ tail)
               = name ++ TAB ++ PyStr.fmt_d length ++ TAB
                 ++ PyStr.fmt_d bases ++ tail).
  { destruct name as [|a name]; [congruence|].
    cbn [solid] in Hname. apply andb_true_iff in Hname. destruct Hname as [Ha _].
    apply negb_true_iff in Ha.
    change (String a name ++ ?x) with (String a (name ++ x)).
    cbn [PyStr.lstrip]. now rewrite Ha. }
  rewrite Hl.
  replace (name ++ TAB ++ PyStr.fmt_d length ++ TAB ++ PyStr.fmt_d bases ++ tail)
    with (((name ++ TAB ++ PyStr.fmt_d length ++ TAB) ++ PyStr.fmt_d bases) ++ tail)
    by (now rewrite !str_app_assoc).
  rewrite rstrip_app.
  assert (Hkeep : PyStr.rstrip ((name ++ TAB ++ PyStr.fmt_d length ++ TAB)
                                ++ PyStr.fmt_d bases)
                  = (name ++ TAB ++ PyStr.fmt_d length ++ TAB)
                    ++ PyStr.fmt_d bases).
  { rewrite rstrip_app, (rstrip_solid _ Hb).
    destruct (PyStr.fmt_d bases); [congruence | reflexivity]. }
  destruct Htail as [->|[more ->]].
  - exists "". split; [|now left].
    change (PyStr.rstrip LF) with "". rewrite Hkeep.
    now rewrite !str_app_assoc, str_app_nil_r.
  - change (TAB ++ more) with (String "009" more). cbn [PyStr.rstrip].
    destruct (PyStr.rstrip more) as [|b r].
    + exists "". split; [|now left].
      change (PyStr.is_space "009") with true. cbv iota. rewrite Hkeep.
      now rewrite !str_app_assoc, str_app_nil_r.
    + exists (TAB ++ String b r). split; [|right; eauto].
      now rewrite !str_app_assoc.
Qed.

(** The two columns of a well-formed row are read back exactly. *)
Lemma row_columns (r : depth_row) :
  well_formed_row r ->
  exists c1 c2,
    nth_error (PyStr.re_split_tabs (PyStr.strip (render_row r))) 1 = Some c1
    /\ nth_error (PyStr.re_split_tabs (PyStr.strip (render_row r))) 2 = Some c2
    /\ PyStr.int c1 = Some (row_length r)
    /\ PyStr.int c2 = Some (row_bases r).
Proof.
  intros (Hne & Hname & Htail & Dl & Db). unfold render_row.
  destruct (strip_row _ (row_length r) (row_bases r) _ Hne Hname Htail)
    as (e & -> & He).
  destruct (solid_fmt_d (row_length r)) as [Hl Nl].
  destruct (solid_fmt_d (row_bases r)) as [Hb Nb].
  destruct (re_split_three (row_name r) (PyStr.fmt_d (row_length r))
              (PyStr.fmt_d (row_bases r)) e Hname Hl Nl Hb Nb He) as [E1 E2].
  exists (PyStr.fmt_d (row_length r)), (PyStr.fmt_d (row_bases r)).
  repeat split; auto using int_fmt_d.
Qed.

(** Whether a well-formed row is counted is decided by its name. *)
Lemma counted_row (name rest : string) :
  name <> "" -> solid name = true ->
  counted (name ++ TAB ++ rest) = counted name.
Proof.
  intros Hne Hname.
  destruct (counted name) eqn:Hc; [now apply counted_app|].
  destruct (counted (name ++ TAB ++ rest)) eqn:Hc'; [|reflexivity].
  apply counted_iff in Hc'.
  assert (Hname_counted : counted name = true); [|congruence].
  destruct Hc' as [(a & s & E & Ha)|(a & s & E & Ha)].
  - destruct name as [|b name]; [congruence|].
    inversion E; subst. now apply counted_digit.
  - destruct name as [|n1 [|n2 [|n3 [|n4 name]]]]; [congruence|..];
      inversion E; subst; try discriminate.
    now apply (counted_chr_digit a name).
Qed.

Lemma sum_rows_rendered (rows : list depth_row) (length bases : Z) :
  Forall well_formed_row rows ->
  sum_rows (map render_row rows) length bases
  = Returned (length + fst (counted_sum rows), bases + snd (counted_sum rows)).
Proof.
  intros Hall. revert length bases.
  induction Hall as [|r rows Hr _ IH]; intros length bases.
  - cbn. now rewrite !Z.add_0_r.
  - cbn [map]. rewrite sum_rows_step.
    destruct (row_columns r Hr) as (c1 & c2 & -> & -> & -> & ->).
    destruct Hr as (Hne & Hname & _).
    unfold render_row at 1, report_row at 1. rewrite (counted_row _ _ Hne Hname).
    cbn [counted_sum fold_right]. fold (counted_sum rows).
    destruct (counted (row_name r)); rewrite IH; [|reflexivity].
    cbn [fst snd]. f_equal. f_equal; lia.
Qed.

(** ** Reading a report back from its file *)

Lemma lines_from_line (body rest : string) (cur : string -> string) :
  PyStr.contains "010" body = false ->
  PyStr.contains "013" body = false ->
  PyStr.lines_from cur (body ++ LF ++ rest)
  = cur (body ++ LF) :: PyStr.lines_from (fun x => x) rest.
Proof.
  revert cur. induction body as [|a body IH]; intros cur Hn Hr.
  - reflexivity.
  - cbn [PyStr.contains] in Hn, Hr.
    apply orb_false_iff in Hn. destruct Hn as [Hn Hn'].
    apply orb_false_iff in Hr. destruct Hr as [Hr Hr'].
    change (String a body ++ LF ++ rest) with (String a (body ++ LF ++ rest)).
    cbn [PyStr.lines_from]. rewrite Hn, Hr.
    now rewrite (IH (fun x => cur (String a x)) Hn' Hr').
Qed.

Lemma is_one_line_spec (s : string) : is_one_line s = true -> one_line s.
Proof.
  induction s as [|a s IH]; [discriminate|]. cbn [is_one_line].
  destruct s as [|b s].
  - intros H. apply Ascii.eqb_eq in H. subst a. now exists "".
  - intros H. apply andb_true_iff in H. destruct H as [H Hs].
    apply andb_true_iff in H. destruct H as [Hn Hr].
    apply negb_true_iff in Hn, Hr.
    destruct (IH Hs) as (body & E & Hbn & Hbr).
    exists (String a body). rewrite E. cbn [PyStr.contains].
    now rewrite Hn, Hr, Hbn, Hbr.
Qed.

(** Iterating over the file of a report gives its rows back. *)
Lemma readlines_report (rows : list depth_row) :
  Forall (fun r => one_line (render_row r)) rows ->
  PyStr.readlines (report_text rows) = map render_row rows.
Proof.
  unfold PyStr.readlines.
  induction 1 as [|r rows (body & E & Hn & Hr) _ IH]; [reflexivity|].
  cbn [report_text fold_right map]. fold (report_text rows).
  rewrite E, str_app_assoc, (lines_from_line body _ (fun x => x) Hn Hr).
  now rewrite IH.
Qed.

(** X8: on a report whose rows are well formed (a name without white
    space, the length and the bases in decimal with no more digits than
    [int] accepts, then the end of the line or further columns),
    [get_coverage] reads every number back exactly: it ends as the
    division of the total bases by the total length of the rows whose name
    is counted does, with [ZeroDivisionError] when that total length is 0,
    with their quotient rounded to a float otherwise, or with
    [OverflowError] when the quotient is too large for a float. *)
Theorem get_coverage_rendered_report (shell : string -> filesys -> Z * filesys)
    (Bam sampleID tempFolder subfolder : string) (w : world)
    (rows : list depth_row) :
  let sub_tmp := tempFolder ++ "/" ++ subfolder in
  let ran := shell (mosdepth_cmd sub_tmp sampleID Bam)
               (fs (snd (mkdir_parents sub_tmp w))) in
  mkdir_ok (fs w) sub_tmp = true ->
  fst ran = 0 ->
  files (snd ran) !! summary_file sub_tmp sampleID = Some (report_text rows) ->
  Forall well_formed_row rows ->
  Forall (fun r => one_line (render_row r)) rows ->
  fst (get_coverage shell Bam sampleID tempFolder subfolder w)
  = (if fst (counted_sum rows) =? 0 then Raised ZeroDivisionError
     else match round64 (inject_Z (snd (counted_sum rows))
                         / inject_Z (fst (counted_sum rows))) with
          | Some q => Returned q
          | None => Raised OverflowError
          end)
  /\ (forall r, In r rows ->
                row_values (render_row r) = Some (row_length r, row_bases r)).
Proof.
  intros sub_tmp ran Hdir Hok Hfile Hrows Hlines.
  destruct (get_coverage_run shell Bam sampleID tempFolder subfolder w Hdir)
    as (_ & _ & Hrun).
  destruct (Hrun Hok _ Hfile) as [-> _].
  rewrite (readlines_report rows Hlines). unfold coverage_of_lines.
  rewrite (sum_rows_rendered rows 0 0 Hrows), !Z.add_0_l.
  split; [reflexivity|].
  intros r Hin. rewrite List.Forall_forall in Hrows.
  destruct (row_columns r (Hrows r Hin)) as (c1 & c2 & E1 & E2 & I1 & I2).
  unfold row_values. now rewrite E1, E2, I1, I2.
Qed.

Lemma get_coverage_rendered_report_witness :
  fst (get_coverage
         (fun cmd f =>
            (0, {| dirs := dirs f;
                   files := <[ summary_file "ws/R1" "s1"
                               := report_text six_columns ]> (files f) |}))
         "ws/s1.dupRm.bam" "s1" "ws" "R1" Example.empty_world)
  = Returned (30 # 1)%Q.
Proof.
  refine (proj1 (get_coverage_rendered_report
                   (fun cmd f =>
                      (0, {| dirs := dirs f;
                             files := <[ summary_file "ws/R1" "s1"
                                         := report_text six_columns ]> (files f) |}))
                   "ws/s1.dupRm.bam" "s1" "ws" "R1" Example.empty_world
                   six_columns _ _ _ _ _)).
  - reflexivity.
  - reflexivity.
  - reflexivity.
  - repeat (apply List.Forall_cons;
            [split; [discriminate
                    | split; [reflexivity
                             | split; [first [left; reflexivity
                                             | right; eexists; reflexivity]
                                      | split; vm_compute; lia]]]|]).
    apply List.Forall_nil.
  - repeat (apply List.Forall_cons; [apply is_one_line_spec; reflexivity|]).
    apply List.Forall_nil.
Defined.

(** ** The Fraction Calculator, at its edges *)

(** X10: for a desired coverage that is a number and a finite observed
    coverage, [get_fraction] ends in [ZeroDivisionError] exactly when the
    observed coverage is zero and the desired coverage is negative and
    within the range of a float; it ends in [OverflowError] exactly when
    the desired coverage is an integer too large for a float, on either
    side of the comparison: above the observed coverage the message of
    line 140 cannot be formatted, so the error is not logged and the exit
    status 1 is that of the uncaught exception. *)
Theorem get_fraction_edges (v : pyval) (d o : Q) (w : world) :
  as_number v = Some d ->
  (fst (get_fraction v (Finite o) w) = Raised ZeroDivisionError
   <-> (o == 0)%Q /\ (d < 0)%Q /\ float_of v <> Raised OverflowError)
  /\ (fst (get_fraction v (Finite o) w) = Raised OverflowError
      <-> float_of v = Raised OverflowError)
  /\ (float_of v = Raised OverflowError ->
      log (snd (get_fraction v (Finite o) w)) = log w).
Proof.
  intros Hv. unfold get_fraction. rewrite Hv. cbn [ge_float].
  assert (Hfloat : (exists f, float_of v = Returned f)
                   \/ float_of v = Raised OverflowError).
  { destruct v as [|b|z|x|s]; try discriminate; cbn; eauto.
    destruct (round64 (inject_Z z)); eauto. }
  destruct Hfloat as [[f Hf]|Hf]; rewrite Hf.
  2:{ destruct (Qle_bool o d); unfold bind, lift; cbn [fst snd].
      - split; [|split; [|reflexivity]].
        + split; [discriminate|]. intros (_ & _ & H). congruence.
        + split; reflexivity.
      - split; [|split; [|reflexivity]].
        + split; [discriminate|]. intros (_ & _ & H). congruence.
        + split; reflexivity. }
  destruct (Qle_bool o d) eqn:Hle.
  - unfold bind, lift. cbn. split; [|split].
    + split; [discriminate|]. intros (Hz & Hd & _). exfalso.
      apply Qle_bool_iff in Hle. rewrite Hz in Hle.
      now apply (Qlt_not_le d 0).
    + split; discriminate.
    + discriminate.
  - assert (Hlt : (d < o)%Q).
    { apply Qnot_le_lt. intros Hod. apply Qle_bool_iff in Hod. congruence. }
    unfold bind, lift, float_truediv.
    destruct (Qeq_bool o 0) eqn:Hz.
    + apply Qeq_bool_iff in Hz. split; [|split].
      * split; [intros _|reflexivity].
        split; [exact Hz|]. split; [now rewrite <- Hz | discriminate].
      * split; discriminate.
      * discriminate.
    + assert (Hnz : ~ (o == 0)%Q) by (now apply Qeq_bool_neq).
      destruct (round64 (f / o)); cbn; (split; [|split]);
        try (split; [discriminate|]; intros (Hz' & _); contradiction);
        try (split; discriminate); discriminate.
Qed.

Lemma get_fraction_edges_witness :
  fst (get_fraction (PyInt (-15)) (Finite 0) Example.empty_world)
  = Raised ZeroDivisionError.
Proof.
  apply (proj1 (get_fraction_edges (PyInt (-15)) (inject_Z (-15)) 0
                  Example.empty_world eq_refl)).
  split; [reflexivity|]. split; [reflexivity|]. vm_compute. discriminate.
Defined.

(** A desired coverage of 1 followed by 400 zeros, above an observed
    coverage of 30: [OverflowError], nothing logged. A float quotient
    too large is an infinity. *)
Example get_fraction_beyond_float :
  get_fraction (PyInt (10 ^ 400)) (Finite (30 # 1)) Example.empty_world
  = (Raised OverflowError, Example.empty_world)
  /\ fst (get_fraction (PyFloat (- inject_Z (10 ^ 300))) (Finite (1 # 10 ^ 300))
            Example.empty_world)
     = Returned (Infinity true).
Proof. split; vm_compute; reflexivity. Qed.

(** ** The exit status *)

Lemma exits_one_bind {A B : Type} (m : M A) (k : A -> M B) :
  exits_one m -> (forall a, exits_one (k a)) -> exits_one (bind m k).
Proof.
  intros Hm Hk w c. rewrite bind_run. specialize (Hm w).
  destruct (fst (m w)) as [a|c'|e]; cbn [fst].
  - apply Hk.
  - intros E. inversion E; subst. now apply Hm.
  - discriminate.
Qed.

Lemma exits_one_ret {A : Type} (a : A) : exits_one (ret a).
Proof. intros w c. discriminate. Qed.

Lemma exits_one_raise {A : Type} (e : exn) : exits_one (@raise A e).
Proof. intros w c. discriminate. Qed.

Lemma exits_one_exit {A : Type} : exits_one (@sys_exit A 1).
Proof. intros w c E. cbn in E. now inversion E. Qed.

Lemma exits_one_logging (l : level) (msg : string) : exits_one (logging_emit l msg).
Proof. intros w c. discriminate. Qed.

Lemma exits_one_mkdir (p : string) : exits_one (mkdir_parents p).
Proof.
  intros w c. unfold mkdir_parents.
  destruct (existsb _ _); [discriminate|]. destruct (is_file _ _); discriminate.
Qed.

Lemma exits_one_open (p : string) : exits_one (open_read p).
Proof. intros w c. unfold open_read. destruct (files (fs w) !! p); discriminate. Qed.

Lemma exits_one_os_system (shell : string -> filesys -> Z * filesys) (cmd : string) :
  exits_one (os_system shell cmd).
Proof.
  intros w c. unfold os_system. destruct (shell cmd (fs w)). discriminate.
Qed.

Lemma exits_one_lift {A : Type} (o : outcome A) :
  (forall c, o <> SysExit c) -> exits_one (lift o).
Proof. intros Ho w c E. cbn in E. now destruct (Ho c). Qed.

(** The loop and the division raise or return: they never leave through
    [sys.exit]. *)
Lemma sum_rows_no_exit (lines : list string) (length bases c : Z) :
  sum_rows lines length bases <> SysExit c.
Proof.
  revert length bases. induction lines as [|line lines IH]; intros length bases.
  - discriminate.
  - rewrite sum_rows_step. destruct (counted line); [|apply IH].
    destruct (nth_error _ 1) as [c1|]; [|discriminate].
    destruct (PyStr.int c1) as [n1|]; [|discriminate].
    destruct (nth_error _ 2) as [c2|]; [|discriminate].
    destruct (PyStr.int c2) as [n2|]; [|discriminate].
    apply IH.
Qed.

Lemma coverage_of_lines_no_exit (lines : list string) (c : Z) :
  coverage_of_lines lines <> SysExit c.
Proof.
  unfold coverage_of_lines.
  pose proof (sum_rows_no_exit lines 0 0) as Hsum.
  destruct (sum_rows lines 0 0) as [[length bases]|c'|e];
    [|now destruct (Hsum c') | discriminate].
  unfold int_truediv. destruct (length =? 0); [discriminate|].
  destruct (round64 _); discriminate.
Qed.

Lemma exits_one_check_type (input_file : string) : exits_one (check_type input_file).
Proof.
  unfold check_type.
  destruct (PyStr.endswith_any _ _); [apply exits_one_ret|].
  destruct (PyStr.endswith_any _ _); [apply exits_one_ret|].
  apply exits_one_bind; [apply exits_one_logging | intros _; apply exits_one_exit].
Qed.

Lemma exits_one_temp_output_loc (args : Namespace) (out_dir : string)
    (tmp : option string) (sampleID cov : string) :
  exits_one (temp_output_loc args out_dir tmp sampleID cov).
Proof.
  unfold temp_output_loc. destruct tmp as [root|].
  - apply exits_one_bind; [apply exits_one_logging | intros _].
    apply exits_one_bind; [apply exits_one_mkdir | intros _; apply exits_one_ret].
  - apply exits_one_bind; [apply exits_one_logging | intros _].
    apply exits_one_bind.
    + unfold getattr. destruct (assoc _ _); [apply exits_one_ret | apply exits_one_raise].
    + intros d. apply exits_one_bind.
      * unfold as_path. destruct d; first [apply exits_one_ret | apply exits_one_raise].
      * intros p. apply exits_one_bind;
          [apply exits_one_mkdir | intros _; apply exits_one_ret].
Qed.

Lemma exits_one_remove_dup (shell : string -> filesys -> Z * filesys)
    (input_file tempLoc file_type sampleID : string) (skip_dupRm : bool)
    (thread : string) :
  exits_one (remove_dup shell input_file tempLoc file_type sampleID skip_dupRm thread).
Proof.
  unfold remove_dup.
  apply exits_one_bind; [apply exits_one_logging | intros _].
  apply exits_one_bind.
  { destruct skip_dupRm; [apply exits_one_logging | apply exits_one_ret]. }
  intros _. apply exits_one_bind.
  { apply exits_one_lift. intros c. unfold int_of. destruct (PyStr.int thread); discriminate. }
  intros threads. apply exits_one_bind; [apply exits_one_os_system | intros status].
  destruct (negb (status =? 0)).
  - apply exits_one_bind; [apply exits_one_logging | intros _; apply exits_one_exit].
  - apply exits_one_bind; [apply exits_one_logging | intros _; apply exits_one_ret].
Qed.

Lemma exits_one_get_coverage (shell : string -> filesys -> Z * filesys)
    (Bam sampleID tempFolder subfolder : string) :
  exits_one (get_coverage shell Bam sampleID tempFolder subfolder).
Proof.
  unfold get_coverage.
  apply exits_one_bind; [apply exits_one_mkdir | intros _].
  apply exits_one_bind; [apply exits_one_os_system | intros status].
  apply exits_one_bind.
  { destruct (negb (status =? 0)); [|apply exits_one_ret].
    apply exits_one_bind; [apply exits_one_logging | intros _; apply exits_one_exit]. }
  intros _. apply exits_one_bind; [apply exits_one_open | intros content].
  apply exits_one_bind.
  { apply exits_one_lift. intros c. apply coverage_of_lines_no_exit. }
  intros cov. apply exits_one_bind;
    [apply exits_one_logging | intros _; apply exits_one_ret].
Qed.

Lemma float_of_no_exit (v : pyval) (c : Z) : float_of v <> SysExit c.
Proof.
  destruct v as [|b|z|x|s]; try discriminate. cbn.
  destruct (round64 _); discriminate.
Qed.

Lemma exits_one_get_fraction (neededCov : pyval) (bamCov : pyfloat) :
  exits_one (get_fraction neededCov bamCov).
Proof.
  unfold get_fraction. destruct (as_number neededCov) as [needed|];
    [|apply exits_one_raise].
  destruct (ge_float needed bamCov).
  - apply exits_one_bind.
    { apply exits_one_lift. intros c. apply float_of_no_exit. }
    intros shown.
    apply exits_one_bind; [apply exits_one_logging | intros _; apply exits_one_exit].
  - apply exits_one_bind.
    { apply exits_one_lift. intros c. apply float_of_no_exit. }
    intros numerator. apply exits_one_bind.
    { apply exits_one_lift. intros c. unfold float_truediv.
      destruct bamCov as [b| |]; try discriminate.
      destruct (Qeq_bool b 0); [discriminate|].
      destruct (round64 _); discriminate. }
    intros fraction. apply exits_one_bind;
      [apply exits_one_logging | intros _; apply exits_one_ret].
Qed.

Lemma exits_one_downsample_bam (shell : string -> filesys -> Z * filesys)
    (dupRemovedBam output_dir sampleID : string) (fraction : pyfloat) (sd : Z)
    (cov : string) :
  exits_one (downsample_bam shell dupRemovedBam output_dir sampleID fraction sd cov).
Proof.
  unfold downsample_bam.
  apply exits_one_bind; [apply exits_one_mkdir | intros _].
  apply exits_one_bind; [apply exits_one_logging | intros _].
  apply exits_one_bind; [apply exits_one_os_system | intros status].
  destruct (negb (status =? 0)).
  - apply exits_one_bind; [apply exits_one_logging | intros _; apply exits_one_exit].
  - apply exits_one_bind; [apply exits_one_logging | intros _; apply exits_one_ret].
Qed.

Lemma exits_one_cleanUp (shell : string -> filesys -> Z * filesys)
    (tempFolder : string) :
  exits_one (cleanUp shell tempFolder).
Proof.
  unfold cleanUp.
  apply exits_one_bind; [apply exits_one_logging | intros _].
  apply exits_one_bind; [apply exits_one_os_system | intros _].
  apply exits_one_logging.
Qed.

Lemma exits_one_main (shell : string -> filesys -> Z * filesys) (args : Namespace) :
  exits_one (main shell args).
Proof.
  unfold main, main_after_fraction.
  apply exits_one_bind; [apply exits_one_check_type | intros file_type].
  apply exits_one_bind; [apply exits_one_temp_output_loc | intros tempFolder].
  apply exits_one_bind; [apply exits_one_remove_dup | intros dupRemovedBam].
  apply exits_one_bind; [apply exits_one_get_coverage | intros cov].
  apply exits_one_bind; [apply exits_one_get_fraction | intros fraction].
  apply exits_one_bind; [apply exits_one_downsample_bam | intros bam].
  apply exits_one_bind; [apply exits_one_get_coverage | intros newCov].
  apply exits_one_cleanUp.
Qed.

(** X12: every function of the pipeline that leaves through [sys.exit]
    does so with status 1, and every run of the driver ends with exit
    status 1: the status is never 0, whatever the options, the files and
    the tools. *)
Theorem main_exit_status (shell : string -> filesys -> Z * filesys)
    (args : Namespace) (w : world) :
  exit_status (fst (main shell args w)) = 1
  /\ (forall path tmp out sampleID cov file_type skip thread bam v x sd,
        exits_one (check_type path)
        /\ exits_one (temp_output_loc args out tmp sampleID cov)
        /\ exits_one (remove_dup shell path out file_type sampleID skip thread)
        /\ exits_one (get_coverage shell bam sampleID out cov)
        /\ exits_one (get_fraction v x)
        /\ exits_one (downsample_bam shell bam out sampleID x sd cov)
        /\ exits_one (cleanUp shell out)).
Proof.
  split.
  - pose proof (main_never_completes shell args w) as Hnever.
    pose proof (exits_one_main shell args w) as Hexit.
    destruct (fst (main shell args w)) as [[]|c|e]; cbn.
    + now destruct (Hnever tt).
    + now apply Hexit.
    + reflexivity.
  - intros. repeat split;
      auto using exits_one_check_type, exits_one_temp_output_loc,
        exits_one_remove_dup, exits_one_get_coverage, exits_one_get_fraction,
        exits_one_downsample_bam, exits_one_cleanUp.
Qed.

(** ** What the driver runs *)

Lemma check_type_frame (input_file : string) (w : world) :
  fs (snd (check_type input_file w)) = fs w
  /\ cmds (snd (check_type input_file w)) = cmds w.
Proof.
  unfold check_type.
  destruct (PyStr.endswith_any _ _); [split; reflexivity|].
  destruct (PyStr.endswith_any _ _); split; reflexivity.
Qed.

Lemma check_type_outcome (input_file : string) (w : world) :
  fst (check_type input_file w) = Returned "cram"
  \/ fst (check_type input_file w) = Returned "bam"
  \/ fst (check_type input_file w) = SysExit 1.
Proof.
  unfold check_type.
  destruct (PyStr.endswith_any _ _); [now left|].
  destruct (PyStr.endswith_any _ _); [right; now left | right; now right].
Qed.

Lemma temp_output_loc_cmds (args : Namespace) (out_dir : string)
    (tmp : option string) (sampleID cov : string) (w : world) :
  cmds (snd (temp_output_loc args out_dir tmp sampleID cov w)) = cmds w.
Proof.
  destruct tmp as [root|]; [|reflexivity].
  rewrite temp_output_loc_tmp_steps. cbv zeta.
  set (w1 := snd (logging_info _ w)).
  pose proof (mkdir_parents_frame (root ++ "/" ++ sampleID ++ "/" ++ cov ++ "x") w1)
    as [_ Hc].
  destruct (fst (mkdir_parents _ w1)); cbn [snd]; exact Hc.
Qed.

(** The commands of a run of the driver. *)
Lemma main_runs (shell : string -> filesys -> Z * filesys)
    (args : Namespace) (w : world) :
  exists new,
    cmds (snd (main shell args w)) = List.app (cmds w) new
    /\ (new = []
        \/ (exists tempFolder file_type threads status,
              new = [(remove_dup_cmd (input_file args) tempFolder file_type
                        (get_ID (input_file args) (sample_name args))
                        (skip_dupRm args) threads, status)])
        \/ (exists tempFolder file_type threads status,
              new = [(remove_dup_cmd (input_file args) tempFolder file_type
                        (get_ID (input_file args) (sample_name args))
                        (skip_dupRm args) threads, 0);
                     (mosdepth_cmd (tempFolder ++ "/" ++ "R1")
                        (get_ID (input_file args) (sample_name args))
                        (tempFolder ++ "/"
                         ++ get_ID (input_file args) (sample_name args)
                         ++ ".dupRm.bam"), status)])).
Proof.
  set (sampleID := get_ID (input_file args) (sample_name args)).
  unfold main. fold sampleID. rewrite bind_run.
  destruct (check_type_frame (input_file args) w) as [_ Hc0].
  set (w0 := snd (check_type (input_file args) w)) in *.
  destruct (fst (check_type (input_file args) w)) as [file_type|c|e];
    cbn [snd]; [|exists []; rewrite app_nil_r; auto..].
  rewrite bind_run.
  pose proof (temp_output_loc_cmds args (output_dir args) (tmp args) sampleID
                (coverage args) w0) as Hc1.
  set (r1 := temp_output_loc args (output_dir args) (tmp args) sampleID
               (coverage args) w0) in *.
  destruct (fst r1) as [tempFolder|c|e]; cbn [snd];
    [|exists []; rewrite app_nil_r, Hc1; auto..].
  rewrite bind_run.
  set (r2 := remove_dup shell (input_file args) tempFolder file_type sampleID
               (skip_dupRm args) (thread args) (snd r1)).
  destruct (PyStr.int (thread args)) as [threads|] eqn:Hthread.
  - destruct (remove_dup_run shell (input_file args) tempFolder file_type sampleID
                (skip_dupRm args) (thread args) threads (snd r1) Hthread)
      as (Hfst & _ & Hc2).
    fold r2 in Hfst, Hc2. rewrite Hc1, Hc0 in Hc2.
    rewrite Hfst.
    destruct (Z.eqb_spec (fst (shell (remove_dup_cmd (input_file args) tempFolder
                                        file_type sampleID (skip_dupRm args)
                                        threads) (fs (snd r1)))) 0) as [Hz|Hz].
    + cbn [snd]. rewrite bind_run.
      pose proof (get_coverage_cmds shell
                    (tempFolder ++ "/" ++ sampleID ++ ".dupRm.bam") sampleID
                    tempFolder "R1" (snd r2)) as Hc3.
      cbv zeta in Hc3.
      set (r3 := get_coverage shell _ sampleID tempFolder "R1" (snd r2)) in *.
      rewrite Hc2, Hz in Hc3.
      assert (Hgoal : cmds (snd (match fst r3 with
                                 | Returned cov =>
                                     (fraction <- get_fraction (PyStr (coverage args))
                                                    (Finite cov) ;
                                      main_after_fraction shell args sampleID tempFolder
                                        (tempFolder ++ "/" ++ sampleID ++ ".dupRm.bam")
                                        fraction) (snd r3)
                                 | SysExit c => (SysExit c, snd r3)
                                 | Raised e => (Raised e, snd r3)
                                 end)) = cmds (snd r3)).
      { destruct (fst r3) as [cov|c|e]; cbn [snd];
          [rewrite bind_run, get_fraction_str; cbn [fst snd]|..]; reflexivity. }
      rewrite Hgoal, Hc3, <- app_assoc.
      destruct (mkdir_ok (fs (snd r2)) (tempFolder ++ "/" ++ "R1")).
      * eexists. split; [reflexivity|].
        right. right. exists tempFolder, file_type, threads. eexists. reflexivity.
      * eexists. split; [reflexivity|].
        right. left. exists tempFolder, file_type, threads, 0. reflexivity.
    + cbn [snd]. eexists. split; [exact Hc2|].
      right. left. eauto.
  - destruct (remove_dup_bad_thread shell (input_file args) tempFolder file_type
                sampleID (skip_dupRm args) (thread args) (snd r1) Hthread)
      as (Hfst & Hc2 & _).
    fold r2 in Hfst, Hc2. rewrite Hfst. cbn [snd].
    exists []. rewrite app_nil_r, Hc2, Hc1. auto.
Qed.

(** None of them is the subsampling command or [rm -rf]. *)
Lemma main_runs_neither (shell : string -> filesys -> Z * filesys)
    (args : Namespace) (w : world) :
  exists new,
    cmds (snd (main shell args w)) = List.app (cmds w) new
    /\ Forall (fun entry => String.prefix "rm -rf" (fst entry) = false) new
    /\ Forall (fun entry => String.prefix "sambamba view -s" (fst entry) = false) new.
Proof.
  destruct (main_runs shell args w) as (new & Hnew & Hshape).
  exists new. split; [exact Hnew|].
  destruct Hshape as [-> | [(tf & ft & th & st & ->) | (tf & ft & th & st & ->)]];
    split; repeat constructor.
Qed.

(** X13: the driver runs at most two commands, in this order: the filter
    of [remove_dup] and the first coverage pass of [get_coverage]. The
    subsampler and [rm -rf] are never run: no downsampled file is ever
    asked for and the workspace is never removed. *)
Theorem main_commands (shell : string -> filesys -> Z * filesys)
    (args : Namespace) (w : world) :
  exists new,
    cmds (snd (main shell args w)) = List.app (cmds w) new
    /\ (new = []
        \/ (exists tempFolder file_type threads status,
              new = [(remove_dup_cmd (input_file args) tempFolder file_type
                        (get_ID (input_file args) (sample_name args))
                        (skip_dupRm args) threads, status)])
        \/ (exists tempFolder file_type threads status,
              new = [(remove_dup_cmd (input_file args) tempFolder file_type
                        (get_ID (input_file args) (sample_name args))
                        (skip_dupRm args) threads, 0);
                     (mosdepth_cmd (tempFolder ++ "/" ++ "R1")
                        (get_ID (input_file args) (sample_name args))
                        (tempFolder ++ "/"
                         ++ get_ID (input_file args) (sample_name args)
                         ++ ".dupRm.bam"), status)]))
    /\ Forall (fun entry =>
                 String.prefix "rm -rf" (fst entry) = false
                 /\ String.prefix "sambamba view -s" (fst entry) = false) new.
Proof.
  destruct (main_runs shell args w) as (new & Hnew & Hshape).
  exists new. split; [exact Hnew|]. split; [exact Hshape|].
  destruct Hshape as [-> | [(tf & ft & th & st & ->) | (tf & ft & th & st & ->)]];
    repeat constructor.
Qed.

(** X14: without [--tmp] the driver runs no command and leaves the file
    system as it was: it ends either in the exit of [check_type], for an
    input that is neither BAM nor CRAM, or in the [AttributeError] of
    [temp_output_loc]. *)
Theorem main_without_tmp (shell : string -> filesys -> Z * filesys)
    (args : Namespace) (w : world) :
  tmp args = None ->
  let r := main shell args w in
  (fst r = SysExit 1 \/ fst r = Raised AttributeError)
  /\ (fst r = Raised AttributeError
      <-> exists file_type, fst (check_type (input_file args) w) = Returned file_type)
  /\ cmds (snd r) = cmds w
  /\ fs (snd r) = fs w.
Proof.
  intros Htmp r. subst r. unfold main. rewrite bind_run, Htmp.
  destruct (check_type_frame (input_file args) w) as [Hfs Hcmds].
  destruct (check_type_outcome (input_file args) w) as [E|[E|E]]; rewrite E.
  - rewrite bind_run. cbn [fst snd temp_output_loc bind logging_info logging_emit
                             getattr fs cmds].
    repeat split; eauto.
  - rewrite bind_run. cbn [fst snd temp_output_loc bind logging_info logging_emit
                             getattr fs cmds].
    repeat split; eauto.
  - cbn [fst snd]. repeat split; auto.
    + discriminate.
    + intros [file_type H]. discriminate.
Qed.

Lemma main_without_tmp_witness :
  let r := main Example.tools_fail Example.args_default Example.empty_world in
  (fst r = SysExit 1 \/ fst r = Raised AttributeError)
  /\ (fst r = Raised AttributeError
      <-> exists file_type,
            fst (check_type (input_file Example.args_default) Example.empty_world)
            = Returned file_type)
  /\ cmds (snd r) = cmds Example.empty_world
  /\ fs (snd r) = fs Example.empty_world.
Proof.
  apply (main_without_tmp Example.tools_fail Example.args_default
           Example.empty_world).
  reflexivity.
Defined.

(** X15: with a tmp root and tools that remove no directory, a run whose
    input is BAM or CRAM ends with exit status 1 and removes no
    directory. When no regular file is in the way of the workspace
    [{tmp}/{sampleID}/{coverage}x], the workspace is created and still in
    place at the end: the driver has no cleanup on any path that it can
    take. When one is, the run ends in [NotADirectoryError] or
    [FileExistsError] before any command. *)
Theorem main_with_tmp (shell : string -> filesys -> Z * filesys)
    (args : Namespace) (root file_type : string) (w : world) :
  tools_keep_dirs shell ->
  tmp args = Some root ->
  fst (check_type (input_file args) w) = Returned file_type ->
  let workspace := root ++ "/" ++ get_ID (input_file args) (sample_name args)
                     ++ "/" ++ coverage args ++ "x" in
  let r := main shell args w in
  exit_status (fst r) = 1
  /\ dirs (fs w) ⊆ dirs (fs (snd r))
  /\ (mkdir_ok (fs w) workspace = true -> workspace ∈ dirs (fs (snd r)))
  /\ (mkdir_ok (fs w) workspace = false ->
      (fst r = Raised NotADirectoryError \/ fst r = Raised FileExistsError)
      /\ cmds (snd r) = cmds w).
Proof.
  intros Hkeep Htmp Hkind workspace r.
  split; [|split; [|split]].
  - pose proof (main_never_completes shell args w) as Hnever.
    pose proof (exits_one_main shell args w) as Hexit. fold r in Hexit, Hnever.
    destruct (fst r) as [[]|c|e]; cbn.
    + now destruct (Hnever tt).
    + now apply Hexit.
    + reflexivity.
  - subst r.
    assert (Hall : keeps_dirs (main shell args)).
    { unfold main. apply keeps_dirs_bind.
      - intros w1. destruct (check_type_frame (input_file args) w1) as [-> _].
        reflexivity.
      - intros ft. apply keeps_dirs_bind.
        + rewrite Htmp. unfold temp_output_loc.
          apply keeps_dirs_bind; [apply keeps_dirs_logging | intros _].
          apply keeps_dirs_bind; [apply keeps_dirs_mkdir | intros _].
          apply (keeps_dirs_pure (Returned _)).
        + intros tf. apply keeps_dirs_bind;
            [now apply keeps_dirs_remove_dup | intros bam].
          apply keeps_dirs_bind; [now apply keeps_dirs_get_coverage | intros cov].
          intros w3. rewrite bind_run, get_fraction_str. reflexivity. }
    apply Hall.
  - intros Hdir.
    destruct (main_leaves_workspace shell args root file_type w Hkeep Htmp Hkind Hdir)
      as [_ Hws].
    exact Hws.
  - intros Hdir. subst r. unfold main. rewrite bind_run, Hkind, Htmp.
    assert (Hw0 : snd (check_type (input_file args) w) = w).
    { unfold check_type in *.
      destruct (PyStr.endswith_any _ _); [reflexivity|].
      destruct (PyStr.endswith_any _ _); [reflexivity|discriminate]. }
    rewrite Hw0, bind_run.
    destruct (temp_output_loc_blocked args (output_dir args) root
                (get_ID (input_file args) (sample_name args)) (coverage args) w Hdir)
      as (e & He & ->).
    cbn [fst snd logging_info logging_emit cmds].
    split; [|reflexivity]. destruct He as [-> | ->]; auto.
Qed.

Lemma main_with_tmp_witness :
  (let r := main (Example.tools "scratch/s1/15x/R1/s1.mosdepth.summary.txt"
                    Example.report_30x)
              Example.args_tmp Example.workspace_world in
   exit_status (fst r) = 1
   /\ dirs (fs Example.workspace_world) ⊆ dirs (fs (snd r))
   /\ ("scratch" ++ "/" ++ get_ID (input_file Example.args_tmp)
                              (sample_name Example.args_tmp)
       ++ "/" ++ coverage Example.args_tmp ++ "x") ∈ dirs (fs (snd r)))
  /\ (let r := main Example.tools_fail args_blocked input_world in
      (fst r = Raised NotADirectoryError \/ fst r = Raised FileExistsError)
      /\ cmds (snd r) = cmds input_world).
Proof.
  split.
  - destruct (main_with_tmp
                (Example.tools "scratch/s1/15x/R1/s1.mosdepth.summary.txt"
                   Example.report_30x)
                Example.args_tmp "scratch" "bam" Example.workspace_world
                (tools_keep_dirs_example _ _) eq_refl eq_refl)
      as (H1 & H2 & H3 & _).
    cbv zeta. split; [exact H1|]. split; [exact H2|]. apply H3. reflexivity.
  - apply (main_with_tmp Example.tools_fail args_blocked "data" "bam" input_world).
    + intros cmd f _. reflexivity.
    + reflexivity.
    + reflexivity.
    + reflexivity.
Defined.

(** ** Start-up *)

(** X16: when the input file does not exist, [parse_args] logs the error
    and exits with status 1 before anything else: the output directory is
    not created. *)
Theorem parse_args_missing_input (subprocess_call : list string -> option Z)
    (args : Namespace) (w : world) :
  path_exists (fs w) (input_file args) = false ->
  let r := parse_args subprocess_call args w in
  fst r = SysExit 1
  /\ fs (snd r) = fs w
  /\ log (snd r)
     = List.app (log w) [(ERROR, "Input file not found: " ++ input_file args)].
Proof.
  intros Hmissing. cbv zeta. unfold parse_args, bind, ret. cbn [fst snd].
  rewrite Hmissing. repeat split.
Qed.

Lemma parse_args_missing_input_witness :
  fst (parse_args which_reports_missing Example.args_tmp Example.empty_world)
  = SysExit 1
  /\ fs (snd (parse_args which_reports_missing Example.args_tmp
                Example.empty_world)) = fs Example.empty_world
  /\ log (snd (parse_args which_reports_missing Example.args_tmp
                 Example.empty_world))
     = List.app (log Example.empty_world)
         [(ERROR, "Input file not found: " ++ input_file Example.args_tmp)].
Proof.
  apply (parse_args_missing_input which_reports_missing Example.args_tmp
           Example.empty_world).
  reflexivity.
Defined.

(** How [parse_args] goes when the input file exists and both probes
    can be run. *)
Lemma parse_args_run (subprocess_call : list string -> option Z)
    (args : Namespace) (w : world) (mosdepth_code sambamba_code : Z) :
  path_exists (fs w) (input_file args) = true ->
  mkdir_ok (fs w) (output_dir args) = true ->
  subprocess_call ["which"; "mosdepth"] = Some mosdepth_code ->
  subprocess_call ["which"; "sambamba"] = Some sambamba_code ->
  let r := parse_args subprocess_call args w in
  fst r = Returned args
  /\ log (snd r) = log w
  /\ cmds (snd r) = cmds w
  /\ output_dir args ∈ dirs (fs (snd r)).
Proof.
  intros Hfound Hdir Hm Hs. cbv zeta.
  unfold parse_args, bind, ret, probe_tool. cbn [fst snd].
  rewrite Hfound. cbn [negb fst snd]. rewrite (mkdir_parents_ok _ w Hdir), Hm, Hs.
  cbn [ret fst snd fs dirs files log cmds].
  repeat split. set_solver.
Qed.

(** X17: the return code of the two [which] probes is not looked at.
    When the input file exists, no regular file is in the way of the
    output directory and both probes can be run, [parse_args] returns the
    options unchanged, whatever the probes return (a tool that is not on
    the search path included), with nothing logged and the output
    directory and its parents created. *)
Theorem parse_args_probes_unchecked (subprocess_call : list string -> option Z)
    (args : Namespace) (w : world) (mosdepth_code sambamba_code : Z) :
  path_exists (fs w) (input_file args) = true ->
  mkdir_ok (fs w) (output_dir args) = true ->
  subprocess_call ["which"; "mosdepth"] = Some mosdepth_code ->
  subprocess_call ["which"; "sambamba"] = Some sambamba_code ->
  let r := parse_args subprocess_call args w in
  fst r = Returned args
  /\ log (snd r) = log w
  /\ cmds (snd r) = cmds w
  /\ output_dir args ∈ dirs (fs (snd r))
  /\ (forall d, In d (parents (output_dir args)) -> d ∈ dirs (fs (snd r)))
  /\ dirs (fs w) ⊆ dirs (fs (snd r))
  /\ files (fs (snd r)) = files (fs w).
Proof.
  intros Hfound Hdir Hm Hs. cbv zeta.
  unfold parse_args, bind, ret, probe_tool. cbn [fst snd].
  rewrite Hfound. cbn [negb fst snd]. rewrite (mkdir_parents_ok _ w Hdir), Hm, Hs.
  cbn [ret fst snd fs dirs files log cmds].
  repeat split; try set_solver.
  intros d Hd. apply elem_of_union_l, elem_of_union_r.
  apply elem_of_list_to_set. now apply list_elem_of_In.
Qed.

Lemma parse_args_probes_unchecked_witness :
  fst (parse_args which_reports_missing Example.args_tmp input_world)
  = Returned Example.args_tmp
  /\ log (snd (parse_args which_reports_missing Example.args_tmp input_world))
     = log input_world.
Proof.
  destruct (parse_args_probes_unchecked which_reports_missing Example.args_tmp
              input_world 1 1 eq_refl eq_refl eq_refl eq_refl) as (Hfst & Hlog & _).
  split; [exact Hfst | exact Hlog].
Defined.

(** X18: once the input file is found and the output directory created
    (no regular file is in its way), a probe stops [parse_args] only when
    the call itself raises: then the error is logged and the exit status
    is 1, for mosdepth first and for sambamba once the mosdepth probe has
    run. The output directory has been created by then. With a regular
    file in the way of the output directory, [parse_args] raises
    [NotADirectoryError] or [FileExistsError] before any probe, whatever
    the probes would do. *)
Theorem parse_args_probe_raises (subprocess_call : list string -> option Z)
    (args : Namespace) (w : world) :
  path_exists (fs w) (input_file args) = true ->
  let r := parse_args subprocess_call args w in
  (mkdir_ok (fs w) (output_dir args) = true ->
   subprocess_call ["which"; "mosdepth"] = None ->
   fst r = SysExit 1
   /\ log (snd r) = List.app (log w) [(ERROR, "mosdepth not found")]
   /\ output_dir args ∈ dirs (fs (snd r)))
  /\ (forall code,
        mkdir_ok (fs w) (output_dir args) = true ->
        subprocess_call ["which"; "mosdepth"] = Some code ->
        subprocess_call ["which"; "sambamba"] = None ->
        fst r = SysExit 1
        /\ log (snd r) = List.app (log w) [(ERROR, "sambamba not found")]
        /\ output_dir args ∈ dirs (fs (snd r)))
  /\ (mkdir_ok (fs w) (output_dir args) = false ->
      (fst r = Raised NotADirectoryError \/ fst r = Raised FileExistsError)
      /\ snd r = w).
Proof.
  intros Hfound. cbv zeta.
  unfold parse_args, bind, ret, probe_tool. cbn [fst snd].
  rewrite Hfound. cbn [negb fst snd]. split; [|split].
  - intros Hdir ->. rewrite (mkdir_parents_ok _ w Hdir).
    cbn [logging_error logging_emit bind sys_exit fst snd fs dirs log].
    repeat split. set_solver.
  - intros code Hdir -> ->. rewrite (mkdir_parents_ok _ w Hdir).
    cbn [ret logging_error logging_emit bind sys_exit fst snd fs dirs log].
    repeat split. set_solver.
  - intros Hdir.
    destruct (mkdir_parents_raises _ w Hdir) as [E|E]; rewrite E; cbn [fst snd]; auto.
Qed.

Lemma parse_args_probe_raises_witness :
  (fst (parse_args which_cannot_run Example.args_tmp input_world) = SysExit 1
   /\ log (snd (parse_args which_cannot_run Example.args_tmp input_world))
      = List.app (log input_world) [(ERROR, "mosdepth not found")]
   /\ output_dir Example.args_tmp
        ∈ dirs (fs (snd (parse_args which_cannot_run Example.args_tmp input_world))))
  /\ ((fst (parse_args which_reports_missing args_output_is_file input_world)
        = Raised NotADirectoryError
       \/ fst (parse_args which_reports_missing args_output_is_file input_world)
          = Raised FileExistsError)
      /\ snd (parse_args which_reports_missing args_output_is_file input_world)
         = input_world).
Proof.
  split.
  - apply (proj1 (parse_args_probe_raises which_cannot_run Example.args_tmp
                    input_world eq_refl)); reflexivity.
  - apply (proj2 (proj2 (parse_args_probe_raises which_reports_missing
                           args_output_is_file input_world eq_refl))).
    reflexivity.
Defined.

Lemma exits_one_parse_args (subprocess_call : list string -> option Z)
    (args : Namespace) :
  exits_one (parse_args subprocess_call args).
Proof.
  unfold parse_args.
  apply exits_one_bind; [intros w c; discriminate | intros found].
  apply exits_one_bind.
  { destruct (negb found); [|apply exits_one_ret].
    apply exits_one_bind; [apply exits_one_logging | intros _; apply exits_one_exit]. }
  intros _. apply exits_one_bind; [apply exits_one_mkdir | intros _].
  assert (Hprobe : forall tool, exits_one (probe_tool subprocess_call tool)).
  { intros tool. unfold probe_tool. destruct (subprocess_call _); [apply exits_one_ret|].
    apply exits_one_bind; [apply exits_one_logging | intros _; apply exits_one_exit]. }
  apply exits_one_bind; [apply Hprobe | intros _].
  apply exits_one_bind; [apply Hprobe | intros _; apply exits_one_ret].
Qed.

Lemma exits_one_set_logging (logging_attribute : string -> pyval) (loglevel : string) :
  exits_one (set_logging logging_attribute loglevel).
Proof.
  unfold set_logging. destruct (negb _); [apply exits_one_raise | apply exits_one_ret].
Qed.

(** X19: the whole script, from the parsed options on, ends with exit
    status 1 in every run: whatever the options, the files, the tools
    and the log levels that [logging] knows, the status is never 0. *)
Theorem script_exit_status (shell : string -> filesys -> Z * filesys)
    (subprocess_call : list string -> option Z)
    (logging_attribute : string -> pyval) (parsed : Namespace) (w : world) :
  exit_status (fst (script shell subprocess_call logging_attribute parsed w)) = 1.
Proof.
  assert (Hexit : exits_one (script shell subprocess_call logging_attribute parsed)).
  { unfold script.
    apply exits_one_bind; [apply exits_one_parse_args | intros args].
    apply exits_one_bind; [apply exits_one_set_logging | intros _].
    apply exits_one_main. }
  specialize (Hexit w).
  destruct (fst (script shell subprocess_call logging_attribute parsed w))
    as [[]|c|e] eqn:E; cbn.
  - exfalso. unfold script in E.
    apply bind_returned in E. destruct E as [args [_ E]].
    apply bind_returned in E. destruct E as [u [_ E]].
    now apply main_never_completes in E.
  - now apply Hexit.
  - reflexivity.
Qed.

(** X20: a [--loglevel] for which [logging] has no integer attribute
    ends the script in [ValueError] once [parse_args] has returned (the
    input file is there, no regular file is in the way of the output
    directory, the probes can be run): the output directory exists by
    then, and no command of the pipeline has been run. *)
Theorem script_bad_loglevel (shell : string -> filesys -> Z * filesys)
    (subprocess_call : list string -> option Z)
    (logging_attribute : string -> pyval) (parsed : Namespace) (w : world)
    (mosdepth_code sambamba_code : Z) :
  path_exists (fs w) (input_file parsed) = true ->
  mkdir_ok (fs w) (output_dir parsed) = true ->
  subprocess_call ["which"; "mosdepth"] = Some mosdepth_code ->
  subprocess_call ["which"; "sambamba"] = Some sambamba_code ->
  is_int (logging_attribute (loglevel parsed)) = false ->
  let r := script shell subprocess_call logging_attribute parsed w in
  fst r = Raised ValueError
  /\ cmds (snd r) = cmds w
  /\ log (snd r) = log w
  /\ output_dir parsed ∈ dirs (fs (snd r)).
Proof.
  intros Hfound Hout Hm Hs Hlevel. cbv zeta. unfold script. rewrite bind_run.
  destruct (parse_args_run subprocess_call parsed w mosdepth_code sambamba_code
              Hfound Hout Hm Hs) as (Hfst & Hlog & Hcmds & Hdir).
  rewrite Hfst, bind_run. unfold set_logging.
  rewrite Hlevel. cbn [negb raise fst snd]. repeat split; assumption.
Qed.

Lemma script_bad_loglevel_witness :
  fst (script Example.tools_fail which_reports_missing some_levels args_verbose
         input_world) = Raised ValueError
  /\ cmds (snd (script Example.tools_fail which_reports_missing some_levels
                  args_verbose input_world)) = cmds input_world
  /\ log (snd (script Example.tools_fail which_reports_missing some_levels
                 args_verbose input_world)) = log input_world
  /\ output_dir args_verbose
       ∈ dirs (fs (snd (script Example.tools_fail which_reports_missing
                          some_levels args_verbose input_world))).
Proof.
  apply (script_bad_loglevel Example.tools_fail which_reports_missing some_levels
           args_verbose input_world 1 1); reflexivity.
Defined.

(** ** What [int] takes *)

(** White space at both ends, a sign, underscores between digits; the
    separators of code 28 to 31 are no white space for [int], and a
    numeral of more than 4300 digits is refused. *)
Example int_accepts :
  PyStr.int (" 42" ++ LF) = Some 42
  /\ PyStr.int (String "160" "7") = Some 7
  /\ PyStr.int "+1_000" = Some 1000
  /\ PyStr.int "-15" = Some (-15)
  /\ PyStr.int (String "031" "4") = None
  /\ PyStr.int ("10" ++ String "031" "") = None
  /\ PyStr.int "4.0" = None
  /\ PyStr.int "" = None
  /\ PyStr.int (PyStr.zeros 4300) = Some 0
  /\ PyStr.int ("1" ++ PyStr.zeros 4300) = None.
Proof. repeat split; vm_compute; reflexivity. Qed.

(** The thread count [4] behind a separator of code 31 stops
    [remove_dup] on line 104, before any command. *)
Example remove_dup_separator_thread :
  let r := remove_dup Example.tools_fail "data/s1.bqsr.bam" "scratch/s1/15x" "bam"
             "s1" false (String "031" "4") Example.empty_world in
  fst r = Raised ValueError /\ cmds (snd r) = [].
Proof. split; reflexivity. Qed.

(** ** The steps the driver never reaches *)

(** The exit status of a run of the driver. *)
Lemma main_status (shell : string -> filesys -> Z * filesys)
    (args : Namespace) (w : world) :
  exit_status (fst (main shell args w)) = 1.
Proof.
  pose proof (main_never_completes shell args w) as Hnever.
  pose proof (exits_one_main shell args w) as Hexit.
  destruct (fst (main shell args w)) as [[]|c|e]; cbn.
  - now destruct (Hnever tt).
  - now apply Hexit.
  - reflexivity.
Qed.

(** C8 on the code. The seed is the constant 10 of line 170 and the
    command that [downsample_bam] builds with it carries
    [--subsampling-seed=10]; but no run of the driver invokes the
    Subsampler. Whatever the options, the files and the tools, the run
    does not end normally and none of the commands it has run is the
    subsampling command: there is no downsampled output to compare
    between two runs. On the run [--input_file data/s1.bqsr.bam --tmp
    scratch] with every tool succeeding and a measured coverage of 30,
    the run ends in the [TypeError] of line 186 and no file is at
    [.//s1/15x/s1.dupRm.subsam.bam]. *)
Theorem subsampler_never_invoked (shell : string -> filesys -> Z * filesys)
    (args : Namespace) (w : world) :
  seed = 10
  /\ (forall bam out id x cov,
        downsample_cmd bam out id x seed cov
        = "sambamba view -s " ++ fmt_float x ++ " --subsampling-seed=10 -f bam -o "
            ++ out ++ "/" ++ id ++ "/" ++ cov ++ "x/" ++ id ++ ".dupRm.subsam.bam "
            ++ bam)
  /\ (forall u, fst (main shell args w) <> Returned u)
  /\ (exists new,
        cmds (snd (main shell args w)) = List.app (cmds w) new
        /\ Forall (fun entry => String.prefix "sambamba view -s" (fst entry) = false)
             new)
  /\ (let r := main (Example.tools "scratch/s1/15x/R1/s1.mosdepth.summary.txt"
                       Example.report_30x)
                 Example.args_tmp Example.empty_world in
      fst r = Raised TypeError
      /\ Forall (fun entry => String.prefix "sambamba view -s" (fst entry) = false)
           (cmds (snd r))
      /\ files (fs (snd r)) !! ".//s1/15x/s1.dupRm.subsam.bam" = None).
Proof.
  split; [reflexivity|]. split.
  { intros bam out id x cov. unfold downsample_cmd, out_prefix.
    rewrite !str_app_assoc. reflexivity. }
  split; [intros u; apply main_never_completes|]. split.
  - destruct (main_runs_neither shell args w) as (new & Hnew & _ & Hall).
    exists new. split; [exact Hnew | exact Hall].
  - cbv zeta. split; [reflexivity|]. split; [|reflexivity].
    vm_compute. repeat constructor.
Qed.

(** A removal that fails: [cleanUp] returns all the same, and the
    workspace is still there. *)
Example cleanUp_rm_fails :
  let r := cleanUp (Example.tools_rm_fails "" []) "scratch/s1/15x"
             Example.workspace_world in
  fst r = Returned tt
  /\ cmds (snd r) = [("rm -rf scratch/s1/15x", 1)]
  /\ elements (dirs (fs (snd r))) = ["scratch/s1/15x"].
Proof. repeat split. Qed.

(** C10 on the code. [cleanUp] returns normally whatever [rm -rf
    {tempFolder}] returns, and the file system is the one the command
    leaves: the status is not looked at. It is not the only one: with
    [which] returning 1 for both tools, [parse_args] on an existing input
    returns normally and logs nothing. And no run reaches the cleanup:
    whatever the options, the files and the tools, the driver runs no
    [rm -rf] command and the exit status is 1, never 0. *)
Theorem cleanUp_unchecked_unreached (shell : string -> filesys -> Z * filesys)
    (tempFolder : string) (args : Namespace) (w w' : world) :
  let cmd := "rm -rf " ++ tempFolder in
  let r := cleanUp shell tempFolder w in
  (fst r = Returned tt
   /\ cmds (snd r) = List.app (cmds w) [(cmd, fst (shell cmd (fs w)))]
   /\ fs (snd r) = snd (shell cmd (fs w)))
  /\ (let p := parse_args which_reports_missing Example.args_tmp input_world in
      fst p = Returned Example.args_tmp /\ log (snd p) = [])
  /\ exit_status (fst (main shell args w')) = 1
  /\ (exists new,
        cmds (snd (main shell args w')) = List.app (cmds w') new
        /\ Forall (fun entry => String.prefix "rm -rf" (fst entry) = false) new).
Proof.
  intros cmd r.
  destruct (cleanUp_run shell tempFolder w) as (Hret & Hfs & Hcmds & _).
  fold cmd r in Hret, Hfs, Hcmds.
  split; [auto|]. split; [split; reflexivity|]. split; [apply main_status|].
  destruct (main_runs_neither shell args w') as (new & Hnew & Hall & _).
  exists new. split; [exact Hnew | exact Hall].
Qed.
